(** * Marker chart canvas: drawing policy, hit testing and hover redraw

    A shallow embedding of [src/components/marker-chart/Canvas.js]
    (class [MarkerChartCanvasImpl]) and the properties its specification
    states about it.

    Conventions of the embedding.

    - JavaScript numbers are modelled by [num]: the rationals extended with
      [Infinity], [-Infinity] and [NaN].  Arithmetic on finite values is
      exact (the rounding of binary64 is not modelled) and the sign of zero
      is not tracked: a zero divisor behaves as [+0].  The special values
      follow IEEE 754, so a division by zero yields an infinity or [NaN]
      and every comparison with [NaN] is false.
    - The canvas context is a log of the operations issued on it.
    - A call either returns, throws, or never leaves a row loop: [outcome].
    - An array read out of range gives [undefined]; in arithmetic and in
      comparisons [undefined] behaves as [NaN]. *)

From Stdlib Require Import ZArith QArith Qcanon Qround Lia Lqa.
From stdpp Require Import base decidable numbers option list strings gmap.

(** ** JavaScript numbers *)

Module JsNum.

Inductive num : Type :=
  | Fin (q : Qc)
  | PInf
  | NInf
  | NaN.

Global Instance num_eq_dec : EqDecision num.
Proof. solve_decision. Defined.

Definition qc (n : Z) (d : positive) : Qc := Q2Qc (n # d).
Definition ofZ (z : Z) : num := Fin (Qc_of_Z z).
Definition ofNat (n : nat) : num := ofZ (Z.of_nat n).
Definition frac (n : Z) (d : positive) : num := Fin (qc n d).

(** The infinity that has the sign of a non-zero [q]. *)
Definition signedInf (q : Qc) : num :=
  if bool_decide (0 < q)%Qc then PInf else NInf.

Definition neg (a : num) : num :=
  match a with
  | Fin q => Fin (- q)%Qc
  | PInf => NInf
  | NInf => PInf
  | NaN => NaN
  end.

Definition add (a b : num) : num :=
  match a, b with
  | NaN, _ | _, NaN => NaN
  | Fin p, Fin q => Fin (p + q)%Qc
  | PInf, NInf | NInf, PInf => NaN
  | PInf, _ | _, PInf => PInf
  | NInf, _ | _, NInf => NInf
  end.

Definition sub (a b : num) : num := add a (neg b).

Definition mul (a b : num) : num :=
  match a, b with
  | NaN, _ | _, NaN => NaN
  | Fin p, Fin q => Fin (p * q)%Qc
  | Fin p, PInf | PInf, Fin p =>
      if bool_decide (p = 0%Qc) then NaN else signedInf p
  | Fin p, NInf | NInf, Fin p =>
      if bool_decide (p = 0%Qc) then NaN else neg (signedInf p)
  | PInf, PInf | NInf, NInf => PInf
  | PInf, NInf | NInf, PInf => NInf
  end.

Definition div (a b : num) : num :=
  match a, b with
  | NaN, _ | _, NaN => NaN
  | Fin p, Fin q =>
      if bool_decide (q = 0%Qc)
      then (if bool_decide (p = 0%Qc) then NaN else signedInf p)
      else Fin (p / q)%Qc
  | Fin _, (PInf | NInf) => Fin 0%Qc
  | PInf, Fin q => if bool_decide (0 <= q)%Qc then PInf else NInf
  | NInf, Fin q => if bool_decide (0 <= q)%Qc then NInf else PInf
  | (PInf | NInf), (PInf | NInf) => NaN
  end.

(** [a < b], [a <= b] and [a === b] of JavaScript. *)
Definition ltb (a b : num) : bool :=
  match a, b with
  | NaN, _ | _, NaN => false
  | Fin p, Fin q => bool_decide (p < q)%Qc
  | NInf, (Fin _ | PInf) => true
  | Fin _, PInf => true
  | _, _ => false
  end.

Definition leb (a b : num) : bool :=
  match a, b with
  | NaN, _ | _, NaN => false
  | Fin p, Fin q => bool_decide (p <= q)%Qc
  | NInf, _ => true
  | _, PInf => true
  | _, _ => false
  end.

Definition gtb (a b : num) : bool := ltb b a.
Definition geb (a b : num) : bool := leb b a.

Definition eqb (a b : num) : bool :=
  match a, b with
  | Fin p, Fin q => bool_decide (p = q)
  | PInf, PInf | NInf, NInf => true
  | _, _ => false
  end.

(** [Math.floor], [Math.ceil], [Math.round] (halves go up), [Math.min] and
    [Math.max]. *)
Definition floor (a : num) : num :=
  match a with Fin q => ofZ (Qfloor q) | _ => a end.

Definition ceil (a : num) : num :=
  match a with Fin q => ofZ (Qceiling q) | _ => a end.

Definition round (a : num) : num :=
  match a with Fin q => ofZ (Qfloor (q + qc 1 2)%Qc) | _ => a end.

Definition min (a b : num) : num :=
  match a, b with
  | NaN, _ | _, NaN => NaN
  | _, _ => if ltb b a then b else a
  end.

Definition max (a b : num) : num :=
  match a, b with
  | NaN, _ | _, NaN => NaN
  | _, _ => if ltb a b then b else a
  end.

Definition isFinite (a : num) : bool :=
  match a with Fin _ => true | _ => false end.

(** The array index a number designates, when it designates one: a property
    key that is not a non-negative integer names no element. *)
Definition asArrayIndex (k : num) : option nat :=
  match k with
  | Fin q =>
      if bool_decide (Qc_of_Z (Qfloor q) = q) && bool_decide (0 <= q)%Qc
      then Some (Z.to_nat (Qfloor q)) else None
  | _ => None
  end.

End JsNum.

Export JsNum.

Declare Scope num_scope.
Delimit Scope num_scope with num.
Bind Scope num_scope with num.
Infix "+" := add : num_scope.
Infix "-" := sub : num_scope.
Infix "*" := mul : num_scope.
Infix "/" := div : num_scope.
Infix "<?" := ltb : num_scope.
Infix "<=?" := leb : num_scope.
Infix ">?" := gtb : num_scope.
Infix ">=?" := geb : num_scope.
Infix "=?" := eqb : num_scope.

(** ** Outcomes of a call *)

Inductive error : Type :=
  | TypeError
  | Error (message : string).

Inductive outcome (A : Type) : Type :=
  | Return (a : A)
  | Throw (e : error)
  | Loops.
Arguments Return {A} a.
Arguments Throw {A} e.
Arguments Loops {A}.

Global Instance outcome_ret : MRet outcome := @Return.
Global Instance outcome_bind : MBind outcome := fun A B k o =>
  match o with
  | Return a => k a
  | Throw e => Throw e
  | Loops => Loops
  end.

Definition fails {A} (o : outcome A) : Prop := exists e, o = Throw e.

(** ** Data model *)

Definition MarkerIndex : Type := nat.

(** A value of type [MarkerIndex | null]; an array read out of range also
    makes it [undefined].  [===] on these values is equality. *)
Inductive jsIndex : Type :=
  | Null
  | Undefined
  | Idx (i : MarkerIndex).

Global Instance jsIndex_eq_dec : EqDecision jsIndex.
Proof. solve_decision. Defined.

Global Instance jsIndex_countable : Countable jsIndex.
Proof.
  refine (inj_countable'
    (fun k => match k with Null => None | Undefined => Some None | Idx i => Some (Some i) end)
    (fun o => match o with None => Null | Some None => Undefined | Some (Some i) => Idx i end)
    _).
  intros []; reflexivity.
Defined.

(** One timing row: parallel arrays and the row's name.  [length] is a
    field of its own in the source, not the length of an array. *)
Module MarkerTiming.
Record t : Type := mk {
  start : list num;
  end_ : list num;
  index : list MarkerIndex;
  label : list string;
  name : string;
  length : nat;
}.
End MarkerTiming.

(** An element of [markerTimingAndBuckets]: a bucket name (a plain string)
    or a timing row. *)
Inductive Row : Type :=
  | Bucket (bucketName : string)
  | Timing (markerTiming : MarkerTiming.t).

Definition MarkerTimingAndBuckets : Type := list Row.

Record Viewport : Type := {
  viewportLeft : num;
  viewportRight : num;
  viewportTop : num;
  viewportBottom : num;
  containerWidth : num;
  containerHeight : num;
}.

Record TimelineTrackOrganization : Type := { type : string }.

Record Props : Type := {
  rangeStart : num;
  rangeEnd : num;
  markerTimingAndBuckets : MarkerTimingAndBuckets;
  rowHeight : num;
  marginLeft : num;
  marginRight : num;
  selectedMarkerIndex : jsIndex;
  rightClickedMarkerIndex : jsIndex;
  timelineTrackOrganization : TimelineTrackOrganization;
  viewport : Viewport;
}.

Record HoveredMarkerChartItems : Type := {
  markerIndex : jsIndex;
  rowIndexOfLabel : option nat;
}.

(** The text measurement tool ([utils/text-measurement]), an external
    collaborator.  [getFittedText] gives the empty string when nothing
    fits; its first argument may be [undefined]. *)
Record TextMeasurement : Type := {
  minWidth : num;
  getFittedText : option string -> num -> string;
  getTextWidth : string -> num;
}.

Definition TEXT_OFFSET_TOP : num := ofZ 11.
Definition TEXT_OFFSET_START : num := ofZ 3.
Definition MARKER_DOT_RADIUS : num := frac 1 4.
Definition LABEL_PADDING : num := ofZ 5.
Definition MARKER_BORDER_COLOR : string := "#2c77d1".

(** The colours taken from the [photon-colors] package. *)
Definition GREY_20 : string := "#ededf0".
Definition GREY_30 : string := "#d7d7db".
Definition BLUE_60 : string := "#0060df".
Definition BLUE_80 : string := "#002275".

(** *** Array reads *)

(** [array[i]] on an array of numbers, as the arithmetic and the
    comparisons that consume it see it. *)
Definition readNum (array : list num) (i : nat) : num :=
  default NaN (array !! i).

Definition readIndex (array : list MarkerIndex) (i : nat) : jsIndex :=
  from_option Idx Undefined (array !! i).

(** [markerTimingAndBuckets[rowIndex]]: [None] is [undefined]. *)
Definition readRow (rows : MarkerTimingAndBuckets) (rowIndex : num) : option Row :=
  i ← asArrayIndex rowIndex; rows !! i.

(** [row.name]: a string has no such property. *)
Definition rowName (r : Row) : option string :=
  match r with
  | Bucket _ => None
  | Timing mt => Some (MarkerTiming.name mt)
  end.

(** ** Bisection *)

(** Modelled from the spec: [bisectionRight] of [utils/bisect], which is
    not among the sources.  The specification describes it as a binary
    search of the ascending array for the insertion point of [x], the
    first index whose element is strictly greater than [x].  The loop
    halves the interval [low, high) until it is empty; [fuel] bounds the
    number of halvings. *)
Fixpoint bisectionLoop (fuel : nat) (array : list num) (x : num)
    (low high : nat) : nat :=
  match fuel with
  | O => low
  | S fuel' =>
      if (low <? high)%nat then
        let mid := ((low + high) / 2)%nat in
        if (x <? readNum array mid)%num
        then bisectionLoop fuel' array x low mid
        else bisectionLoop fuel' array x (S mid) high
      else low
  end.

(** Modelled from the spec: [bisectionRight(array, x)], the search over
    the whole array. *)
Definition bisectionRight (array : list num) (x : num) : nat :=
  bisectionLoop (List.length array) array x 0 (List.length array).

(** ** Hit testing *)

Definition isMarkerTimingInDotRadius (markerTiming : MarkerTiming.t)
    (xInTime dotRadiusInTime : num) (index : nat) : bool :=
  (readNum (MarkerTiming.start markerTiming) index <? xInTime + dotRadiusInTime)%num
  && (readNum (MarkerTiming.end_ markerTiming) index >? xInTime - dotRadiusInTime)%num.

(** The candidate of the common case (lines 699-708): the closer of the
    marker before the insertion point and the marker at it. *)
Definition closest (markerTiming : MarkerTiming.t) (xInTime : num)
    (nextStartIndex : nat) : nat :=
  let prevStartIndex := (nextStartIndex - 1)%nat in
  let distanceToNext :=
    (readNum (MarkerTiming.start markerTiming) nextStartIndex - xInTime)%num in
  let distanceToPrev :=
    (xInTime - readNum (MarkerTiming.end_ markerTiming) prevStartIndex)%num in
  if (distanceToPrev <? distanceToNext)%num then prevStartIndex else nextStartIndex.

(** The marker search of [hitTest] (lines 684-729): the value of
    [markerIndex] after it. *)
Definition hitTestMarker (markerTiming : MarkerTiming.t)
    (xInTime dotRadiusInTime : num) : jsIndex :=
  let inRadius := isMarkerTimingInDotRadius markerTiming xInTime dotRadiusInTime in
  let nextStartIndex := bisectionRight (MarkerTiming.start markerTiming) xInTime in
  let candidate :=
    if (0 <? nextStartIndex)%nat && (nextStartIndex <? MarkerTiming.length markerTiming)%nat
    then closest markerTiming xInTime nextStartIndex
    else if (nextStartIndex =? 0)%nat then nextStartIndex
    else (nextStartIndex - 1)%nat in
  if inRadius candidate
  then readIndex (MarkerTiming.index markerTiming) candidate
  else Null.

Definition markerContainerWidth (props : Props) : num :=
  (containerWidth (viewport props) - marginLeft props - marginRight props)%num.

Definition rangeLength (props : Props) : num :=
  (rangeEnd props - rangeStart props)%num.

Definition viewportLength (props : Props) : num :=
  (viewportRight (viewport props) - viewportLeft (viewport props))%num.

Definition dotRadius (props : Props) : num :=
  (MARKER_DOT_RADIUS * rowHeight props)%num.

Definition xInUnitInterval (props : Props) (x : num) : num :=
  (viewportLeft (viewport props)
   + viewportLength props * ((x - marginLeft props) / markerContainerWidth props))%num.

Definition dotRadiusInTime (props : Props) : num :=
  ((dotRadius props / markerContainerWidth props) * viewportLength props
   * rangeLength props)%num.

Definition xInTime (props : Props) (x : num) : num :=
  (rangeStart props + xInUnitInterval props x * rangeLength props)%num.

Definition hitTestRowIndex (props : Props) (y : num) : num :=
  floor ((y + viewportTop (viewport props)) / rowHeight props)%num.

Definition isActiveTab (props : Props) : bool :=
  bool_decide (type (timelineTrackOrganization props) = "active-tab").

(** The label test of the active tab view (lines 731-751): the value of
    [rowIndexOfLabel] after it.  Reading [name] of the row before row 0
    reads a property of [undefined]. *)
Definition hitTestLabel (props : Props) (_textMeasurement : option TextMeasurement)
    (x rowIndex : num) (markerTiming : MarkerTiming.t) : outcome (option nat) :=
  if isActiveTab props then
    match readRow (markerTimingAndBuckets props) (rowIndex - ofZ 1)%num with
    | None => Throw TypeError
    | Some prevMarkerTiming =>
        let measurement :=
          if bool_decide (rowName prevMarkerTiming <> Some (MarkerTiming.name markerTiming))
          then _textMeasurement else None in
        match measurement with
        | Some textMeasurement =>
            let textWidth := getTextWidth textMeasurement (MarkerTiming.name markerTiming) in
            if (x <? textWidth + LABEL_PADDING * ofZ 2)%num
            then Return (asArrayIndex rowIndex)
            else Return None
        | None => Return None
        end
    end
  else Return None.

Definition hitTest (props : Props) (_textMeasurement : option TextMeasurement)
    (x y : num) : outcome (option HoveredMarkerChartItems) :=
  if (x <? marginLeft props - dotRadius props)%num then Return None
  else
    let rowIndex := hitTestRowIndex props y in
    match readRow (markerTimingAndBuckets props) rowIndex with
    | None | Some (Bucket _) => Return None
    | Some (Timing markerTiming) =>
        if (MarkerTiming.length markerTiming =? 0)%nat then Return None
        else
          let markerIndex :=
            hitTestMarker markerTiming (xInTime props x) (dotRadiusInTime props) in
          rowIndexOfLabel ← hitTestLabel props _textMeasurement x rowIndex markerTiming;
          if bool_decide (markerIndex = Null) && bool_decide (rowIndexOfLabel = None)
          then Return None
          else Return (Some {| markerIndex := markerIndex;
                               rowIndexOfLabel := rowIndexOfLabel |})
    end.

(** ** The canvas context *)

Inductive CtxOp : Type :=
  | SetLineWidth (w : num)
  | SetFillStyle (style : string)
  | SetStrokeStyle (style : string)
  | FillRect (x y w h : num)
  | BeginPath
  | Rect (x y w h : num)
  | MoveTo (x y : num)
  | LineTo (x y : num)
  | ClosePath
  | Fill
  | Stroke
  | Clip
  | Save
  | Restore
  | FillText (text : string) (x y : num).

(** What a draw call finds around it: [window.devicePixelRatio], the text
    measurement tool that [_getTextMeasurement] hands out (its lazy
    creation is not tracked) and the constant [TIMELINE_MARGIN_LEFT] of
    [app-logic/constants]. *)
Record Env : Type := {
  devicePixelRatio : num;
  textMeasurement : TextMeasurement;
  TIMELINE_MARGIN_LEFT : num;
}.

(** ** Drawing one marker *)

(** The width left to the text of a bigger interval marker (lines
    349-350). *)
Definition textWidthAvailable (props : Props) (x w : num) : num :=
  let visibleWidth :=
    if (x <? marginLeft props)%num then (w - marginLeft props + x)%num else w in
  (visibleWidth - ofZ 2 * TEXT_OFFSET_START)%num.

(** The text of a bigger interval marker (lines 344-358). *)
Definition drawIntervalText (env : Env) (props : Props)
    (x y w : num) (text : option string) (isHighlighted : bool) : list CtxOp :=
  let x2 :=
    if (x <? marginLeft props)%num
    then (marginLeft props + TEXT_OFFSET_START)%num
    else (x + TEXT_OFFSET_START)%num in
  let w2 := textWidthAvailable props x w in
  if (w2 >? minWidth (textMeasurement env))%num then
    let fittedText := getFittedText (textMeasurement env) text w2 in
    if bool_decide (fittedText <> "")
    then [SetFillStyle (if isHighlighted then "white" else "black");
          FillText fittedText x2 (y + TEXT_OFFSET_TOP)%num]
    else []
  else [].

Definition drawOneIntervalMarker (env : Env) (props : Props)
    (x y w h : num) (text : option string) (isHighlighted : bool) : list CtxOp :=
  if (w <=? ofZ 2)%num then
    [SetFillStyle (if isHighlighted then BLUE_80 else MARKER_BORDER_COLOR);
     FillRect x (y + ofZ 1)%num (max w (ofZ 1)) (h - ofZ 2)%num]
  else
    [SetFillStyle (if isHighlighted then BLUE_60 else "#8ac4ff");
     SetStrokeStyle (if isHighlighted then BLUE_80 else MARKER_BORDER_COLOR);
     BeginPath;
     Rect (x + frac 1 2)%num (y + ofZ 1 + frac 1 2)%num
          (w - ofZ 1)%num (h - ofZ 2 - ofZ 1)%num;
     Fill;
     Stroke]
    ++ drawIntervalText env props x y w text isHighlighted.

Definition drawOneInstantMarker (x y h : num) (isHighlighted : bool) : list CtxOp :=
  [SetFillStyle (if isHighlighted then BLUE_60 else "#8ac4ff");
   SetStrokeStyle (if isHighlighted then BLUE_80 else MARKER_BORDER_COLOR);
   BeginPath;
   MoveTo (x - h / ofZ 4)%num (y + h / ofZ 2)%num;
   LineTo x (y + frac 3 2)%num;
   LineTo (x + h / ofZ 4)%num (y + h / ofZ 2)%num;
   LineTo x (y + h - frac 3 2)%num;
   ClosePath;
   Fill;
   Stroke].

Definition drawOneMarker (env : Env) (props : Props) (x y w h : num)
    (isInstantMarker : bool) (text : option string) (isHighlighted : bool)
    : list CtxOp :=
  if isInstantMarker
  then drawOneInstantMarker x y h isHighlighted
  else drawOneIntervalMarker env props x y w h text isHighlighted.

(** ** Drawing the markers of a range of rows *)

Module MarkerDrawingInformation.
Record t : Type := mk {
  x : num;
  y : num;
  w : num;
  h : num;
  isInstantMarker : bool;
  text : option string;
}.
End MarkerDrawingInformation.

(** The successive values of [rowIndex] in
    [for (let rowIndex = startRow; rowIndex < endRow; rowIndex++)].
    From [-Infinity], or towards [Infinity], the loop is never left. *)
Definition rowLoop (startRow endRow : num) : outcome (list num) :=
  match startRow, endRow with
  | NaN, _ | _, NaN => Return []
  | PInf, _ => Return []
  | _, NInf => Return []
  | NInf, _ => Loops
  | Fin _, PInf => Loops
  | Fin s, Fin e =>
      Return (List.map (fun k : nat => Fin (s + Qc_of_Z (Z.of_nat k))%Qc)
                       (seq 0 (Z.to_nat (Qceiling (e - s)%Qc))))
  end.

Definition timeAtViewportLeft (props : Props) : num :=
  (rangeStart props + rangeLength props * viewportLeft (viewport props))%num.

Definition timeAtViewportRightPlusMargin (props : Props) : num :=
  (rangeStart props
   + rangeLength props * viewportRight (viewport props)
   + marginRight props
     * ((viewportLength props * rangeLength props) / markerContainerWidth props))%num.

(** "Only draw samples that are in bounds" (lines 455-458). *)
Definition inBounds (props : Props) (startTimestamp endTimestamp : num) : bool :=
  (endTimestamp >=? timeAtViewportLeft props)%num
  && (startTimestamp <? timeAtViewportRightPlusMargin props)%num.

Definition alignToDevicePixel (env : Env) (v : num) : num :=
  (round (v * devicePixelRatio env) / devicePixelRatio env)%num.

(** [x] and [w] before they are rounded (lines 459-470). *)
Definition markerRawX (props : Props) (startTimestamp : num) : num :=
  let startTime := ((startTimestamp - rangeStart props) / rangeLength props)%num in
  (((startTime - viewportLeft (viewport props)) * markerContainerWidth props)
   / viewportLength props
   + marginLeft props)%num.

Definition markerRawW (props : Props) (startTimestamp endTimestamp : num) : num :=
  let startTime := ((startTimestamp - rangeStart props) / rangeLength props)%num in
  let endTime := ((endTimestamp - rangeStart props) / rangeLength props)%num in
  (((endTime - startTime) * markerContainerWidth props) / viewportLength props)%num.

Definition markerX (env : Env) (props : Props) (startTimestamp : num) : num :=
  alignToDevicePixel env (markerRawX props startTimestamp).

Definition markerW (env : Env) (props : Props) (startTimestamp endTimestamp : num) : num :=
  alignToDevicePixel env (markerRawW props startTimestamp endTimestamp).

Definition markerY (props : Props) (rowIndex : num) : num :=
  (rowIndex * rowHeight props - viewportTop (viewport props))%num.

Definition markerH (props : Props) : num := (rowHeight props - ofZ 1)%num.

Definition isHighlighted (props : Props) (hoveredItem markerIndex : jsIndex) : bool :=
  bool_decide (rightClickedMarkerIndex props = markerIndex)
  || bool_decide (hoveredItem = markerIndex)
  || bool_decide (selectedMarkerIndex props = markerIndex).

(** What the two loops of [drawMarkers] carry along. *)
Record DrawState : Type := {
  previousMarkerDrawnAtX : option num;
  drawn : list CtxOp;
  highlightedMarkers : list MarkerDrawingInformation.t;
}.

(** [x !== previousMarkerDrawnAtX], where [null] is no number. *)
Definition differsFromPrevious (x : num) (previous : option num) : bool :=
  match previous with
  | None => true
  | Some p => negb (x =? p)%num
  end.

(** One turn of the inner loop (lines 450-497). *)
Definition drawMarkerAt (env : Env) (props : Props) (hoveredItem : jsIndex)
    (rowIndex : num) (markerTiming : MarkerTiming.t)
    (st : DrawState) (i : nat) : DrawState :=
  let startTimestamp := readNum (MarkerTiming.start markerTiming) i in
  let endTimestamp := readNum (MarkerTiming.end_ markerTiming) i in
  let isInstantMarker := (startTimestamp =? endTimestamp)%num in
  if inBounds props startTimestamp endTimestamp then
    let x := markerX env props startTimestamp in
    let y := markerY props rowIndex in
    let w := markerW env props startTimestamp endTimestamp in
    let h := markerH props in
    let text := MarkerTiming.label markerTiming !! i in
    let markerIndex := readIndex (MarkerTiming.index markerTiming) i in
    if isHighlighted props hoveredItem markerIndex then
      {| previousMarkerDrawnAtX := previousMarkerDrawnAtX st;
         drawn := drawn st;
         highlightedMarkers :=
           highlightedMarkers st
           ++ [MarkerDrawingInformation.mk x y w h isInstantMarker text] |}
    else if (w >? ofZ 1)%num || differsFromPrevious x (previousMarkerDrawnAtX st) then
      {| previousMarkerDrawnAtX := Some x;
         drawn := drawn st ++ drawOneMarker env props x y w h isInstantMarker text false;
         highlightedMarkers := highlightedMarkers st |}
    else st
  else st.

(** One turn of the outer loop (lines 437-499). *)
Definition drawMarkersRow (env : Env) (props : Props) (hoveredItem : jsIndex)
    (st : DrawState) (rowIndex : num) : DrawState :=
  match readRow (markerTimingAndBuckets props) rowIndex with
  | None | Some (Bucket _) => st
  | Some (Timing markerTiming) =>
      foldl (drawMarkerAt env props hoveredItem rowIndex markerTiming)
            {| previousMarkerDrawnAtX := None;
               drawn := drawn st;
               highlightedMarkers := highlightedMarkers st |}
            (seq 0 (MarkerTiming.length markerTiming))
  end.

Definition drawHighlightedMarker (env : Env) (props : Props)
    (highlightedMarker : MarkerDrawingInformation.t) : list CtxOp :=
  drawOneMarker env props
    (MarkerDrawingInformation.x highlightedMarker)
    (MarkerDrawingInformation.y highlightedMarker)
    (MarkerDrawingInformation.w highlightedMarker)
    (MarkerDrawingInformation.h highlightedMarker)
    (MarkerDrawingInformation.isInstantMarker highlightedMarker)
    (MarkerDrawingInformation.text highlightedMarker)
    true.

Definition drawMarkers (env : Env) (props : Props) (hoveredItem : jsIndex)
    (startRow endRow : num) : outcome (list CtxOp) :=
  rowIndexes ← rowLoop startRow endRow;
  let st :=
    foldl (drawMarkersRow env props hoveredItem)
          {| previousMarkerDrawnAtX := None; drawn := []; highlightedMarkers := [] |}
          rowIndexes in
  Return ([Save;
           BeginPath;
           Rect (marginLeft props) (ofZ 0) (markerContainerWidth props)
                (containerHeight (viewport props));
           Clip]
          ++ drawn st
          ++ flat_map (drawHighlightedMarker env props) (highlightedMarkers st)
          ++ [Restore]).

(** ** Rows: clearing, highlighting, separators and labels *)

Definition highlightRow (props : Props) (row : num) : list CtxOp :=
  [SetFillStyle "rgba(40, 122, 169, 0.2)";
   FillRect (ofZ 0)
            (row * rowHeight props - viewportTop (viewport props))%num
            (containerWidth (viewport props))
            (rowHeight props - ofZ 1)%num].

Definition clearRow (props : Props) (rowIndex : num) : list CtxOp :=
  [SetFillStyle "#fff";
   FillRect (ofZ 0)
            (rowIndex * rowHeight props - viewportTop (viewport props))%num
            (containerWidth (viewport props))
            (rowHeight props - ofZ 1)%num].

Definition usefulContainerWidth (props : Props) : num :=
  (containerWidth (viewport props) - marginRight props)%num.

(** The horizontal separator under a row (lines 567-572). *)
Definition drawRowSeparator (props : Props) (rowIndex : num) : list CtxOp :=
  let y := ((rowIndex + ofZ 1) * rowHeight props
            - viewportTop (viewport props) - ofZ 1)%num in
  [FillRect (ofZ 0) y (usefulContainerWidth props) (ofZ 1)].

(** The name of a timing row in the left margin (lines 578-607).
    Destructuring [undefined] throws; only the first row of a run of rows
    with one name is labelled. *)
Definition drawRowLabel (env : Env) (props : Props) (rowIndex : num)
    : outcome (list CtxOp) :=
  match readRow (markerTimingAndBuckets props) rowIndex with
  | Some (Bucket _) => Return []
  | None => Throw TypeError
  | Some (Timing markerTiming) =>
      let name := MarkerTiming.name markerTiming in
      sameAsPrevious ←
        (if (rowIndex >? ofZ 0)%num then
           match readRow (markerTimingAndBuckets props) (rowIndex - ofZ 1)%num with
           | None => Throw TypeError
           | Some previous => Return (bool_decide (Some name = rowName previous))
           end
         else Return false);
      if (sameAsPrevious : bool) then Return []
      else
        let y := (rowIndex * rowHeight props - viewportTop (viewport props))%num in
        let fittedText :=
          getFittedText (textMeasurement env) (Some name) (TIMELINE_MARGIN_LEFT env) in
        Return
          ((if isActiveTab props then
              let textWidth := getTextWidth (textMeasurement env) fittedText in
              [SetFillStyle "#ffffffbf";
               FillRect (ofZ 0) y (textWidth + LABEL_PADDING * ofZ 2)%num (rowHeight props);
               SetFillStyle "#000000"]
            else [])
           ++ [FillText fittedText LABEL_PADDING (y + TEXT_OFFSET_TOP)%num])
  end.

(** The band of a bucket row (lines 610-630). *)
Definition drawBucketName (props : Props) (rowIndex : num) : list CtxOp :=
  match readRow (markerTimingAndBuckets props) rowIndex with
  | Some (Bucket bucketName) =>
      let y := (rowIndex * rowHeight props - viewportTop (viewport props))%num in
      [SetFillStyle GREY_20;
       FillRect (ofZ 0) (y - ofZ 1)%num (usefulContainerWidth props) (rowHeight props);
       SetFillStyle GREY_30;
       FillRect (ofZ 0) (y - ofZ 1)%num (usefulContainerWidth props) (ofZ 1);
       FillRect (ofZ 0) (y + rowHeight props - ofZ 1)%num (usefulContainerWidth props) (ofZ 1);
       SetFillStyle "#000000";
       FillText bucketName (LABEL_PADDING + marginLeft props)%num (y + TEXT_OFFSET_TOP)%num]
  | _ => []
  end.

(** The ops of a loop whose turns may throw, in order. *)
Fixpoint forEachRow (body : num -> outcome (list CtxOp)) (rowIndexes : list num)
    : outcome (list CtxOp) :=
  match rowIndexes with
  | [] => Return []
  | rowIndex :: rest =>
      ops ← body rowIndex;
      more ← forEachRow body rest;
      Return (ops ++ more)
  end.

Definition drawSeparatorsAndLabels (env : Env) (props : Props)
    (startRow endRow : num) : outcome (list CtxOp) :=
  rowIndexes ← rowLoop startRow endRow;
  labels ← forEachRow (drawRowLabel env props) rowIndexes;
  Return ([SetFillStyle GREY_20]
          ++ (if isActiveTab props then []
              else [FillRect (marginLeft props - ofZ 1)%num (ofZ 0) (ofZ 1)
                             (containerHeight (viewport props))])
          ++ flat_map (drawRowSeparator props) rowIndexes
          ++ [SetFillStyle "#000000"]
          ++ labels
          ++ flat_map (drawBucketName props) rowIndexes).

(** ** The row index *)

(** The inner loop of [_getMarkerIndexToTimingRow] (lines 267-273). *)
Definition setRowOfMarkers (rowIndex : nat) (markerTiming : MarkerTiming.t)
    (markerIndexToTimingRow : gmap jsIndex nat) : gmap jsIndex nat :=
  foldl (fun m timingIndex =>
           <[readIndex (MarkerTiming.index markerTiming) timingIndex := rowIndex]> m)
        markerIndexToTimingRow
        (seq 0 (MarkerTiming.length markerTiming)).

(** The outer loop, from row [rowIndex] on. *)
Fixpoint indexRowsFrom (rowIndex : nat) (rows : MarkerTimingAndBuckets)
    (markerIndexToTimingRow : gmap jsIndex nat) : gmap jsIndex nat :=
  match rows with
  | [] => markerIndexToTimingRow
  | Bucket _ :: rest => indexRowsFrom (S rowIndex) rest markerIndexToTimingRow
  | Timing markerTiming :: rest =>
      indexRowsFrom (S rowIndex) rest
        (setRowOfMarkers rowIndex markerTiming markerIndexToTimingRow)
  end.

(** The function that [memoize] wraps (lines 254-276). *)
Definition computeMarkerIndexToTimingRow (markerTimingAndBuckets : MarkerTimingAndBuckets)
    : gmap jsIndex nat :=
  indexRowsFrom 0 markerTimingAndBuckets ∅.

(** *** Memoization by identity *)

(** Objects have an identity.  A [RowSequence] reaches the memoized
    function as a reference; the [Map] it gets back is an instance that
    the function created at some call. *)
Definition ObjectId : Type := nat.

Record MapInstance : Type := {
  instanceId : ObjectId;
  entries : gmap jsIndex nat;
}.

(** The cache of [memoize(fn, { cache: new WeakMap() })]: what each key
    still held maps to, and the identity that the next [new Map()] gets. *)
Record MemoCache : Type := {
  cached : gmap ObjectId MapInstance;
  nextInstance : ObjectId;
}.

Definition emptyCache : MemoCache := {| cached := ∅; nextInstance := 0%nat |}.

Definition _getMarkerIndexToTimingRow (cache : MemoCache)
    (identity : ObjectId) (markerTimingAndBuckets : MarkerTimingAndBuckets)
    : MapInstance * MemoCache :=
  match cached cache !! identity with
  | Some instance => (instance, cache)
  | None =>
      let instance :=
        {| instanceId := nextInstance cache;
           entries := computeMarkerIndexToTimingRow markerTimingAndBuckets |} in
      (instance,
       {| cached := <[identity := instance]> (cached cache);
          nextInstance := S (nextInstance cache) |})
  end.

(** ** The redraw controller *)

Record ChartCanvasScale : Type := { cssToUserScale : num }.

Record ChartCanvasHoverInfo : Type := {
  hoveredItem : option HoveredMarkerChartItems;
  prevHoveredItem : option HoveredMarkerChartItems;
  isHoveredOnlyDifferent : bool;
}.

(** What [drawCanvas] does on the context, at the grain it is written:
    the methods it calls, with their row arguments, and its two direct
    uses of the context. *)
Inductive DrawCall : Type :=
  | SetLineWidthOne
  | FillSurface
  | CallClearRow (rowIndex : num)
  | CallHighlightRow (row : num)
  | CallDrawMarkers (hoveredItem : jsIndex) (startRow endRow : num)
  | CallDrawSeparatorsAndLabels (startRow endRow : num).

(** The row of a hovered item (lines 167-181 and 189-203): the row of the
    marker in the row index, else the hovered label row in the active
    tab view. *)
Definition rowOfHovered (props : Props) (markerIndexToTimingRow : gmap jsIndex nat)
    (hoveredMarker : jsIndex) (hoveredLabel : option nat) : option nat :=
  let row :=
    if bool_decide (hoveredMarker = Null) then None
    else markerIndexToTimingRow !! hoveredMarker in
  if isActiveTab props && bool_decide (row = None) && bool_decide (hoveredLabel <> None)
  then hoveredLabel
  else row.

Definition drawCanvasCalls (props : Props) (scale : ChartCanvasScale)
    (hoverInfo : ChartCanvasHoverInfo) : outcome (list DrawCall) :=
  let hoveredMarker := from_option markerIndex Null (hoveredItem hoverInfo) in
  let hoveredLabel := hoveredItem hoverInfo ≫= rowIndexOfLabel in
  let prevHoveredMarker := from_option markerIndex Null (prevHoveredItem hoverInfo) in
  let prevHoveredLabel := prevHoveredItem hoverInfo ≫= rowIndexOfLabel in
  if negb (cssToUserScale scale =? ofZ 1)%num then
    Throw (Error "StackChartCanvasImpl sets scaleCtxToCssPixels={true}, so canvas user space units should be equal to CSS pixels.")
  else
    let startRow := floor (viewportTop (viewport props) / rowHeight props)%num in
    let endRow :=
      min (ceil (viewportBottom (viewport props) / rowHeight props)%num)
          (ofNat (List.length (markerTimingAndBuckets props))) in
    let markerIndexToTimingRow :=
      computeMarkerIndexToTimingRow (markerTimingAndBuckets props) in
    let rightClickedRow :=
      if bool_decide (rightClickedMarkerIndex props = Null) then None
      else markerIndexToTimingRow !! rightClickedMarkerIndex props in
    let newRow := rowOfHovered props markerIndexToTimingRow hoveredMarker hoveredLabel in
    Return
      (SetLineWidthOne ::
       if isHoveredOnlyDifferent hoverInfo then
         let oldRow :=
           rowOfHovered props markerIndexToTimingRow prevHoveredMarker prevHoveredLabel in
         match newRow with
         | Some row =>
             [CallClearRow (ofNat row);
              CallHighlightRow (ofNat row);
              CallDrawMarkers hoveredMarker (ofNat row) (ofNat row + ofZ 1)%num]
             ++ (if bool_decide (hoveredLabel = None)
                 then [CallDrawSeparatorsAndLabels (ofNat row) (ofNat row + ofZ 1)%num]
                 else [])
         | None => []
         end
         ++
         match oldRow with
         | Some row =>
             if bool_decide (oldRow <> newRow) then
               (if bool_decide (oldRow <> rightClickedRow)
                then [CallClearRow (ofNat row)] else [])
               ++ [CallDrawMarkers hoveredMarker (ofNat row) (ofNat row + ofZ 1)%num;
                   CallDrawSeparatorsAndLabels (ofNat row) (ofNat row + ofZ 1)%num]
             else []
         | None => []
         end
       else
         [FillSurface]
         ++ match rightClickedRow, newRow with
            | Some row, _ => [CallHighlightRow (ofNat row)]
            | None, Some row => [CallHighlightRow (ofNat row)]
            | None, None => []
            end
         ++ [CallDrawMarkers hoveredMarker startRow endRow;
             CallDrawSeparatorsAndLabels startRow endRow]).

(** What each call issues on the context. *)
Definition runCall (env : Env) (props : Props) (call : DrawCall)
    : outcome (list CtxOp) :=
  match call with
  | SetLineWidthOne => Return [SetLineWidth (ofZ 1)]
  | FillSurface =>
      Return [SetFillStyle "#ffffff";
              FillRect (ofZ 0) (ofZ 0) (containerWidth (viewport props))
                       (containerHeight (viewport props))]
  | CallClearRow rowIndex => Return (clearRow props rowIndex)
  | CallHighlightRow row => Return (highlightRow props row)
  | CallDrawMarkers hoveredItem startRow endRow =>
      drawMarkers env props hoveredItem startRow endRow
  | CallDrawSeparatorsAndLabels startRow endRow =>
      drawSeparatorsAndLabels env props startRow endRow
  end.

Fixpoint runCalls (env : Env) (props : Props) (calls : list DrawCall)
    : outcome (list CtxOp) :=
  match calls with
  | [] => Return []
  | call :: rest =>
      ops ← runCall env props call;
      more ← runCalls env props rest;
      Return (ops ++ more)
  end.

Definition drawCanvas (env : Env) (props : Props) (scale : ChartCanvasScale)
    (hoverInfo : ChartCanvasHoverInfo) : outcome (list CtxOp) :=
  calls ← drawCanvasCalls props scale hoverInfo;
  runCalls env props calls.


Global Instance error_eq_dec : EqDecision error.
Proof. solve_decision. Defined.
Global Instance outcome_eq_dec `{EqDecision A} : EqDecision (outcome A).
Proof. solve_decision. Defined.
Global Instance CtxOp_eq_dec : EqDecision CtxOp.
Proof. solve_decision. Defined.
Global Instance DrawCall_eq_dec : EqDecision DrawCall.
Proof. solve_decision. Defined.

(** * The vocabulary of the specification *)

(** ** Sorted rows and insertion points *)

Definition sortedAscending (array : list num) : Prop :=
  forall (i j : nat) (a b : num),
    (i <= j)%nat -> array !! i = Some a -> array !! j = Some b ->
    (a <=? b)%num = true.

(** A checker for [sortedAscending]. *)
Fixpoint isSorted (array : list num) : bool :=
  match array with
  | [] => true
  | a :: rest => forallb (leb a) (a :: rest) && isSorted rest
  end.

(** [n] is the first index whose element is strictly greater than [x]. *)
Definition insertionPoint (array : list num) (x : num) (n : nat) : Prop :=
  (n <= List.length array)%nat
  /\ (forall i a, (i < n)%nat -> array !! i = Some a -> (x <? a)%num = false)
  /\ (forall i a, (n <= i)%nat -> array !! i = Some a -> (x <? a)%num = true).

(** ** Geometry *)

(** Finite and strictly positive. *)
Definition positiveb (a : num) : bool :=
  match a with
  | Fin q => bool_decide (0 < q)%Qc
  | _ => false
  end.

(** The geometry is not degenerate: the row height, the width left to the
    markers, the viewport length and the range length are finite and
    positive. *)
Definition nonDegenerate (props : Props) : bool :=
  positiveb (rowHeight props)
  && positiveb (markerContainerWidth props)
  && positiveb (viewportLength props)
  && positiveb (rangeLength props).

(** The inputs that the specification calls degenerate. *)
Definition degenerate (props : Props) : bool :=
  (rangeEnd props =? rangeStart props)%num
  || (viewportLength props <=? ofZ 0)%num.

(** The claim of C2 as the specification words it: on a degenerate input
    the draw call and the hit test fail. *)
Definition failsOnDegenerate (env : Env) (props : Props) : Prop :=
  degenerate props = true ->
  (forall hoveredItem startRow endRow,
     fails (drawMarkers env props hoveredItem startRow endRow))
  /\ (forall _textMeasurement x y, fails (hitTest props _textMeasurement x y)).

(** ** The coordinate mapper *)

(** The four operations of a number type.  The mapping of the
    specification is written once over them: at the numbers of the
    program it is compared with what the code computes, and at the
    rationals it is shown to have the inverse that hit testing uses. *)
Class Arithmetic (A : Type) : Type := {
  arith_add : A -> A -> A;
  arith_sub : A -> A -> A;
  arith_mul : A -> A -> A;
  arith_div : A -> A -> A;
}.

Declare Scope arith_scope.
Delimit Scope arith_scope with arith.
Infix "+" := arith_add : arith_scope.
Infix "-" := arith_sub : arith_scope.
Infix "*" := arith_mul : arith_scope.
Infix "/" := arith_div : arith_scope.

Global Instance num_Arithmetic : Arithmetic num :=
  {| arith_add := add; arith_sub := sub; arith_mul := mul; arith_div := div |}.

Global Instance Qc_Arithmetic : Arithmetic Qc :=
  {| arith_add := Qcplus; arith_sub := Qcminus; arith_mul := Qcmult;
     arith_div := Qcdiv |}.

Section CoordinateMapper.

Context {A : Type} `{Arithmetic A}.

Local Open Scope arith_scope.

(** The coordinate mapping in the words of the specification. *)
Definition timeToUnitInterval (t rangeStart rangeEnd : A) : A :=
  (t - rangeStart) / (rangeEnd - rangeStart).

Definition unitIntervalToPixel
    (u viewportLeft viewportRight containerWidth marginLeft marginRight : A) : A :=
  marginLeft
  + (u - viewportLeft) * (containerWidth - marginLeft - marginRight)
    / (viewportRight - viewportLeft).

(** The pixels of a length of the unit interval: the scale of
    [unitIntervalToPixel] without its offsets. *)
Definition unitIntervalToPixels
    (length viewportLeft viewportRight containerWidth marginLeft marginRight : A) : A :=
  length * (containerWidth - marginLeft - marginRight)
  / (viewportRight - viewportLeft).

(** Their inverses. *)
Definition unitIntervalToTime (u rangeStart rangeEnd : A) : A :=
  rangeStart + u * (rangeEnd - rangeStart).

Definition pixelToUnitInterval
    (x viewportLeft viewportRight containerWidth marginLeft marginRight : A) : A :=
  viewportLeft
  + (viewportRight - viewportLeft)
    * ((x - marginLeft) / (containerWidth - marginLeft - marginRight)).

End CoordinateMapper.

Definition roundToDevicePixel (x devicePixelRatio : num) : num :=
  (round (x * devicePixelRatio) / devicePixelRatio)%num.

(** The position and the width of a marker, and the time of a pixel, as
    the specification has them for the geometry of [props]. *)
Definition specifiedX (env : Env) (props : Props) (startTimestamp : num) : num :=
  roundToDevicePixel
    (unitIntervalToPixel
       (timeToUnitInterval startTimestamp (rangeStart props) (rangeEnd props))
       (viewportLeft (viewport props)) (viewportRight (viewport props))
       (containerWidth (viewport props)) (marginLeft props) (marginRight props))
    (devicePixelRatio env).

Definition specifiedW (env : Env) (props : Props)
    (startTimestamp endTimestamp : num) : num :=
  roundToDevicePixel
    (unitIntervalToPixels
       (timeToUnitInterval endTimestamp (rangeStart props) (rangeEnd props)
        - timeToUnitInterval startTimestamp (rangeStart props) (rangeEnd props))%num
       (viewportLeft (viewport props)) (viewportRight (viewport props))
       (containerWidth (viewport props)) (marginLeft props) (marginRight props))
    (devicePixelRatio env).

Definition specifiedTime (props : Props) (x : num) : num :=
  unitIntervalToTime
    (pixelToUnitInterval x
       (viewportLeft (viewport props)) (viewportRight (viewport props))
       (containerWidth (viewport props)) (marginLeft props) (marginRight props))
    (rangeStart props) (rangeEnd props).

(** ** Hit testing *)


(** ** The markers of a row, one by one *)

Section MarkerAt.

Variable env : Env.
Variable props : Props.
Variable markerTiming : MarkerTiming.t.

Definition startAt (i : nat) : num := readNum (MarkerTiming.start markerTiming) i.
Definition endAt (i : nat) : num := readNum (MarkerTiming.end_ markerTiming) i.

(** The rounded [x] and [w] of marker [i]. *)
Definition xAt (i : nat) : num := markerX env props (startAt i).
Definition wAt (i : nat) : num := markerW env props (startAt i) (endAt i).

Definition inBoundsAt (i : nat) : bool := inBounds props (startAt i) (endAt i).

Definition highlightedAt (hoveredItem : jsIndex) (i : nat) : bool :=
  isHighlighted props hoveredItem (readIndex (MarkerTiming.index markerTiming) i).

(** What is known of marker [i] when it is drawn in row [rowIndex]. *)
Definition drawingInformationAt (rowIndex : num) (i : nat)
    : MarkerDrawingInformation.t :=
  MarkerDrawingInformation.mk (xAt i) (markerY props rowIndex) (wAt i)
    (markerH props) (startAt i =? endAt i)%num
    (MarkerTiming.label markerTiming !! i).

(** The operations that draw marker [i] in the first pass. *)
Definition drawPlainAt (rowIndex : num) (i : nat) : list CtxOp :=
  drawOneMarker env props (xAt i) (markerY props rowIndex) (wAt i) (markerH props)
    (startAt i =? endAt i)%num (MarkerTiming.label markerTiming !! i) false.

End MarkerAt.

(** [x === previousMarkerDrawnAtX]. *)
Definition sameAsPrevious (x : num) (previous : option num) : bool :=
  match previous with
  | None => false
  | Some p => (x =? p)%num
  end.

(** The state of the loops of [drawMarkers] at the start of a row that
    is drawn alone. *)
Definition startOfRow : DrawState :=
  {| previousMarkerDrawnAtX := None; drawn := []; highlightedMarkers := [] |}.

(** ** The drop policy and the two passes *)

Section Policy.

Variables x w : nat -> num.


(** The same policy with a width that is not greater than 1: at most 1,
    or no number. *)
Fixpoint dropPolicy (previous : option num) (markers : list nat) : list nat :=
  match markers with
  | [] => []
  | i :: rest =>
      if negb (w i >? ofZ 1)%num && sameAsPrevious (x i) previous
      then dropPolicy previous rest
      else i :: dropPolicy (Some (x i)) rest
  end.

End Policy.

(** The markers of a row that are in bounds and not highlighted, and
    those that are in bounds and highlighted. *)
Definition plainInBounds (props : Props) (markerTiming : MarkerTiming.t)
    (hoveredItem : jsIndex) : list nat :=
  List.filter
    (fun i => inBoundsAt props markerTiming i
              && negb (highlightedAt props markerTiming hoveredItem i))
    (seq 0 (MarkerTiming.length markerTiming)).

Definition highlightedInBounds (props : Props) (markerTiming : MarkerTiming.t)
    (hoveredItem : jsIndex) : list nat :=
  List.filter
    (fun i => inBoundsAt props markerTiming i
              && highlightedAt props markerTiming hoveredItem i)
    (seq 0 (MarkerTiming.length markerTiming)).

(** The operations that draw marker [i] highlighted. *)
Definition drawHighlightedAt (env : Env) (props : Props)
    (markerTiming : MarkerTiming.t) (rowIndex : num) (i : nat) : list CtxOp :=
  drawOneMarker env props (xAt env props markerTiming i) (markerY props rowIndex)
    (wAt env props markerTiming i) (markerH props)
    (startAt markerTiming i =? endAt markerTiming i)%num
    (MarkerTiming.label markerTiming !! i) true.

(** What the specification has [drawMarkers] draw for a row in its first
    pass, with either wording of the policy, and in its second pass.
    The marker drawn last is forgotten at the start of a row. *)
Definition firstPassOfRow (policy : (nat -> num) -> (nat -> num) -> option num
                                     -> list nat -> list nat)
    (env : Env) (props : Props) (hoveredItem : jsIndex) (rowIndex : num)
    : list CtxOp :=
  match readRow (markerTimingAndBuckets props) rowIndex with
  | Some (Timing markerTiming) =>
      flat_map (drawPlainAt env props markerTiming rowIndex)
        (policy (xAt env props markerTiming) (wAt env props markerTiming) None
                (plainInBounds props markerTiming hoveredItem))
  | _ => []
  end.

Definition secondPassOfRow (env : Env) (props : Props) (hoveredItem : jsIndex)
    (rowIndex : num) : list CtxOp :=
  match readRow (markerTimingAndBuckets props) rowIndex with
  | Some (Timing markerTiming) =>
      flat_map (drawHighlightedAt env props markerTiming rowIndex)
        (highlightedInBounds props markerTiming hoveredItem)
  | _ => []
  end.

(** The operations that set up the clip region of [drawMarkers]
    (lines 430-434). *)
Definition clipToMarkers (props : Props) : list CtxOp :=
  [Save;
   BeginPath;
   Rect (marginLeft props) (ofZ 0) (markerContainerWidth props)
        (containerHeight (viewport props));
   Clip].

(** What [drawMarkers] issues over the rows [rowIndexes]: the clip, the
    first pass of every row, the second pass of every row, and the
    restoration of the context. *)
Definition markerPasses (policy : (nat -> num) -> (nat -> num) -> option num
                                   -> list nat -> list nat)
    (env : Env) (props : Props) (hoveredItem : jsIndex) (rowIndexes : list num)
    : list CtxOp :=
  clipToMarkers props
  ++ flat_map (firstPassOfRow policy env props hoveredItem) rowIndexes
  ++ flat_map (secondPassOfRow env props hoveredItem) rowIndexes
  ++ [Restore].

(** ** Shapes *)

Definition isStroke (op : CtxOp) : bool :=
  match op with Stroke => true | _ => false end.

Definition isFillText (op : CtxOp) : bool :=
  match op with FillText _ _ _ => true | _ => false end.


(** A diamond given as left, top, right and bottom vertex. *)
Record Diamond : Type := {
  leftVertex : num * num;
  topVertex : num * num;
  rightVertex : num * num;
  bottomVertex : num * num;
}.

Global Instance Diamond_eq_dec : EqDecision Diamond.
Proof. solve_decision. Defined.






(** ** The row index and its cache *)

(** The keys that a timing row sets: [index[timingIndex]] for every
    [timingIndex] below [length]. *)
Definition markersOfRow (markerTiming : MarkerTiming.t) : list jsIndex :=
  readIndex (MarkerTiming.index markerTiming)
    <$> seq 0 (MarkerTiming.length markerTiming).

(** The instances in the cache were created before the next one. *)
Definition cacheOk (cache : MemoCache) : Prop :=
  forall identity instance,
    cached cache !! identity = Some instance ->
    (instanceId instance < nextInstance cache)%nat.

(** ** The hover-only redraw *)

Section Hovered.

Variable hoverInfo : ChartCanvasHoverInfo.

Definition hoveredMarkerOf : jsIndex :=
  from_option markerIndex Null (hoveredItem hoverInfo).
Definition hoveredLabelOf : option nat := hoveredItem hoverInfo ≫= rowIndexOfLabel.
Definition prevHoveredMarkerOf : jsIndex :=
  from_option markerIndex Null (prevHoveredItem hoverInfo).
Definition prevHoveredLabelOf : option nat :=
  prevHoveredItem hoverInfo ≫= rowIndexOfLabel.

End Hovered.

(** The Row Index in the words of the specification: [row] is the row of
    [marker] when it is a timing row that holds the marker and no later
    row does. *)
Definition isRowOf (rows : MarkerTimingAndBuckets) (marker : jsIndex) (row : nat)
    : Prop :=
  (exists markerTiming,
     rows !! row = Some (Timing markerTiming) /\ marker ∈ markersOfRow markerTiming)
  /\ forall later markerTiming,
       (row < later)%nat -> rows !! later = Some (Timing markerTiming) ->
       marker ∉ markersOfRow markerTiming.

Definition inNoRow (rows : MarkerTimingAndBuckets) (marker : jsIndex) : Prop :=
  forall row markerTiming,
    rows !! row = Some (Timing markerTiming) -> marker ∉ markersOfRow markerTiming.

(** The row that the Row Index gives for a marker, if it gives one;
    [null] is no marker. *)
Definition indexedRow (rows : MarkerTimingAndBuckets) (marker : jsIndex)
    (row : option nat) : Prop :=
  match row with
  | Some r => marker <> Null /\ isRowOf rows marker r
  | None => marker = Null \/ inNoRow rows marker
  end.

(** The row of a hover state: the row of its marker in the Row Index,
    falling back to its label row in the active tab view. *)
Definition hoveredRow (props : Props) (marker : jsIndex) (label row : option nat)
    : Prop :=
  exists indexed,
    indexedRow (markerTimingAndBuckets props) marker indexed
    /\ row = match indexed with
             | Some _ => indexed
             | None => if isActiveTab props then label else None
             end.

(** The markers of one row, as the two passes draw them for that row
    alone. *)
Definition markersOfOneRow (env : Env) (props : Props) (hoveredMarker : jsIndex)
    (row : nat) : list CtxOp :=
  markerPasses dropPolicy env props hoveredMarker [ofNat row].

(** The vertical separator of the left margin: one pixel wide, over the
    whole height of the container (lines 563-566). *)
Definition marginSeparator (props : Props) : list CtxOp :=
  if isActiveTab props then []
  else [FillRect (marginLeft props - ofZ 1)%num (ofZ 0) (ofZ 1)
                 (containerHeight (viewport props))].

(** The separator, the label and the bucket band of one row.  The
    vertical separator of the left margin comes with them. *)
Definition separatorAndLabelOfOneRow (env : Env) (props : Props) (row : nat)
    : outcome (list CtxOp) :=
  labels ← drawRowLabel env props (ofNat row);
  Return ([SetFillStyle GREY_20]
          ++ marginSeparator props
          ++ drawRowSeparator props (ofNat row)
          ++ [SetFillStyle "#000000"]
          ++ labels
          ++ drawBucketName props (ofNat row)).

(** The repaint of the hovered row, in the words of the specification:
    clear it, highlight it, redraw its markers, and redraw its separator
    and label only if no label is hovered. *)
Definition repaintHoveredRow (env : Env) (props : Props) (hoveredMarker : jsIndex)
    (hoveredLabel newRow : option nat) : outcome (list CtxOp) :=
  match newRow with
  | None => Return []
  | Some row =>
      separatorAndLabel ←
        match hoveredLabel with
        | None => separatorAndLabelOfOneRow env props row
        | Some _ => Return []
        end;
      Return (clearRow props (ofNat row)
              ++ highlightRow props (ofNat row)
              ++ markersOfOneRow env props hoveredMarker row
              ++ separatorAndLabel)
  end.

(** The repaint of the row hovered before: if it is defined and is not
    the new row, clear it unless it is the right-clicked row, and redraw
    its markers, separator and label. *)
Definition repaintPreviousRow (env : Env) (props : Props) (hoveredMarker : jsIndex)
    (oldRow newRow rightClickedRow : option nat) : outcome (list CtxOp) :=
  match oldRow with
  | None => Return []
  | Some row =>
      if decide (oldRow = newRow) then Return []
      else
        separatorAndLabel ← separatorAndLabelOfOneRow env props row;
        Return ((if decide (oldRow = rightClickedRow) then []
                 else clearRow props (ofNat row))
                ++ markersOfOneRow env props hoveredMarker row
                ++ separatorAndLabel)
  end.

(** The hover-only redraw: the line width, then the two repaints. *)
Definition hoverOnlyRepaint (env : Env) (props : Props) (hoveredMarker : jsIndex)
    (hoveredLabel newRow oldRow rightClickedRow : option nat)
    : outcome (list CtxOp) :=
  new ← repaintHoveredRow env props hoveredMarker hoveredLabel newRow;
  old ← repaintPreviousRow env props hoveredMarker oldRow newRow rightClickedRow;
  Return ([SetLineWidth (ofZ 1)] ++ new ++ old).

(** The fill of the whole surface with which a full repaint starts
    (lines 221-222) sets the fill style to this string, and nothing else
    in the component does: the clearing of a row writes its white as
    ["#fff"] (line 525). *)
Definition isSurfaceStyle (op : CtxOp) : bool :=
  match op with
  | SetFillStyle style => bool_decide (style = "#ffffff")
  | _ => false
  end.

(** A fill that reaches the band of row [row] on the canvas: the
    [rowHeight] lines of pixels from [row * rowHeight - viewportTop] on,
    over the width of the container. *)
Definition touchesRow (props : Props) (row : nat) (op : CtxOp) : bool :=
  match op with
  | FillRect x y w h =>
      (x <? containerWidth (viewport props))%num
      && (ofZ 0 <? x + w)%num
      && (y <? markerY props (ofNat row) + rowHeight props)%num
      && (markerY props (ofNat row) <? y + h)%num
  | _ => false
  end.

(** The claim of C6 as the specification words it: no row but [rows] is
    touched. *)
Definition noOtherRowTouched (props : Props) (rows : list nat)
    (o : outcome (list CtxOp)) : Prop :=
  forall ops row op,
    o = Return ops ->
    (row < List.length (markerTimingAndBuckets props))%nat ->
    row ∉ rows ->
    op ∈ ops ->
    touchesRow props row op = false.

(** ** Small charts *)

Module Example.

(** A text measurement tool in which every character is 6 pixels wide and
    every text fits. *)
Definition measurement : TextMeasurement :=
  {| minWidth := ofZ 10;
     getFittedText := fun text _ => default "" text;
     getTextWidth := fun text => (ofNat (String.length text) * ofZ 6)%num |}.

Definition env : Env :=
  {| devicePixelRatio := ofZ 1;
     textMeasurement := measurement;
     TIMELINE_MARGIN_LEFT := ofZ 150 |}.

Definition chartViewport : Viewport :=
  {| viewportLeft := ofZ 0; viewportRight := ofZ 1;
     viewportTop := ofZ 0; viewportBottom := ofZ 64;
     containerWidth := ofZ 100; containerHeight := ofZ 64 |}.

(** A chart of the times 0 to 100, one pixel for each unit of time, with
    rows 32 high and no margins. *)
Definition chart (rows : MarkerTimingAndBuckets) (organization : string) : Props :=
  {| rangeStart := ofZ 0; rangeEnd := ofZ 100;
     markerTimingAndBuckets := rows;
     rowHeight := ofZ 32;
     marginLeft := ofZ 0; marginRight := ofZ 0;
     selectedMarkerIndex := Null; rightClickedMarkerIndex := Null;
     timelineTrackOrganization := {| type := organization |};
     viewport := chartViewport |}.

(** Two intervals, [0, 10] and [20, 30]. *)
Definition timing : MarkerTiming.t :=
  MarkerTiming.mk [ofZ 0; ofZ 20] [ofZ 10; ofZ 30] [7; 8] ["a"; "b"] "DOMEvent" 2.


(** Three instant markers, at times 10, 10.2 and 50: the first two round
    to pixel 10. *)
Definition dots : MarkerTiming.t :=
  MarkerTiming.mk [ofZ 10; frac 51 5; ofZ 50] [ofZ 10; frac 51 5; ofZ 50]
                  [1; 2; 3] ["a"; "b"; "c"] "Paint" 3.

(** The diamond of a dot at [x] in row 0 of the chart. *)
Definition diamondAt (x : num) (left right : num) : list CtxOp :=
  [SetFillStyle "#8ac4ff"; SetStrokeStyle "#2c77d1"; BeginPath;
   MoveTo left (frac 31 2); LineTo x (frac 3 2);
   LineTo right (frac 31 2); LineTo x (frac 59 2);
   ClosePath; Fill; Stroke].

(** A chart whose time range is empty: it starts and ends at 10, and its
    one marker lasts from 5 to 15. *)
Definition emptyRange : Props :=
  {| rangeStart := ofZ 10; rangeEnd := ofZ 10;
     markerTimingAndBuckets :=
       [Timing (MarkerTiming.mk [ofZ 5] [ofZ 15] [3] ["a"] "DOMEvent" 1)];
     rowHeight := ofZ 32;
     marginLeft := ofZ 0; marginRight := ofZ 0;
     selectedMarkerIndex := Null; rightClickedMarkerIndex := Null;
     timelineTrackOrganization := {| type := "full" |};
     viewport := chartViewport |}.

(** Two rows, marker 5 in row 0 and marker 7 in row 1; the pointer moves
    from marker 5 to marker 7. *)
Definition twoRows : MarkerTimingAndBuckets :=
  [Timing (MarkerTiming.mk [ofZ 0] [ofZ 10] [5] ["a"] "DOMEvent" 1);
   Timing (MarkerTiming.mk [ofZ 20] [ofZ 30] [7] ["b"] "Paint" 1)].

Definition scale : ChartCanvasScale := {| cssToUserScale := ofZ 1 |}.

(** The same chart with a left margin of 50 pixels. *)
Definition withMargin (rows : MarkerTimingAndBuckets) (organization : string)
    : Props :=
  {| rangeStart := ofZ 0; rangeEnd := ofZ 100;
     markerTimingAndBuckets := rows;
     rowHeight := ofZ 32;
     marginLeft := ofZ 50; marginRight := ofZ 0;
     selectedMarkerIndex := Null; rightClickedMarkerIndex := Null;
     timelineTrackOrganization := {| type := organization |};
     viewport :=
       {| viewportLeft := ofZ 0; viewportRight := ofZ 1;
          viewportTop := ofZ 0; viewportBottom := ofZ 64;
          containerWidth := ofZ 150; containerHeight := ofZ 64 |} |}.

(** The pointer comes to marker 5 from no marker. *)
Definition toFive : ChartCanvasHoverInfo :=
  {| hoveredItem := Some {| markerIndex := Idx 5; rowIndexOfLabel := None |};
     prevHoveredItem := None;
     isHoveredOnlyDifferent := true |}.



Definition fromFiveToSeven : ChartCanvasHoverInfo :=
  {| hoveredItem := Some {| markerIndex := Idx 7; rowIndexOfLabel := None |};
     prevHoveredItem := Some {| markerIndex := Idx 5; rowIndexOfLabel := None |};
     isHoveredOnlyDifferent := true |}.

End Example.

(** * The pointer handlers *)

(** What a handler dispatches: the action creators that the component
    gets as props. *)
Inductive Action : Type :=
  | ChangeMouseTimePosition (time : option num).

(** [onMouseMove] (lines 767-792), for the [offsetX] of the event: the
    time under the pointer, or [null] when the pointer is outside the
    unit interval. *)
Definition onMouseMove (props : Props) (offsetX : num) : list Action :=
  let xInUnitInterval := xInUnitInterval props offsetX in
  if (xInUnitInterval <? ofZ 0)%num || (xInUnitInterval >? ofZ 1)%num
  then [ChangeMouseTimePosition None]
  else [ChangeMouseTimePosition (Some (xInTime props offsetX))].

(** * More vocabulary *)

(** The operations that set or remove the clip region. *)
Definition isClipOp (op : CtxOp) : bool :=
  match op with
  | Save | Restore | Clip => true
  | _ => false
  end.

(** What the second pass of [drawMarkers] draws for a row. *)
Definition highlightedOfRow (env : Env) (props : Props) (hoveredItem : jsIndex)
    (rowIndex : num) : list MarkerDrawingInformation.t :=
  match readRow (markerTimingAndBuckets props) rowIndex with
  | Some (Timing markerTiming) =>
      List.map (drawingInformationAt env props markerTiming rowIndex)
               (highlightedInBounds props markerTiming hoveredItem)
  | _ => []
  end.

(** The operations that set a colour of a highlighted marker. *)
Definition isHighlightStyle (op : CtxOp) : bool :=
  match op with
  | SetFillStyle style =>
      bool_decide (style = BLUE_60) || bool_decide (style = BLUE_80)
      || bool_decide (style = "white")
  | SetStrokeStyle style => bool_decide (style = BLUE_80)
  | _ => false
  end.

(** The fields that a geometry which is not degenerate makes finite. *)
Record FiniteProps (props : Props) : Type := {
  fRangeStart : Qc;
  fRangeEnd : Qc;
  fViewportLeft : Qc;
  fViewportRight : Qc;
  fContainerWidth : Qc;
  fMarginLeft : Qc;
  fMarginRight : Qc;
  fRowHeight : Qc;
  rangeStart_is : rangeStart props = Fin fRangeStart;
  rangeEnd_is : rangeEnd props = Fin fRangeEnd;
  viewportLeft_is : viewportLeft (viewport props) = Fin fViewportLeft;
  viewportRight_is : viewportRight (viewport props) = Fin fViewportRight;
  containerWidth_is : containerWidth (viewport props) = Fin fContainerWidth;
  marginLeft_is : marginLeft props = Fin fMarginLeft;
  marginRight_is : marginRight props = Fin fMarginRight;
  rowHeight_is : rowHeight props = Fin fRowHeight;
  rangeLength_pos : (0 < fRangeEnd - fRangeStart)%Qc;
  viewportLength_pos : (0 < fViewportRight - fViewportLeft)%Qc;
  markerContainerWidth_pos : (0 < fContainerWidth - fMarginLeft - fMarginRight)%Qc;
  rowHeight_pos : (0 < fRowHeight)%Qc;
}.

(** * Properties *)

(** ** Tactics *)

(** Order between rationals, by way of [lra]. *)
Ltac qc_lra :=
  unfold Qclt, Qcle, Qcminus, Qcplus, Qcopp, Qcmult, Q2Qc in *; cbn [this] in *;
  rewrite ?Qred_correct in *; lra.

(** Equations between rationals with closed constants. *)
Ltac qc_closed_arith :=
  apply Qc_is_canon; unfold qc, Qc_of_Z;
  unfold Qcminus, Qcplus, Qcopp, Qcdiv, Qcmult, Qcinv, Q2Qc; cbn [this];
  rewrite ?Qred_correct; field.

(** Equality of two closed finite numbers. *)
Ltac same_num :=
  vm_compute; apply (f_equal Fin), Qc_is_canon; reflexivity.

(** Equality of two closed values, decided by evaluation. *)
Ltac by_evaluation :=
  match goal with
  | |- ?a = ?b => apply (bool_decide_eq_true_1 (a = b)); vm_compute; reflexivity
  end.

(** ** Numbers *)

Section Numbers.

Local Open Scope num_scope.

Lemma ltb_leb_trans (a b c : num) :
  (a <? b) = true -> (b <=? c) = true -> (a <? c) = true.
Proof.
  destruct a, b, c; simpl; try congruence; rewrite ?bool_decide_eq_true;
    eauto using Qclt_le_trans.
Qed.

Lemma ltb_irrefl (a : num) : (a <? a) = false.
Proof.
  destruct a; simpl; try reflexivity.
  apply bool_decide_eq_false, Qcle_not_lt, Qcle_refl.
Qed.

Lemma ltb_leb_false (a b : num) : (a <=? b) = true -> (b <? a) = false.
Proof.
  intros Hle. destruct (b <? a) eqn:Hlt; [|reflexivity].
  pose proof (ltb_leb_trans _ _ _ Hlt Hle) as H.
  rewrite ltb_irrefl in H. discriminate.
Qed.

Lemma leb_false_of_gtb (a b : num) : (a >? b) = true -> (a <=? b) = false.
Proof.
  unfold gtb. intros Hgt. destruct (a <=? b) eqn:Hle; [|reflexivity].
  rewrite (ltb_leb_false _ _ Hle) in Hgt. discriminate.
Qed.

Lemma gtb_negb_leb (a b : num) :
  a <> NaN -> b <> NaN -> (a >? b) = negb (a <=? b).
Proof.
  unfold gtb. destruct a as [p| | |], b as [q| | |]; simpl; try congruence; intros _ _.
  destruct (decide (q < p)%Qc) as [Hlt|Hge].
  - rewrite bool_decide_eq_true_2 by assumption.
    rewrite bool_decide_eq_false_2; [reflexivity|].
    apply Qclt_not_le. assumption.
  - rewrite bool_decide_eq_false_2 by assumption.
    rewrite bool_decide_eq_true_2; [reflexivity|].
    apply Qcnot_lt_le. assumption.
Qed.


Lemma add_comm (a b : num) : a + b = b + a.
Proof. destruct a, b; simpl; try reflexivity. f_equal. apply Qcplus_comm. Qed.

Lemma sub_self (q : Qc) : Fin q - Fin q = Fin 0%Qc.
Proof. simpl. f_equal. apply Qcplus_opp_r. Qed.

(** What is not finite stays so. *)
Lemma div_zero_not_finite (a : num) : isFinite (a / Fin 0%Qc) = false.
Proof.
  destruct a as [p| | |]; try reflexivity.
  simpl. unfold signedInf. repeat case_bool_decide; reflexivity.
Qed.

Lemma add_not_finite_l (a b : num) : isFinite a = false -> isFinite (a + b) = false.
Proof. destruct a, b; simpl; congruence. Qed.

Lemma sub_not_finite_l (a b : num) : isFinite a = false -> isFinite (a - b) = false.
Proof. apply add_not_finite_l. Qed.

Lemma mul_not_finite_l (a b : num) : isFinite a = false -> isFinite (a * b) = false.
Proof.
  destruct a, b; simpl; try congruence; intros _;
    unfold signedInf; repeat case_bool_decide; reflexivity.
Qed.

Lemma div_not_finite_l (a b : num) : isFinite a = false -> isFinite (a / b) = false.
Proof.
  destruct a, b; simpl; try congruence; intros _;
    repeat case_bool_decide; reflexivity.
Qed.

(** Products and quotients of positive numbers. *)
Lemma positiveb_Fin (a : num) :
  positiveb a = true -> exists q, a = Fin q /\ (0 < q)%Qc.
Proof.
  destruct a as [q| | |]; simpl; try discriminate.
  intros H. apply bool_decide_eq_true in H. eauto.
Qed.

Lemma positiveb_mul (a b : num) :
  positiveb a = true -> positiveb b = true -> positiveb (a * b) = true.
Proof.
  intros (p & -> & Hp)%positiveb_Fin (q & -> & Hq)%positiveb_Fin. simpl.
  apply bool_decide_eq_true. apply Qcmult_pos_pos; assumption.
Qed.

Lemma positiveb_div (a b : num) :
  positiveb a = true -> positiveb b = true -> positiveb (a / b) = true.
Proof.
  intros (p & -> & Hp)%positiveb_Fin (q & -> & Hq)%positiveb_Fin. simpl.
  rewrite bool_decide_eq_false_2.
  - simpl. apply bool_decide_eq_true.
    unfold Qcdiv. apply Qcmult_pos_pos; [assumption|]. apply Qcinv_pos. assumption.
  - intros ->. revert Hq. apply Qcle_not_lt, Qcle_refl.
Qed.

(** At the start of a marker the gap to it is not positive and the gap to
    a marker that starts later is. *)
Lemma gap_at_start (s : Qc) (e s' : num) :
  (Fin s <=? e) = true -> (Fin s <? s') = true ->
  (Fin s - e <? s' - Fin s) = true.
Proof.
  destruct e as [e| | |], s' as [s'| | |]; simpl; try discriminate; try reflexivity.
  rewrite !bool_decide_eq_true. intros. qc_lra.
Qed.


End Numbers.

Lemma dotRadiusInTime_positive (props : Props) :
  nonDegenerate props = true -> positiveb (dotRadiusInTime props) = true.
Proof.
  unfold nonDegenerate. rewrite !andb_true_iff. intros [[[Hh Hw] Hv] Hr].
  unfold dotRadiusInTime, dotRadius.
  repeat first [apply positiveb_mul | apply positiveb_div]; try assumption.
  vm_compute. reflexivity.
Qed.

(** The rows from [row] to [row + 1] are the row [row]. *)
Lemma rowLoop_one_row (row : nat) :
  rowLoop (ofNat row) (ofNat row + ofZ 1)%num = Return [ofNat row].
Proof.
  unfold ofNat, ofZ. cbn [add rowLoop].
  set (s := Qc_of_Z (Z.of_nat row)).
  assert ((s + Qc_of_Z 1 - s)%Qc = Qc_of_Z 1) as -> by qc_closed_arith.
  change (Z.to_nat (Qceiling (Qc_of_Z 1))) with 1%nat. cbn [seq List.map].
  do 3 f_equal. qc_closed_arith.
Qed.

Lemma rowLoop_finite (s e : Qc) :
  exists rowIndexes, rowLoop (Fin s) (Fin e) = Return rowIndexes.
Proof. simpl. eauto. Qed.

(** ** Bisection finds the insertion point *)

Lemma isSorted_sound (array : list num) :
  isSorted array = true -> sortedAscending array.
Proof.
  induction array as [|a rest IH]; intros Hs i j x y Hij Hi Hj.
  - rewrite lookup_nil in Hi. discriminate.
  - cbn [isSorted] in Hs. apply andb_true_iff in Hs as [Hall Hrest].
    rewrite forallb_forall in Hall.
    destruct i as [|i].
    + injection Hi as <-. apply Hall.
      apply list_elem_of_In, list_elem_of_lookup. eauto.
    + destruct j as [|j]; [lia|]. simpl in Hi, Hj.
      apply (IH Hrest i j); [lia | assumption | assumption].
Qed.

Lemma readNum_lookup (array : list num) (i : nat) (a : num) :
  array !! i = Some a -> readNum array i = a.
Proof. unfold readNum. intros ->. reflexivity. Qed.

Lemma bisectionLoop_insertionPoint (array : list num) (x : num) :
  sortedAscending array ->
  forall fuel low high,
    (low <= high <= List.length array)%nat ->
    (high - low <= fuel)%nat ->
    (forall i a, (i < low)%nat -> array !! i = Some a -> (x <? a)%num = false) ->
    (forall i a, (high <= i)%nat -> array !! i = Some a -> (x <? a)%num = true) ->
    insertionPoint array x (bisectionLoop fuel array x low high).
Proof.
  intros Hsorted. induction fuel as [|fuel IH]; intros low high Hrange Hfuel Hlow Hhigh.
  - simpl. assert (low = high) as -> by lia.
    split; [lia|]. split; assumption.
  - cbn [bisectionLoop]. destruct (low <? high)%nat eqn:Hlt.
    + apply Nat.ltb_lt in Hlt.
      set (mid := ((low + high) / 2)%nat).
      assert (low <= mid < high)%nat as Hmid.
      { subst mid. split.
        - apply Nat.div_le_lower_bound; lia.
        - apply Nat.Div0.div_lt_upper_bound; lia. }
      destruct (lookup_lt_is_Some_2 array mid) as [m Hm]; [lia|].
      rewrite (readNum_lookup _ _ _ Hm).
      destruct (x <? m)%num eqn:Hxm.
      * apply IH; [lia | lia | assumption |].
        intros i a Hi Ha.
        apply ltb_leb_trans with m; [assumption|].
        apply (Hsorted mid i); assumption.
      * apply IH; [lia | lia | | assumption].
        intros i a Hi Ha.
        destruct (x <? a)%num eqn:Hxa; [|reflexivity].
        assert ((x <? m)%num = true) as Hcontra.
        { apply ltb_leb_trans with a; [assumption|].
          apply (Hsorted i mid); [lia | assumption | assumption]. }
        congruence.
    + apply Nat.ltb_ge in Hlt. assert (low = high) as -> by lia.
      split; [lia|]. split; assumption.
Qed.

(** The fuel of [bisectionRight] never runs out: more fuel than the width
    of the interval changes nothing. *)
Lemma bisectionLoop_fuel (array : list num) (x : num) :
  forall fuel fuel' low high,
    (high - low <= fuel)%nat -> (high - low <= fuel')%nat ->
    bisectionLoop fuel array x low high = bisectionLoop fuel' array x low high.
Proof.
  induction fuel as [|fuel IH]; intros fuel' low high Hfuel Hfuel'.
  - destruct fuel' as [|fuel']; [reflexivity|]. cbn [bisectionLoop].
    rewrite (proj2 (Nat.ltb_ge low high)) by lia. reflexivity.
  - destruct fuel' as [|fuel']; cbn [bisectionLoop].
    + rewrite (proj2 (Nat.ltb_ge low high)) by lia. reflexivity.
    + destruct (low <? high)%nat eqn:Hlt; [|reflexivity].
      apply Nat.ltb_lt in Hlt.
      assert (low <= (low + high) / 2 < high)%nat as Hmid.
      { split.
        - apply Nat.div_le_lower_bound; lia.
        - apply Nat.Div0.div_lt_upper_bound; lia. }
      destruct (x <? readNum array ((low + high) / 2))%num; apply IH; lia.
Qed.

Lemma bisectionRight_insertionPoint (array : list num) (x : num) :
  sortedAscending array -> insertionPoint array x (bisectionRight array x).
Proof.
  intros Hsorted. unfold bisectionRight.
  apply bisectionLoop_insertionPoint; [assumption | lia | lia | |].
  - intros i a Hi. lia.
  - intros i a Hi Ha. apply lookup_lt_Some in Ha. lia.
Qed.


(** ** Array indices *)

Lemma Qc_of_Z_nonneg (z : Z) : (0 <= Qc_of_Z z)%Qc <-> (0 <= z)%Z.
Proof.
  unfold Qcle, Qc_of_Z, Q2Qc. cbn [this]. rewrite Qred_correct.
  change 0%Q with (inject_Z 0). rewrite <- Zle_Qle. reflexivity.
Qed.

Lemma Qc_of_Z_inj (a b : Z) : Qc_of_Z a = Qc_of_Z b -> a = b.
Proof. intros H. apply (f_equal (fun q => Qnum (this q))) in H. exact H. Qed.

Lemma asArrayIndex_ofNat (n : nat) : asArrayIndex (ofNat n) = Some n.
Proof.
  unfold asArrayIndex, ofNat, ofZ. cbn [this Qc_of_Z].
  rewrite Qfloor_Z.
  rewrite bool_decide_eq_true_2 by reflexivity.
  rewrite bool_decide_eq_true_2 by (apply Qc_of_Z_nonneg; lia).
  cbn [andb]. rewrite Nat2Z.id. reflexivity.
Qed.

Lemma asArrayIndex_Some (k : num) (n : nat) : asArrayIndex k = Some n -> k = ofNat n.
Proof.
  destruct k as [q| | |]; cbn [asArrayIndex]; try discriminate.
  destruct (bool_decide (Qc_of_Z (Qfloor q) = q)) eqn:Hint; [|discriminate].
  destruct (bool_decide (0 <= q)%Qc) eqn:Hpos; [|discriminate].
  cbn [andb]. intros [= <-].
  apply bool_decide_eq_true in Hint. apply bool_decide_eq_true in Hpos.
  unfold ofNat, ofZ. rewrite Z2Nat.id; [congruence|].
  apply Qc_of_Z_nonneg. rewrite Hint. assumption.
Qed.

Lemma readRow_ofNat (rows : MarkerTimingAndBuckets) (n : nat) :
  readRow rows (ofNat n) = rows !! n.
Proof. unfold readRow. rewrite asArrayIndex_ofNat. reflexivity. Qed.

Lemma ofNat_pred (n : nat) : (ofNat (S n) - ofZ 1)%num = ofNat n.
Proof.
  unfold ofNat, ofZ. cbn [sub add neg]. f_equal.
  rewrite Nat2Z.inj_succ. apply Qc_is_canon.
  unfold Qcplus, Qcopp, Qc_of_Z, Q2Qc. cbn [this]. rewrite !Qred_correct.
  unfold Z.succ. rewrite inject_Z_plus. ring.
Qed.

(** The row before an existing row is missing only for row 0. *)
Lemma readRow_previous_missing (rows : MarkerTimingAndBuckets) (k : num) (row : Row) :
  readRow rows k = Some row -> readRow rows (k - ofZ 1)%num = None -> k = ofZ 0.
Proof.
  unfold readRow at 1. destruct (asArrayIndex k) as [n|] eqn:Hk; [|discriminate].
  cbn. intros Hrow. apply asArrayIndex_Some in Hk. subst k.
  destruct n as [|n]; [reflexivity|].
  rewrite ofNat_pred, readRow_ofNat. intros Hnone.
  apply lookup_ge_None in Hnone. apply lookup_lt_Some in Hrow. lia.
Qed.

(** ** Hit testing *)

Section HitTest.

Local Open Scope num_scope.

Variable props : Props.
Variable _textMeasurement : option TextMeasurement.
Variables x y : num.
Variable markerTiming : MarkerTiming.t.

(** [hitTest] once the row under the pointer is known to be a non-empty
    timing row. *)
Lemma hitTest_on_timing_row :
  readRow (markerTimingAndBuckets props) (hitTestRowIndex props y)
    = Some (Timing markerTiming) ->
  MarkerTiming.length markerTiming <> 0%nat ->
  hitTest props _textMeasurement x y =
    if x <? marginLeft props - dotRadius props then Return None
    else
      rowIndexOfLabel ←
        hitTestLabel props _textMeasurement x (hitTestRowIndex props y) markerTiming;
      let markerIndex :=
        hitTestMarker markerTiming (xInTime props x) (dotRadiusInTime props) in
      if bool_decide (markerIndex = Null) && bool_decide (rowIndexOfLabel = None)
      then Return None
      else Return (Some {| markerIndex := markerIndex;
                           rowIndexOfLabel := rowIndexOfLabel |}).
Proof.
  intros Hrow Hlen. unfold hitTest. rewrite Hrow.
  apply Nat.eqb_neq in Hlen. rewrite Hlen. reflexivity.
Qed.

Lemma hitTestLabel_full_view (rowIndex : num) :
  isActiveTab props = false ->
  hitTestLabel props _textMeasurement x rowIndex markerTiming = Return None.
Proof. unfold hitTestLabel. intros ->. reflexivity. Qed.



(** C10.  In the active tab view, a pointer inside the clickable region
    whose row is row 0, a non-empty timing row, makes [hitTest] read the
    name of [markerTimingAndBuckets[-1]], which is [undefined]: the call
    throws a [TypeError]. *)
Theorem hitTest_active_tab_first_row_throws :
  isActiveTab props = true ->
  (x <? marginLeft props - dotRadius props) = false ->
  hitTestRowIndex props y = ofZ 0 ->
  markerTimingAndBuckets props !! 0%nat = Some (Timing markerTiming) ->
  MarkerTiming.length markerTiming <> 0%nat ->
  readRow (markerTimingAndBuckets props) (hitTestRowIndex props y - ofZ 1) = None
  /\ hitTest props _textMeasurement x y = Throw TypeError.
Proof.
  intros Hactive Hguard Hzero Hrow Hnonempty.
  assert (readRow (markerTimingAndBuckets props) (hitTestRowIndex props y - ofZ 1) = None)
    as Hprev.
  { rewrite Hzero. reflexivity. }
  split; [assumption|].
  rewrite hitTest_on_timing_row.
  - rewrite Hguard. unfold hitTestLabel. rewrite Hactive, Hprev. reflexivity.
  - rewrite Hzero. exact Hrow.
  - assumption.
Qed.

(** Outside the active tab view [hitTest] returns. *)
Lemma hitTest_full_view_returns :
  isActiveTab props = false ->
  exists hovered, hitTest props _textMeasurement x y = Return hovered.
Proof.
  intros Hfull. unfold hitTest.
  destruct (x <? marginLeft props - dotRadius props)%num; [eauto|].
  destruct (readRow _ _) as [[bucketName|mt]|]; eauto.
  destruct (MarkerTiming.length mt =? 0)%nat; [eauto|].
  unfold hitTestLabel. rewrite Hfull. simpl.
  match goal with |- context [if ?b then _ else _] => destruct b end; eauto.
Qed.

End HitTest.





(** The same row and pointer in the active tab view. *)
Lemma hitTest_active_tab_first_row_example :
  hitTest (Example.chart [Timing Example.timing] "active-tab") None (ofZ 15) (ofZ 5)
  = Throw TypeError.
Proof.
  apply (hitTest_active_tab_first_row_throws
           (Example.chart [Timing Example.timing] "active-tab") None (ofZ 15) (ofZ 5)
           Example.timing).
  - vm_compute. reflexivity.
  - vm_compute. reflexivity.
  - same_num.
  - reflexivity.
  - discriminate.
Defined.

(** ** Degenerate geometry *)

Lemma drawMarkers_never_fails (env : Env) (props : Props) (hoveredItem : jsIndex)
    (startRow endRow : num) :
  ~ fails (drawMarkers env props hoveredItem startRow endRow).
Proof.
  intros [err H]. unfold drawMarkers in H.
  destruct (rowLoop startRow endRow) as [rowIndexes| |] eqn:Hloop; simpl in H;
    try discriminate.
  destruct startRow, endRow; simpl in Hloop; discriminate.
Qed.

(** C2, as the code has it.  No call checks the geometry.  On a
    degenerate input [drawMarkers] over a finite range of rows returns
    its drawing operations, and [hitTest] outside the active tab view
    returns a hover state or [null].  When the range is empty every
    marker gets a position that is not finite, and so it does when the
    viewport length is zero. *)
Theorem degenerate_geometry_is_silent (env : Env) (props : Props) :
  degenerate props = true ->
  (forall hoveredItem s e,
     exists ops, drawMarkers env props hoveredItem (Fin s) (Fin e) = Return ops)
  /\ (isActiveTab props = false ->
      forall _textMeasurement x y,
        exists hovered, hitTest props _textMeasurement x y = Return hovered)
  /\ (forall q, rangeStart props = Fin q -> rangeEnd props = Fin q ->
      forall startTimestamp,
        isFinite (markerRawX props startTimestamp) = false)
  /\ (viewportLength props = Fin 0%Qc ->
      forall startTimestamp,
        isFinite (markerRawX props startTimestamp) = false).
Proof.
  intros _. split; [|split; [|split]].
  - intros hoveredItem s e. unfold drawMarkers.
    destruct (rowLoop_finite s e) as [rowIndexes ->]. simpl. eauto.
  - intros Hfull tm x y. apply hitTest_full_view_returns. assumption.
  - intros q Hs He startTimestamp. unfold markerRawX, rangeLength.
    rewrite Hs, He, sub_self.
    apply add_not_finite_l, div_not_finite_l, mul_not_finite_l, sub_not_finite_l,
      div_zero_not_finite.
  - intros Hv startTimestamp. unfold markerRawX. rewrite Hv.
    apply add_not_finite_l, div_zero_not_finite.
Qed.

(** On the empty range the marker is drawn as a rectangle that starts at
    [-Infinity] and is [Infinity] wide. *)
Lemma drawMarkers_empty_range :
  drawMarkers Example.env Example.emptyRange Null (ofZ 0) (ofZ 1)
  = Return [Save; BeginPath; Rect (ofZ 0) (ofZ 0) (ofZ 100) (ofZ 64); Clip;
            SetFillStyle "#8ac4ff"; SetStrokeStyle "#2c77d1"; BeginPath;
            Rect NInf (frac 3 2) PInf (ofZ 28); Fill; Stroke;
            Restore].
Proof. by_evaluation. Qed.

(** There the hit test returns as well: whatever the pixel, the pointer
    is at time 10, inside the marker. *)
Lemma hitTest_empty_range :
  hitTest Example.emptyRange None (ofZ 5) (ofZ 5)
  = Return (Some {| markerIndex := Idx 3; rowIndexOfLabel := None |}).
Proof. vm_compute. reflexivity. Qed.

Lemma degenerate_geometry_does_not_fail :
  ~ failsOnDegenerate Example.env Example.emptyRange.
Proof.
  intros Hclaim. destruct Hclaim as [Hdraw _]; [vm_compute; reflexivity|].
  destruct (Hdraw Null (ofZ 0) (ofZ 1)) as [err Herr].
  rewrite drawMarkers_empty_range in Herr. discriminate.
Qed.

Lemma degenerate_geometry_is_silent_empty_range :
  exists ops,
    drawMarkers Example.env Example.emptyRange Null (ofZ 0) (ofZ 1) = Return ops.
Proof.
  destruct (degenerate_geometry_is_silent Example.env Example.emptyRange)
    as (Hdraw & _).
  - vm_compute. reflexivity.
  - apply Hdraw.
Defined.

(** ** The coordinate mapping *)

(** What the code computes is the mapping of the specification at the
    numbers of the program: the same operations on the same operands,
    with the two terms of the one sum exchanged.  These equalities use no
    property of the arithmetic but that a sum does not depend on the
    order of its terms. *)
Lemma markerRawX_unitIntervalToPixel (props : Props) (startTimestamp : num) :
  markerRawX props startTimestamp =
    unitIntervalToPixel
      (timeToUnitInterval startTimestamp (rangeStart props) (rangeEnd props))
      (viewportLeft (viewport props)) (viewportRight (viewport props))
      (containerWidth (viewport props)) (marginLeft props) (marginRight props).
Proof.
  unfold markerRawX, unitIntervalToPixel, timeToUnitInterval.
  cbn [arith_add arith_sub arith_mul arith_div num_Arithmetic].
  rewrite add_comm. reflexivity.
Qed.

Lemma markerX_specifiedX (env : Env) (props : Props) (startTimestamp : num) :
  markerX env props startTimestamp = specifiedX env props startTimestamp.
Proof.
  unfold markerX, alignToDevicePixel, specifiedX, roundToDevicePixel.
  rewrite markerRawX_unitIntervalToPixel. reflexivity.
Qed.

Lemma markerW_specifiedW (env : Env) (props : Props)
    (startTimestamp endTimestamp : num) :
  markerW env props startTimestamp endTimestamp
  = specifiedW env props startTimestamp endTimestamp.
Proof. reflexivity. Qed.

Lemma xInTime_specifiedTime (props : Props) (x : num) :
  xInTime props x = specifiedTime props x.
Proof. reflexivity. Qed.

(** C3.  Every marker in bounds reaches the drawing, or the list kept for
    the second pass, with the position and the width of the
    specification: [unitIntervalToPixel] of its unit-interval start time
    and the same scale of its unit-interval length, each rounded to the
    device pixel.  Hit testing looks for the marker at the time that the
    inverse mapping gives for the pixel, with no rounding.  Over the
    rationals the two mappings are inverse to each other; the numbers of
    the program round every operation, so there they are so within that
    tolerance only. *)
Theorem marker_pixel_mapping (env : Env) (props : Props) :
  (forall (hoveredItem : jsIndex) (rowIndex : num) (markerTiming : MarkerTiming.t)
          (st : DrawState) (i : nat),
     inBoundsAt props markerTiming i = true ->
     let x := specifiedX env props (startAt markerTiming i) in
     let w := specifiedW env props (startAt markerTiming i) (endAt markerTiming i) in
     let y := markerY props rowIndex in
     let h := markerH props in
     let isInstantMarker := (startAt markerTiming i =? endAt markerTiming i)%num in
     let text := MarkerTiming.label markerTiming !! i in
     drawMarkerAt env props hoveredItem rowIndex markerTiming st i =
       if highlightedAt props markerTiming hoveredItem i then
         {| previousMarkerDrawnAtX := previousMarkerDrawnAtX st;
            drawn := drawn st;
            highlightedMarkers :=
              highlightedMarkers st
              ++ [MarkerDrawingInformation.mk x y w h isInstantMarker text] |}
       else if (w >? ofZ 1)%num || differsFromPrevious x (previousMarkerDrawnAtX st)
       then
         {| previousMarkerDrawnAtX := Some x;
            drawn := drawn st
                     ++ drawOneMarker env props x y w h isInstantMarker text false;
            highlightedMarkers := highlightedMarkers st |}
       else st)
  /\ (forall (_textMeasurement : option TextMeasurement) (x y : num)
             (markerTiming : MarkerTiming.t),
        readRow (markerTimingAndBuckets props) (hitTestRowIndex props y)
          = Some (Timing markerTiming) ->
        MarkerTiming.length markerTiming <> 0%nat ->
        hitTest props _textMeasurement x y =
          if (x <? marginLeft props - dotRadius props)%num then Return None
          else
            rowIndexOfLabel ←
              hitTestLabel props _textMeasurement x (hitTestRowIndex props y)
                markerTiming;
            let markerIndex :=
              hitTestMarker markerTiming (specifiedTime props x)
                (dotRadiusInTime props) in
            if bool_decide (markerIndex = Null) && bool_decide (rowIndexOfLabel = None)
            then Return None
            else Return (Some {| markerIndex := markerIndex;
                                 rowIndexOfLabel := rowIndexOfLabel |}))
  /\ (forall rs re vl vr cw ml mr : Qc,
        (re - rs <> 0)%Qc -> (vr - vl <> 0)%Qc -> (cw - ml - mr <> 0)%Qc ->
        (forall t, unitIntervalToTime (timeToUnitInterval t rs re) rs re = t)
        /\ (forall u, timeToUnitInterval (unitIntervalToTime u rs re) rs re = u)
        /\ (forall u,
              pixelToUnitInterval (unitIntervalToPixel u vl vr cw ml mr)
                vl vr cw ml mr = u)
        /\ (forall x,
              unitIntervalToPixel (pixelToUnitInterval x vl vr cw ml mr)
                vl vr cw ml mr = x)).
Proof.
  split; [|split].
  - intros hoveredItem rowIndex markerTiming st i Hvisible. cbv zeta.
    rewrite <- markerX_specifiedX, <- markerW_specifiedW.
    revert Hvisible. unfold inBoundsAt, highlightedAt, startAt, endAt, drawMarkerAt.
    intros ->. reflexivity.
  - intros _textMeasurement x y markerTiming Hrow Hnonempty.
    rewrite <- xInTime_specifiedTime.
    apply hitTest_on_timing_row; assumption.
  - intros rs re vl vr cw ml mr Hrange Hviewport Hwidth.
    unfold unitIntervalToTime, timeToUnitInterval, pixelToUnitInterval,
      unitIntervalToPixel.
    cbn [arith_add arith_sub arith_mul arith_div Qc_Arithmetic].
    repeat split; intros; field; auto.
Qed.

(** The first dot of the small row is drawn at the pixel, and with the
    width, that the specification gives for its times. *)
Lemma marker_pixel_mapping_example :
  drawn (drawMarkerAt Example.env (Example.chart [Timing Example.dots] "full") Null
           (ofNat 0) Example.dots startOfRow 0)
  = drawOneMarker Example.env (Example.chart [Timing Example.dots] "full")
      (specifiedX Example.env (Example.chart [Timing Example.dots] "full") (ofZ 10))
      (ofZ 0)
      (specifiedW Example.env (Example.chart [Timing Example.dots] "full")
         (ofZ 10) (ofZ 10))
      (ofZ 31) true (Some "a") false.
Proof.
  rewrite (proj1 (marker_pixel_mapping Example.env
                    (Example.chart [Timing Example.dots] "full"))
             Null (ofNat 0) Example.dots startOfRow 0)
    by (vm_compute; reflexivity).
  by_evaluation.
Defined.

(** ** The drop policy of [drawMarkers] *)

Lemma differsFromPrevious_sameAsPrevious (x : num) (previous : option num) :
  differsFromPrevious x previous = negb (sameAsPrevious x previous).
Proof. destruct previous; reflexivity. Qed.

Section DropPolicy.

Variable env : Env.
Variable props : Props.
Variable hoveredItem : jsIndex.
Variable rowIndex : num.
Variable markerTiming : MarkerTiming.t.

Local Abbreviation step := (drawMarkerAt env props hoveredItem rowIndex markerTiming).
Local Abbreviation x i := (xAt env props markerTiming i).
Local Abbreviation w i := (wAt env props markerTiming i).
Local Abbreviation visible i := (inBoundsAt props markerTiming i).
Local Abbreviation highlighted i := (highlightedAt props markerTiming hoveredItem i).
Local Abbreviation drawing i := (drawPlainAt env props markerTiming rowIndex i).

(** A turn of the inner loop for a marker in bounds that is not
    highlighted. *)
Lemma drawMarkerAt_plain (st : DrawState) (i : nat) :
  visible i = true -> highlighted i = false ->
  step st i =
    if (w i >? ofZ 1)%num || differsFromPrevious (x i) (previousMarkerDrawnAtX st)
    then {| previousMarkerDrawnAtX := Some (x i);
            drawn := drawn st ++ drawing i;
            highlightedMarkers := highlightedMarkers st |}
    else st.
Proof.
  unfold inBoundsAt, highlightedAt, startAt, endAt.
  intros Hvisible Hplain. unfold drawMarkerAt.
  rewrite Hvisible, Hplain. reflexivity.
Qed.

Lemma drawMarkerAt_out_of_bounds (st : DrawState) (i : nat) :
  visible i = false -> step st i = st.
Proof.
  unfold inBoundsAt, startAt, endAt, drawMarkerAt. intros ->. reflexivity.
Qed.

Lemma drawMarkerAt_highlighted (st : DrawState) (i : nat) :
  visible i = true -> highlighted i = true ->
  step st i =
    {| previousMarkerDrawnAtX := previousMarkerDrawnAtX st;
       drawn := drawn st;
       highlightedMarkers :=
         highlightedMarkers st
         ++ [drawingInformationAt env props markerTiming rowIndex i] |}.
Proof.
  unfold inBoundsAt, highlightedAt, startAt, endAt, drawMarkerAt.
  intros -> ->. reflexivity.
Qed.

(** The inner loop over any run of markers, from any state: what it adds
    to the drawing is the markers that the policy keeps of those in
    bounds and not highlighted, and what it keeps for the second pass is
    every marker in bounds that is highlighted. *)
Lemma foldl_drawMarkerAt_policy (l : list nat) (st : DrawState) :
  drawn (foldl step st l)
  = drawn st
    ++ flat_map (fun i => drawing i)
         (dropPolicy (fun i => x i) (fun i => w i) (previousMarkerDrawnAtX st)
            (List.filter (fun i => visible i && negb (highlighted i)) l))
  /\ highlightedMarkers (foldl step st l)
     = highlightedMarkers st
       ++ List.map (drawingInformationAt env props markerTiming rowIndex)
            (List.filter (fun i => visible i && highlighted i) l).
Proof.
  revert st. induction l as [|a l IH]; intros st.
  - cbn. rewrite !app_nil_r. auto.
  - destruct (IH (step st a)) as [Hdrawn Hkept].
    destruct (visible a) eqn:Hvisible;
      [destruct (highlighted a) eqn:Hhighlighted|];
      cbn [foldl List.filter]; rewrite ?Hvisible, ?Hhighlighted; cbn [andb negb].
    + rewrite (drawMarkerAt_highlighted st a Hvisible Hhighlighted)
        in Hdrawn, Hkept |- *.
      cbn [drawn highlightedMarkers previousMarkerDrawnAtX] in Hdrawn, Hkept.
      split; [exact Hdrawn|].
      rewrite Hkept. cbn [List.map]. rewrite <- app_assoc. reflexivity.
    + rewrite (drawMarkerAt_plain st a Hvisible Hhighlighted) in Hdrawn, Hkept |- *.
      cbn [dropPolicy]. rewrite differsFromPrevious_sameAsPrevious in *.
      destruct (w a >? ofZ 1)%num;
        destruct (sameAsPrevious (x a) (previousMarkerDrawnAtX st));
        cbn [orb andb negb] in *;
        cbn [drawn highlightedMarkers previousMarkerDrawnAtX] in Hdrawn, Hkept;
        (split; [|exact Hkept]);
        rewrite Hdrawn; cbn [flat_map]; rewrite <- ?app_assoc; reflexivity.
    + rewrite (drawMarkerAt_out_of_bounds st a Hvisible) in Hdrawn, Hkept |- *.
      auto.
Qed.

End DropPolicy.



(** The loop over rows, from any state. *)
Lemma drawMarkersRow_policy (env : Env) (props : Props) (hoveredItem : jsIndex)
    (st : DrawState) (rowIndex : num) :
  drawn (drawMarkersRow env props hoveredItem st rowIndex)
  = drawn st ++ firstPassOfRow dropPolicy env props hoveredItem rowIndex
  /\ highlightedMarkers (drawMarkersRow env props hoveredItem st rowIndex)
     = highlightedMarkers st ++ highlightedOfRow env props hoveredItem rowIndex.
Proof.
  unfold drawMarkersRow, firstPassOfRow, highlightedOfRow.
  destruct (readRow (markerTimingAndBuckets props) rowIndex)
    as [[bucketName|markerTiming]|]; rewrite ?app_nil_r; auto.
  apply (foldl_drawMarkerAt_policy env props hoveredItem rowIndex markerTiming
           (seq 0 (MarkerTiming.length markerTiming))
           {| previousMarkerDrawnAtX := None; drawn := drawn st;
              highlightedMarkers := highlightedMarkers st |}).
Qed.

Lemma foldl_drawMarkersRow_policy (env : Env) (props : Props) (hoveredItem : jsIndex)
    (rowIndexes : list num) (st : DrawState) :
  drawn (foldl (drawMarkersRow env props hoveredItem) st rowIndexes)
  = drawn st ++ flat_map (firstPassOfRow dropPolicy env props hoveredItem) rowIndexes
  /\ highlightedMarkers (foldl (drawMarkersRow env props hoveredItem) st rowIndexes)
     = highlightedMarkers st
       ++ flat_map (highlightedOfRow env props hoveredItem) rowIndexes.
Proof.
  revert st. induction rowIndexes as [|rowIndex rowIndexes IH]; intros st.
  - cbn. rewrite !app_nil_r. auto.
  - cbn [foldl flat_map].
    destruct (IH (drawMarkersRow env props hoveredItem st rowIndex)) as [-> ->].
    destruct (drawMarkersRow_policy env props hoveredItem st rowIndex) as [-> ->].
    rewrite <- !app_assoc. auto.
Qed.

(** The second pass draws what was kept, highlighted. *)
Lemma secondPass_highlightedOfRow (env : Env) (props : Props) (hoveredItem : jsIndex)
    (rowIndexes : list num) :
  flat_map (drawHighlightedMarker env props)
    (flat_map (highlightedOfRow env props hoveredItem) rowIndexes)
  = flat_map (secondPassOfRow env props hoveredItem) rowIndexes.
Proof.
  induction rowIndexes as [|rowIndex rowIndexes IH]; [reflexivity|].
  cbn [flat_map]. rewrite flat_map_app, IH. f_equal.
  unfold highlightedOfRow, secondPassOfRow.
  destruct (readRow (markerTimingAndBuckets props) rowIndex)
    as [[bucketName|markerTiming]|]; try reflexivity.
  induction (highlightedInBounds props markerTiming hoveredItem) as [|i kept IHkept];
    [reflexivity|].
  cbn [List.map flat_map]. rewrite IHkept. reflexivity.
Qed.

(** The markers of one row: the loop over rows visits that row only, and
    what is drawn is what the inner loop gathers there, the highlighted
    markers last. *)
Lemma drawMarkers_one_row (env : Env) (props : Props) (hoveredItem : jsIndex)
    (row : nat) :
  drawMarkers env props hoveredItem (ofNat row) (ofNat row + ofZ 1)%num =
    let st := drawMarkersRow env props hoveredItem startOfRow (ofNat row) in
    Return ([Save;
             BeginPath;
             Rect (marginLeft props) (ofZ 0) (markerContainerWidth props)
                  (containerHeight (viewport props));
             Clip]
            ++ drawn st
            ++ flat_map (drawHighlightedMarker env props) (highlightedMarkers st)
            ++ [Restore]).
Proof. unfold drawMarkers. rewrite rowLoop_one_row. reflexivity. Qed.


(** The first and the third dot are drawn, the second is not. *)
Lemma drawMarkers_dots :
  drawMarkers Example.env (Example.chart [Timing Example.dots] "full") Null
    (ofZ 0) (ofZ 1)
  = Return ([Save; BeginPath; Rect (ofZ 0) (ofZ 0) (ofZ 100) (ofZ 64); Clip]
            ++ Example.diamondAt (ofZ 10) (frac 9 4) (frac 71 4)
            ++ Example.diamondAt (ofZ 50) (frac 169 4) (frac 231 4)
            ++ [Restore]).
Proof. by_evaluation. Qed.



(** ** The shape of an interval marker *)

Section IntervalMarker.

Local Open Scope num_scope.

Variable env : Env.
Variable props : Props.
Variables x y w h : num.
Variable text : option string.
Variable highlighted : bool.

(** C5.  An interval marker whose rounded width is at most 2 is a filled
    bar: one [fillRect], no stroke and no text.  A wider one is a filled
    and stroked rectangle, followed by its text; the text is fitted only
    when the width left to it exceeds the minimum width of the text
    measurement tool.  Width 2 takes the first path and width 3 the
    second. *)
Theorem interval_marker_shape :
  ((w <=? ofZ 2) = true ->
     drawOneIntervalMarker env props x y w h text highlighted =
       [SetFillStyle (if highlighted then BLUE_80 else MARKER_BORDER_COLOR);
        FillRect x (y + ofZ 1) (max w (ofZ 1)) (h - ofZ 2)]
     /\ existsb isStroke (drawOneIntervalMarker env props x y w h text highlighted) = false
     /\ existsb isFillText (drawOneIntervalMarker env props x y w h text highlighted) = false)
  /\ ((w >? ofZ 2) = true ->
      drawOneIntervalMarker env props x y w h text highlighted =
        [SetFillStyle (if highlighted then BLUE_60 else "#8ac4ff");
         SetStrokeStyle (if highlighted then BLUE_80 else MARKER_BORDER_COLOR);
         BeginPath;
         Rect (x + frac 1 2) (y + ofZ 1 + frac 1 2) (w - ofZ 1) (h - ofZ 2 - ofZ 1);
         Fill;
         Stroke]
        ++ drawIntervalText env props x y w text highlighted)
  /\ ((textWidthAvailable props x w >? minWidth (textMeasurement env)) = false ->
      drawIntervalText env props x y w text highlighted = [])
  /\ ((textWidthAvailable props x w >? minWidth (textMeasurement env)) = true ->
      existsb isFillText (drawIntervalText env props x y w text highlighted)
      = bool_decide
          (getFittedText (textMeasurement env) text (textWidthAvailable props x w) <> ""))
  /\ (w = ofZ 2 ->
      drawOneMarker env props x y w h false text highlighted =
        [SetFillStyle (if highlighted then BLUE_80 else MARKER_BORDER_COLOR);
         FillRect x (y + ofZ 1) (ofZ 2) (h - ofZ 2)])
  /\ (w = ofZ 3 ->
      drawOneMarker env props x y w h false text highlighted =
        [SetFillStyle (if highlighted then BLUE_60 else "#8ac4ff");
         SetStrokeStyle (if highlighted then BLUE_80 else MARKER_BORDER_COLOR);
         BeginPath;
         Rect (x + frac 1 2) (y + ofZ 1 + frac 1 2) (ofZ 3 - ofZ 1) (h - ofZ 2 - ofZ 1);
         Fill;
         Stroke]
        ++ drawIntervalText env props x y (ofZ 3) text highlighted).
Proof.
  split; [|split; [|split; [|split; [|split]]]].
  - intros Hbar. unfold drawOneIntervalMarker. rewrite Hbar.
    split; [reflexivity|]. split; reflexivity.
  - intros Hwide. unfold drawOneIntervalMarker.
    rewrite (leb_false_of_gtb _ _ Hwide). reflexivity.
  - intros Hnarrow. unfold drawIntervalText. rewrite Hnarrow. reflexivity.
  - intros Hroom. unfold drawIntervalText. rewrite Hroom.
    case_bool_decide; reflexivity.
  - intros ->. reflexivity.
  - intros ->. reflexivity.
Qed.

End IntervalMarker.

(** A marker from time 10 to time 13 of the small chart is 3 wide: a
    rectangle with its border and no text, since only 3 - 6 pixels are
    left to the text. *)
Lemma interval_marker_shape_three :
  drawOneIntervalMarker Example.env (Example.chart [] "full")
    (ofZ 10) (ofZ 0) (ofZ 3) (ofZ 31) (Some "a") false
  = [SetFillStyle "#8ac4ff"; SetStrokeStyle "#2c77d1"; BeginPath;
     Rect (ofZ 10 + frac 1 2) (ofZ 0 + ofZ 1 + frac 1 2) (ofZ 3 - ofZ 1)
          (ofZ 31 - ofZ 2 - ofZ 1);
     Fill; Stroke]%num.
Proof.
  destruct (interval_marker_shape Example.env (Example.chart [] "full")
              (ofZ 10) (ofZ 0) (ofZ 3) (ofZ 31) (Some "a") false)
    as (_ & Hwide & Hnarrow & _).
  rewrite Hwide, Hnarrow, app_nil_r; vm_compute; reflexivity.
Defined.

(** ** The diamond of an instant marker *)

Section InstantMarker.

Local Open Scope Qc_scope.

Variable env : Env.
Variable props : Props.
Variable rh : Qc.
Hypothesis rowHeight_finite : rowHeight props = Fin rh.



End InstantMarker.



(** ** The row index *)

Lemma elem_of_markersOfRow (markerTiming : MarkerTiming.t) (timingIndex : nat)
    (id : MarkerIndex) :
  (timingIndex < MarkerTiming.length markerTiming)%nat ->
  MarkerTiming.index markerTiming !! timingIndex = Some id ->
  Idx id ∈ markersOfRow markerTiming.
Proof.
  intros Hlt Hid. unfold markersOfRow. apply list_elem_of_fmap.
  exists timingIndex. split.
  - unfold readIndex. rewrite Hid. reflexivity.
  - apply elem_of_seq. lia.
Qed.

Lemma lookup_foldl_insert {A} (key : A -> jsIndex) (row : nat) (l : list A)
    (m : gmap jsIndex nat) (k : jsIndex) :
  foldl (fun m a => <[key a := row]> m) m l !! k =
    if decide (k ∈ key <$> l) then Some row else m !! k.
Proof.
  revert m. induction l as [|a l IH]; intros m; cbn [foldl].
  - destruct (decide (k ∈ key <$> [])) as [Hin|_]; [|reflexivity].
    rewrite fmap_nil in Hin. apply elem_of_nil in Hin. contradiction.
  - rewrite IH. rewrite fmap_cons.
    destruct (decide (k ∈ key <$> l)) as [Hin|Hnotin].
    + rewrite decide_True by (apply elem_of_cons; auto). reflexivity.
    + destruct (decide (key a = k)) as [<-|Hne].
      * rewrite decide_True by (apply elem_of_cons; auto).
        apply lookup_insert_eq.
      * rewrite decide_False.
        -- apply lookup_insert_ne. assumption.
        -- intros [->|?]%elem_of_cons; contradiction.
Qed.

Lemma lookup_setRowOfMarkers (rowIndex : nat) (markerTiming : MarkerTiming.t)
    (m : gmap jsIndex nat) (k : jsIndex) :
  setRowOfMarkers rowIndex markerTiming m !! k =
    if decide (k ∈ markersOfRow markerTiming) then Some rowIndex else m !! k.
Proof. apply lookup_foldl_insert. Qed.

(** A key that no row sets keeps what it had. *)
Lemma lookup_indexRowsFrom_other (rows : MarkerTimingAndBuckets) :
  forall (first : nat) (m : gmap jsIndex nat) (k : jsIndex),
    (forall j markerTiming,
       rows !! j = Some (Timing markerTiming) -> k ∉ markersOfRow markerTiming) ->
    indexRowsFrom first rows m !! k = m !! k.
Proof.
  induction rows as [|[name|markerTiming] rows IH]; intros first m k Hnone; simpl.
  - reflexivity.
  - apply IH. intros j mt Hj. apply (Hnone (S j)). exact Hj.
  - rewrite IH.
    + rewrite lookup_setRowOfMarkers. apply decide_False.
      apply (Hnone 0%nat). reflexivity.
    + intros j mt Hj. apply (Hnone (S j)). exact Hj.
Qed.

(** A key that row [j] sets and no later row sets is mapped to row [j]. *)
Lemma lookup_indexRowsFrom_last (rows : MarkerTimingAndBuckets) :
  forall (first : nat) (m : gmap jsIndex nat) (k : jsIndex) (j : nat) markerTiming,
    rows !! j = Some (Timing markerTiming) ->
    k ∈ markersOfRow markerTiming ->
    (forall j' markerTiming',
       (j < j')%nat -> rows !! j' = Some (Timing markerTiming') ->
       k ∉ markersOfRow markerTiming') ->
    indexRowsFrom first rows m !! k = Some (first + j)%nat.
Proof.
  induction rows as [|row rows IH]; intros first m k j mt Hj Hin Hlater.
  - destruct j; discriminate.
  - destruct j as [|j].
    + injection Hj as ->. simpl.
      rewrite lookup_indexRowsFrom_other.
      * rewrite lookup_setRowOfMarkers, decide_True by assumption.
        f_equal. lia.
      * intros j' mt' Hj'. apply (Hlater (S j')); [lia | exact Hj'].
    + assert (forall m', indexRowsFrom (S first) rows m' !! k = Some (first + S j)%nat)
        as Hrest.
      { intros m'. rewrite (IH (S first) m' k j mt Hj Hin).
        - f_equal. lia.
        - intros j' mt' Hlt Hj'. apply (Hlater (S j')); [lia | exact Hj']. }
      destruct row; simpl; apply Hrest.
Qed.

(** Every entry comes from a timing row. *)
Lemma lookup_indexRowsFrom_inv (rows : MarkerTimingAndBuckets) :
  forall (first : nat) (m : gmap jsIndex nat) (k : jsIndex) (row : nat),
    indexRowsFrom first rows m !! k = Some row ->
    m !! k = Some row
    \/ exists j markerTiming,
         row = (first + j)%nat
         /\ rows !! j = Some (Timing markerTiming)
         /\ k ∈ markersOfRow markerTiming.
Proof.
  induction rows as [|[name|markerTiming] rows IH]; intros first m k row Hrow;
    simpl in Hrow.
  - auto.
  - destruct (IH _ _ _ _ Hrow) as [?|(j & mt & -> & Hj & Hin)]; [auto|].
    right. exists (S j), mt. split; [lia|]. auto.
  - destruct (IH _ _ _ _ Hrow) as [Hset|(j & mt & -> & Hj & Hin)].
    + rewrite lookup_setRowOfMarkers in Hset.
      destruct (decide (k ∈ markersOfRow markerTiming)) as [Hin|]; [|auto].
      right. exists 0%nat, markerTiming. injection Hset as <-.
      split; [lia|]. auto.
    + right. exists (S j), mt. split; [lia|]. auto.
Qed.

Lemma cacheOk_empty : cacheOk emptyCache.
Proof.
  intros identity instance H. cbn [emptyCache cached] in H.
  rewrite lookup_empty in H. discriminate.
Qed.

Lemma cacheOk_lookup (cache : MemoCache) (identity : ObjectId)
    (rows : MarkerTimingAndBuckets) :
  cacheOk cache -> cacheOk (snd (_getMarkerIndexToTimingRow cache identity rows)).
Proof.
  intros Hok. unfold _getMarkerIndexToTimingRow.
  destruct (cached cache !! identity) as [instance|] eqn:Hcached; [exact Hok|].
  intros identity' instance'. cbn [snd cached nextInstance].
  destruct (decide (identity = identity')) as [<-|Hne].
  - rewrite lookup_insert_eq. intros [= <-]. cbn [instanceId]. lia.
  - rewrite lookup_insert_ne by assumption. intros H.
    pose proof (Hok _ _ H). lia.
Qed.

(** C7.  The row index maps a marker identifier held by a timing row to
    the number of that row (the last such row, were an identifier held
    by several), and each of its entries comes from a timing row that
    holds the key: bucket rows add nothing.  Looking the index up again
    with the same [RowSequence] identity gives the same instance and
    leaves the cache as it is; an instance other than the first one
    comes back only for another identity; and an identity the cache does
    not know gets a new instance, distinct from all cached ones, that
    holds the index of the rows. *)
Theorem row_index_memoized (rows : MarkerTimingAndBuckets) (cache : MemoCache)
    (identity : ObjectId) :
  let first := _getMarkerIndexToTimingRow cache identity rows in
  (forall rowIndex markerTiming timingIndex id,
     rows !! rowIndex = Some (Timing markerTiming) ->
     (timingIndex < MarkerTiming.length markerTiming)%nat ->
     MarkerTiming.index markerTiming !! timingIndex = Some id ->
     (forall later markerTiming',
        (rowIndex < later)%nat -> rows !! later = Some (Timing markerTiming') ->
        Idx id ∉ markersOfRow markerTiming') ->
     computeMarkerIndexToTimingRow rows !! Idx id = Some rowIndex)
  /\ (forall key row,
        computeMarkerIndexToTimingRow rows !! key = Some row ->
        exists markerTiming,
          rows !! row = Some (Timing markerTiming) /\ key ∈ markersOfRow markerTiming)
  /\ (forall rows', _getMarkerIndexToTimingRow (snd first) identity rows' = first)
  /\ (forall identity' rows',
        fst (_getMarkerIndexToTimingRow (snd first) identity' rows') <> fst first ->
        identity' <> identity)
  /\ (cacheOk cache -> cached cache !! identity = None ->
      entries (fst first) = computeMarkerIndexToTimingRow rows
      /\ instanceId (fst first) = nextInstance cache
      /\ forall identity' instance,
           cached cache !! identity' = Some instance ->
           instanceId instance <> instanceId (fst first)).
Proof.
  intros first.
  assert (forall rows', _getMarkerIndexToTimingRow (snd first) identity rows' = first)
    as Hagain.
  { intros rows'. subst first. unfold _getMarkerIndexToTimingRow.
    destruct (cached cache !! identity) as [instance|] eqn:Hcached.
    - cbn [snd]. rewrite Hcached. reflexivity.
    - cbn [snd cached]. rewrite lookup_insert_eq. reflexivity. }
  split; [|split; [|split; [|split]]].
  - intros rowIndex mt timingIndex id Hrow Hlt Hid Hlater.
    unfold computeMarkerIndexToTimingRow.
    rewrite (lookup_indexRowsFrom_last rows 0 ∅ (Idx id) rowIndex mt Hrow).
    + reflexivity.
    + eapply elem_of_markersOfRow; eassumption.
    + exact Hlater.
  - intros key row Hkey.
    destruct (lookup_indexRowsFrom_inv rows 0 ∅ key row Hkey)
      as [Hempty|(j & mt & -> & Hj & Hin)].
    + rewrite lookup_empty in Hempty. discriminate.
    + exists mt. auto.
  - exact Hagain.
  - intros identity' rows' Hother ->. apply Hother. rewrite Hagain. reflexivity.
  - intros Hok Hnew. subst first. unfold _getMarkerIndexToTimingRow.
    rewrite Hnew. cbn [fst entries instanceId].
    split; [reflexivity|]. split; [reflexivity|].
    intros identity' instance Hcached. pose proof (Hok _ _ Hcached). lia.
Qed.

(** A bucket row, then the row of the small chart: markers 7 and 8 are
    in row 1. *)
Lemma row_index_memoized_example :
  computeMarkerIndexToTimingRow [Bucket "DOM"; Timing Example.timing] !! Idx 7
  = Some 1%nat.
Proof.
  destruct (row_index_memoized [Bucket "DOM"; Timing Example.timing] emptyCache 0)
    as (Hindex & _).
  apply (Hindex 1%nat Example.timing 0%nat 7%nat).
  - reflexivity.
  - vm_compute. lia.
  - reflexivity.
  - intros [|[|later]] mt Hlt Hrow; try lia; discriminate.
Defined.

(** The index of these two rows has two entries, one for each marker. *)
Lemma row_index_entries_example :
  computeMarkerIndexToTimingRow [Bucket "DOM"; Timing Example.timing] !! Idx 8
  = Some 1%nat
  /\ size (computeMarkerIndexToTimingRow [Bucket "DOM"; Timing Example.timing]) = 2%nat.
Proof. split; vm_compute; reflexivity. Qed.

(** ** The hover-only redraw *)

(** The separators and labels of one row: the loop over rows visits that
    row only.  Outside the active tab view the call also redraws the
    vertical separator of the left margin, which is one pixel wide and as
    high as the container. *)
Lemma drawSeparatorsAndLabels_one_row (env : Env) (props : Props) (row : nat) :
  drawSeparatorsAndLabels env props (ofNat row) (ofNat row + ofZ 1)%num =
    labels ← drawRowLabel env props (ofNat row);
    Return ([SetFillStyle GREY_20]
            ++ marginSeparator props
            ++ drawRowSeparator props (ofNat row)
            ++ [SetFillStyle "#000000"]
            ++ labels
            ++ drawBucketName props (ofNat row)).
Proof.
  unfold drawSeparatorsAndLabels. rewrite rowLoop_one_row.
  cbn [mbind outcome_bind forEachRow flat_map].
  destruct (drawRowLabel env props (ofNat row)) as [labels| |]; [|reflexivity..].
  cbn [mbind outcome_bind]. rewrite ?app_nil_r, <- ?app_assoc. reflexivity.
Qed.

(** *** The rows of the hover states *)

(** The row index of the code gives the row that the Row Index of the
    specification gives. *)
Lemma indexedRow_lookup (rows : MarkerTimingAndBuckets) (marker : jsIndex)
    (row : option nat) :
  indexedRow rows marker row ->
  (if bool_decide (marker = Null) then None
   else computeMarkerIndexToTimingRow rows !! marker) = row.
Proof.
  unfold computeMarkerIndexToTimingRow. destruct row as [r|]; cbn [indexedRow].
  - intros (Hmarker & (markerTiming & Hrow & Hholds) & Hlast).
    rewrite bool_decide_eq_false_2 by exact Hmarker.
    apply (lookup_indexRowsFrom_last rows 0 ∅ marker r markerTiming Hrow Hholds).
    intros later markerTiming' Hlater Hrow'. exact (Hlast later markerTiming' Hlater Hrow').
  - intros [-> | Hnone]; [reflexivity|].
    destruct (bool_decide (marker = Null)); [reflexivity|].
    rewrite (lookup_indexRowsFrom_other rows 0 ∅ marker Hnone). apply lookup_empty.
Qed.

Lemma hoveredRow_rowOfHovered (props : Props) (marker : jsIndex)
    (label row : option nat) :
  hoveredRow props marker label row ->
  rowOfHovered props (computeMarkerIndexToTimingRow (markerTimingAndBuckets props))
    marker label = row.
Proof.
  intros (indexed & Hindexed%indexedRow_lookup & ->). unfold rowOfHovered.
  rewrite Hindexed. destruct indexed as [r|].
  - rewrite bool_decide_eq_false_2 by discriminate.
    rewrite andb_false_r. reflexivity.
  - rewrite bool_decide_eq_true_2 by reflexivity.
    destruct (isActiveTab props); [|reflexivity].
    destruct label; reflexivity.
Qed.

(** *** What the calls of the redraw issue *)

Lemma drawMarkers_markersOfOneRow (env : Env) (props : Props) (hoveredMarker : jsIndex)
    (row : nat) :
  drawMarkers env props hoveredMarker (ofNat row) (ofNat row + ofZ 1)%num
  = Return (markersOfOneRow env props hoveredMarker row).
Proof.
  unfold drawMarkers, markersOfOneRow, markerPasses. rewrite rowLoop_one_row.
  cbn [mbind outcome_bind].
  destruct (foldl_drawMarkersRow_policy env props hoveredMarker [ofNat row]
              {| previousMarkerDrawnAtX := None; drawn := [];
                 highlightedMarkers := [] |}) as [-> ->].
  cbn [drawn highlightedMarkers app].
  rewrite secondPass_highlightedOfRow. reflexivity.
Qed.

Lemma runCalls_app (env : Env) (props : Props) (calls calls' : list DrawCall) :
  runCalls env props (calls ++ calls') =
    ops ← runCalls env props calls;
    more ← runCalls env props calls';
    Return (ops ++ more).
Proof.
  induction calls as [|call calls IH]; cbn [app runCalls mbind outcome_bind].
  - destruct (runCalls env props calls'); reflexivity.
  - destruct (runCall env props call) as [ops| |]; cbn [mbind outcome_bind];
      [|reflexivity..].
    rewrite IH. destruct (runCalls env props calls) as [more| |];
      cbn [mbind outcome_bind]; [|reflexivity..].
    destruct (runCalls env props calls') as [more'| |]; cbn [mbind outcome_bind];
      [|reflexivity..].
    rewrite app_assoc. reflexivity.
Qed.

Section HoverOnly.

Variable env : Env.
Variable props : Props.
Variable hoveredMarker : jsIndex.

Lemma runCalls_repaintHoveredRow (hoveredLabel newRow : option nat) :
  runCalls env props
    match newRow with
    | Some row =>
        [CallClearRow (ofNat row);
         CallHighlightRow (ofNat row);
         CallDrawMarkers hoveredMarker (ofNat row) (ofNat row + ofZ 1)%num]
        ++ (if bool_decide (hoveredLabel = None)
            then [CallDrawSeparatorsAndLabels (ofNat row) (ofNat row + ofZ 1)%num]
            else [])
    | None => []
    end
  = repaintHoveredRow env props hoveredMarker hoveredLabel newRow.
Proof.
  destruct newRow as [row|]; [|reflexivity].
  cbn [app runCalls runCall repaintHoveredRow mbind outcome_bind].
  rewrite drawMarkers_markersOfOneRow. cbn [mbind outcome_bind].
  destruct hoveredLabel as [label|].
  - rewrite bool_decide_eq_false_2 by discriminate.
    cbn [runCalls mbind outcome_bind]. rewrite ?app_nil_r, <- ?app_assoc. reflexivity.
  - rewrite bool_decide_eq_true_2 by reflexivity.
    cbn [runCalls runCall mbind outcome_bind].
    rewrite drawSeparatorsAndLabels_one_row.
    unfold separatorAndLabelOfOneRow.
    destruct (drawRowLabel env props (ofNat row)) as [labels| |];
      cbn [mbind outcome_bind]; [|reflexivity..].
    rewrite ?app_nil_r, <- ?app_assoc. reflexivity.
Qed.

Lemma runCalls_repaintPreviousRow (oldRow newRow rightClickedRow : option nat) :
  runCalls env props
    match oldRow with
    | Some row =>
        if bool_decide (oldRow <> newRow) then
          (if bool_decide (oldRow <> rightClickedRow)
           then [CallClearRow (ofNat row)] else [])
          ++ [CallDrawMarkers hoveredMarker (ofNat row) (ofNat row + ofZ 1)%num;
              CallDrawSeparatorsAndLabels (ofNat row) (ofNat row + ofZ 1)%num]
        else []
    | None => []
    end
  = repaintPreviousRow env props hoveredMarker oldRow newRow rightClickedRow.
Proof.
  destruct oldRow as [row|]; [|reflexivity].
  cbn [repaintPreviousRow].
  destruct (decide (Some row = newRow)) as [Hsame|Hother].
  - rewrite bool_decide_eq_false_2 by auto. reflexivity.
  - rewrite bool_decide_eq_true_2 by assumption.
    rewrite runCalls_app. cbn [runCalls runCall mbind outcome_bind].
    rewrite drawMarkers_markersOfOneRow, drawSeparatorsAndLabels_one_row.
    unfold separatorAndLabelOfOneRow.
    destruct (decide (Some row = rightClickedRow)) as [Hclicked|Hnot].
    + rewrite bool_decide_eq_false_2 by auto.
      cbn [runCalls mbind outcome_bind].
      destruct (drawRowLabel env props (ofNat row)) as [labels| |];
        cbn [mbind outcome_bind app]; [|reflexivity..].
      rewrite ?app_nil_r, <- ?app_assoc. reflexivity.
    + rewrite bool_decide_eq_true_2 by assumption.
      cbn [runCalls runCall mbind outcome_bind].
      destruct (drawRowLabel env props (ofNat row)) as [labels| |];
        cbn [mbind outcome_bind app]; [|reflexivity..].
      rewrite ?app_nil_r, <- ?app_assoc. reflexivity.
Qed.

(** *** No fill of the whole surface *)

Lemma Return_eq {A : Type} (a b : A) : @Return A a = Return b -> a = b.
Proof. congruence. Qed.

Local Abbreviation noSurfaceStyle := (Forall (fun op => isSurfaceStyle op = false)).

Lemma drawOneMarker_noSurfaceStyle (x y w h : num) (isInstantMarker : bool)
    (text : option string) (highlighted : bool) :
  noSurfaceStyle (drawOneMarker env props x y w h isInstantMarker text highlighted).
Proof.
  unfold drawOneMarker, drawOneInstantMarker, drawOneIntervalMarker, drawIntervalText.
  destruct isInstantMarker, highlighted; try (repeat constructor).
  all: destruct (w <=? ofZ 2)%num; [repeat constructor|].
  all: apply Forall_app_2; [repeat constructor|].
  all: destruct (_ >? _)%num; [|constructor].
  all: destruct (bool_decide _); repeat constructor.
Qed.

Lemma markersOfOneRow_noSurfaceStyle (row : nat) :
  noSurfaceStyle (markersOfOneRow env props hoveredMarker row).
Proof.
  unfold markersOfOneRow, markerPasses, firstPassOfRow, secondPassOfRow.
  cbn [flat_map]. rewrite !app_nil_r.
  apply Forall_app_2; [repeat constructor|].
  destruct (readRow (markerTimingAndBuckets props) (ofNat row))
    as [[bucketName|markerTiming]|]; try (repeat constructor).
  apply Forall_app_2; [|apply Forall_app_2; [|repeat constructor]];
    apply Forall_flat_map, Forall_forall; intros i _;
    apply drawOneMarker_noSurfaceStyle.
Qed.

Lemma separatorAndLabelOfOneRow_noSurfaceStyle (row : nat) (ops : list CtxOp) :
  separatorAndLabelOfOneRow env props row = Return ops -> noSurfaceStyle ops.
Proof.
  unfold separatorAndLabelOfOneRow, drawRowLabel, drawBucketName, drawRowSeparator,
    marginSeparator.
  destruct (readRow (markerTimingAndBuckets props) (ofNat row))
    as [[bucketName|markerTiming]|]; cbn [mbind outcome_bind]; [| |discriminate].
  - intros [= <-]. destruct (isActiveTab props); repeat constructor.
  - destruct (ofNat row >? ofZ 0)%num.
    + destruct (readRow (markerTimingAndBuckets props) (ofNat row - ofZ 1)%num)
        as [previous|]; cbn [mbind outcome_bind]; [|discriminate].
      destruct (bool_decide _); cbn [mbind outcome_bind]; intros [= <-];
        destruct (isActiveTab props); repeat constructor.
    + cbn [mbind outcome_bind]. intros [= <-].
      destruct (isActiveTab props); repeat constructor.
Qed.

Lemma hoverOnlyRepaint_noSurfaceStyle
    (hoveredLabel newRow oldRow rightClickedRow : option nat) (ops : list CtxOp) :
  hoverOnlyRepaint env props hoveredMarker hoveredLabel newRow oldRow rightClickedRow
  = Return ops ->
  noSurfaceStyle ops.
Proof.
  unfold hoverOnlyRepaint.
  destruct (repaintHoveredRow env props hoveredMarker hoveredLabel newRow)
    as [new| |] eqn:Hnew; cbn [mbind outcome_bind]; try discriminate.
  destruct (repaintPreviousRow env props hoveredMarker oldRow newRow rightClickedRow)
    as [old| |] eqn:Hold; cbn [mbind outcome_bind]; try discriminate.
  intros [= <-]. constructor; [reflexivity|]. apply Forall_app_2.
  - unfold repaintHoveredRow in Hnew. destruct newRow as [row|];
      [|apply Return_eq in Hnew; subst new; constructor].
    destruct (match hoveredLabel with
              | Some _ => Return []
              | None => separatorAndLabelOfOneRow env props row
              end) as [separatorAndLabel| |] eqn:Hlabel;
      cbn [mbind outcome_bind] in Hnew; try discriminate.
    apply Return_eq in Hnew. subst new.
    apply Forall_app_2; [repeat constructor|].
    apply Forall_app_2; [repeat constructor|].
    apply Forall_app_2; [apply markersOfOneRow_noSurfaceStyle|].
    destruct hoveredLabel; [apply Return_eq in Hlabel; subst separatorAndLabel; constructor|].
    exact (separatorAndLabelOfOneRow_noSurfaceStyle row _ Hlabel).
  - unfold repaintPreviousRow in Hold. destruct oldRow as [row|];
      [|apply Return_eq in Hold; subst old; constructor].
    destruct (decide (Some row = newRow)); [apply Return_eq in Hold; subst old; constructor|].
    destruct (separatorAndLabelOfOneRow env props row) as [separatorAndLabel| |]
      eqn:Hlabel; cbn [mbind outcome_bind] in Hold; try discriminate.
    apply Return_eq in Hold. subst old.
    apply Forall_app_2; [destruct (decide _); repeat constructor|].
    apply Forall_app_2; [apply markersOfOneRow_noSurfaceStyle|].
    exact (separatorAndLabelOfOneRow_noSurfaceStyle row _ Hlabel).
Qed.

End HoverOnly.

(** C6, as the code has it.  When only the hover state changed,
    [drawCanvas] sets the line width and then issues the repaint of the
    hovered row followed by the repaint of the row hovered before, as the
    specification words them, each made of the clearing, the
    highlighting, the two passes over the markers and the separator,
    label and bucket band of that row alone.  The rows are those that the
    Row Index gives, falling back to the label row in the active tab
    view.  The colour of the fill of the whole surface is never set.
    What goes beyond the two rows is the vertical separator of the left
    margin, which comes with every separator and label outside the
    active tab view. *)
Theorem hover_only_repaint (env : Env) (props : Props) (scale : ChartCanvasScale)
    (hoverInfo : ChartCanvasHoverInfo) (newRow oldRow rightClickedRow : option nat) :
  isHoveredOnlyDifferent hoverInfo = true ->
  (cssToUserScale scale =? ofZ 1)%num = true ->
  hoveredRow props (hoveredMarkerOf hoverInfo) (hoveredLabelOf hoverInfo) newRow ->
  hoveredRow props (prevHoveredMarkerOf hoverInfo) (prevHoveredLabelOf hoverInfo)
    oldRow ->
  indexedRow (markerTimingAndBuckets props) (rightClickedMarkerIndex props)
    rightClickedRow ->
  drawCanvas env props scale hoverInfo
  = hoverOnlyRepaint env props (hoveredMarkerOf hoverInfo) (hoveredLabelOf hoverInfo)
      newRow oldRow rightClickedRow
  /\ forall ops,
       drawCanvas env props scale hoverInfo = Return ops ->
       Forall (fun op => isSurfaceStyle op = false) ops.
Proof.
  intros Honly Hscale Hnew%hoveredRow_rowOfHovered Hold%hoveredRow_rowOfHovered
    Hclicked%indexedRow_lookup.
  assert (drawCanvas env props scale hoverInfo
          = hoverOnlyRepaint env props (hoveredMarkerOf hoverInfo)
              (hoveredLabelOf hoverInfo) newRow oldRow rightClickedRow) as Hdraw.
  { unfold drawCanvas, drawCanvasCalls. rewrite Hscale, Honly.
    cbn [negb mbind outcome_bind]. cbv zeta.
    fold (hoveredMarkerOf hoverInfo) (hoveredLabelOf hoverInfo).
    fold (prevHoveredMarkerOf hoverInfo) (prevHoveredLabelOf hoverInfo).
    rewrite Hnew, Hold, Hclicked.
    cbn [runCalls runCall mbind outcome_bind]. rewrite runCalls_app.
    rewrite runCalls_repaintHoveredRow, runCalls_repaintPreviousRow.
    unfold hoverOnlyRepaint.
    destruct (repaintHoveredRow _ _ _ _ _) as [new| |]; cbn [mbind outcome_bind];
      [|reflexivity..].
    destruct (repaintPreviousRow _ _ _ _ _ _) as [old| |]; reflexivity. }
  split; [exact Hdraw|].
  intros ops. rewrite Hdraw. apply hoverOnlyRepaint_noSurfaceStyle.
Qed.

(** From marker 5 in row 0 to marker 7 in row 1: row 1 is repainted, then
    row 0, two repaints of one row each. *)
Lemma hover_only_repaint_two_rows :
  drawCanvas Example.env (Example.chart Example.twoRows "full") Example.scale
    Example.fromFiveToSeven
  = hoverOnlyRepaint Example.env (Example.chart Example.twoRows "full") (Idx 7) None
      (Some 1%nat) (Some 0%nat) None.
Proof.
  apply (hover_only_repaint Example.env (Example.chart Example.twoRows "full")
           Example.scale Example.fromFiveToSeven (Some 1%nat) (Some 0%nat) None).
  - reflexivity.
  - vm_compute. reflexivity.
  - exists (Some 1%nat). split; [|reflexivity]. split; [discriminate|]. split.
    + eexists. split; [reflexivity|]. apply list_elem_of_In. left. reflexivity.
    + intros [|[|[|later]]] markerTiming Hlater Hrow; try lia; discriminate.
  - exists (Some 0%nat). split; [|reflexivity]. split; [discriminate|]. split.
    + eexists. split; [reflexivity|]. apply list_elem_of_In. left. reflexivity.
    + intros [|[|[|later]]] markerTiming Hlater Hrow; try lia; try discriminate.
      injection Hrow as <-. intros Hin. apply list_elem_of_In in Hin.
      cbn in Hin. intuition discriminate.
  - left. reflexivity.
Defined.

(** C6 as the specification words it does not hold outside the active tab
    view.  In a chart of two rows with a left margin, the pointer comes
    to marker 5 of row 0 from no marker: row 0 is the one row to repaint,
    and with its separator and label the vertical separator of the left
    margin is filled over the whole height of the container, across
    row 1. *)
Lemma hover_repaint_touches_another_row :
  hoveredRow (Example.withMargin Example.twoRows "full") (Idx 5) None (Some 0%nat)
  /\ hoveredRow (Example.withMargin Example.twoRows "full") Null None None
  /\ ~ noOtherRowTouched (Example.withMargin Example.twoRows "full") [0%nat]
         (drawCanvas Example.env (Example.withMargin Example.twoRows "full")
            Example.scale Example.toFive).
Proof.
  split; [|split].
  - exists (Some 0%nat). split; [|reflexivity]. split; [discriminate|]. split.
    + eexists. split; [reflexivity|]. apply list_elem_of_In. left. reflexivity.
    + intros [|[|[|later]]] markerTiming Hlater Hrow; try lia; try discriminate.
      injection Hrow as <-. intros Hin. apply list_elem_of_In in Hin.
      cbn in Hin. intuition discriminate.
  - exists None. split; [left|]; reflexivity.
  - intros Hclaim.
    destruct (drawCanvas Example.env (Example.withMargin Example.twoRows "full")
                Example.scale Example.toFive) as [ops| |] eqn:Hdraw;
      [|vm_compute in Hdraw; discriminate..].
    assert (touchesRow (Example.withMargin Example.twoRows "full") 1
              (FillRect (ofZ 50 - ofZ 1)%num (ofZ 0) (ofZ 1) (ofZ 64)) = false)
      as Htouched; [|vm_compute in Htouched; discriminate].
    apply (Hclaim ops); [reflexivity | cbn; lia | |].
    + intros Hin. apply list_elem_of_In in Hin. cbn in Hin. intuition discriminate.
    + apply (f_equal (fun o => match o with Return l => l | _ => [] end)) in Hdraw.
      rewrite <- Hdraw. apply list_elem_of_In. vm_compute.
      repeat first [left; reflexivity | right].
Qed.

(** * Further properties *)

(** ** What [hitTest] returns, and when it does not *)

Section HitTestOutcomes.

Local Open Scope num_scope.

Variable props : Props.
Variable _textMeasurement : option TextMeasurement.
Variables x y : num.

(** X1.  A hover state that [hitTest] returns never has both its marker
    and its label row [null]: that pair is collapsed to [null]. *)
Theorem hitTest_never_both_null (hovered : HoveredMarkerChartItems) :
  hitTest props _textMeasurement x y = Return (Some hovered) ->
  markerIndex hovered <> Null \/ rowIndexOfLabel hovered <> None.
Proof.
  unfold hitTest.
  destruct (x <? marginLeft props - dotRadius props); [discriminate|].
  destruct (readRow _ _) as [[bucketName|mt]|]; try discriminate.
  destruct (MarkerTiming.length mt =? 0)%nat; [discriminate|].
  destruct (hitTestLabel _ _ _ _ _) as [l| |]; cbn [mbind outcome_bind];
    try discriminate.
  destruct (bool_decide (_ = Null)) eqn:Hmarker; cbn [andb].
  - destruct (bool_decide (l = None)) eqn:Hlabel; [discriminate|].
    intros [= <-]. right. cbn. apply bool_decide_eq_false in Hlabel. assumption.
  - intros [= <-]. left. cbn. apply bool_decide_eq_false in Hmarker. assumption.
Qed.

(** X2.  When the row under the pointer is missing, is a bucket or is an
    empty timing row, [hitTest] returns [null], whatever the view. *)
Theorem hitTest_no_timing_row :
  (forall markerTiming,
     readRow (markerTimingAndBuckets props) (hitTestRowIndex props y)
       = Some (Timing markerTiming) ->
     MarkerTiming.length markerTiming = 0%nat) ->
  hitTest props _textMeasurement x y = Return None.
Proof.
  intros Hrow. unfold hitTest.
  destruct (x <? marginLeft props - dotRadius props); [reflexivity|].
  destruct (readRow _ _) as [[bucketName|mt]|]; try reflexivity.
  rewrite (Hrow mt eq_refl). reflexivity.
Qed.

(** X3.  [hitTest] never loops, and it throws only a [TypeError], only in
    the active tab view, and only for a pointer inside the clickable
    region whose row is row 0 and a non-empty timing row. *)
Theorem hitTest_throws_only_at_first_row :
  hitTest props _textMeasurement x y <> Loops
  /\ forall e,
       hitTest props _textMeasurement x y = Throw e ->
       e = TypeError
       /\ isActiveTab props = true
       /\ (x <? marginLeft props - dotRadius props) = false
       /\ hitTestRowIndex props y = ofZ 0
       /\ exists markerTiming,
            markerTimingAndBuckets props !! 0%nat = Some (Timing markerTiming)
            /\ MarkerTiming.length markerTiming <> 0%nat.
Proof.
  unfold hitTest.
  destruct (x <? marginLeft props - dotRadius props); [split; [|intros e]; discriminate|].
  destruct (readRow _ _) as [[bucketName|mt]|] eqn:Hrow;
    try (split; [|intros e]; discriminate).
  destruct (MarkerTiming.length mt =? 0)%nat eqn:Hlen;
    [split; [|intros e]; discriminate|].
  unfold hitTestLabel.
  destruct (isActiveTab props);
    [|cbn [mbind outcome_bind];
      destruct (_ && _); split; [|intros e| |intros e]; discriminate].
  destruct (readRow (markerTimingAndBuckets props) (hitTestRowIndex props y - ofZ 1))
    as [prev|] eqn:Hprev.
  - assert (forall A (o : outcome (option nat)) (k : option nat -> outcome A),
              (forall l, o <> Throw l) -> o <> Loops ->
              (forall l, exists a, k l = Return a) ->
              (o ≫= k) <> Loops /\ forall e, (o ≫= k) = Throw e -> False) as Hbind.
    { intros A o k Hthrow Hloop Hk. destruct o as [l|err|]; cbn.
      - destruct (Hk l) as [a ->]. split; [|intros e]; discriminate.
      - destruct (Hthrow err). reflexivity.
      - destruct Hloop. reflexivity. }
    match goal with
    | |- (?o ≫= ?k) <> Loops /\ _ =>
        destruct (Hbind _ o k) as [Hnoloop Hnothrow]
    end.
    + intros l. destruct (if bool_decide _ then _ else None); [|discriminate].
      destruct (_ <? _); discriminate.
    + destruct (if bool_decide _ then _ else None); [|discriminate].
      destruct (_ <? _); discriminate.
    + intros l. destruct (_ && _); eauto.
    + split; [exact Hnoloop|]. intros e He. destruct (Hnothrow e He).
  - cbn [mbind outcome_bind]. split; [discriminate|].
    intros e [= <-].
    pose proof (readRow_previous_missing _ _ _ Hrow Hprev) as Hzero.
    repeat split; try assumption.
    exists mt. rewrite Hzero in Hrow. split.
    + exact Hrow.
    + apply Nat.eqb_neq. assumption.
Qed.

(** X4.  A marker that [hitTest] reports is a marker of the timing row
    under the pointer and is within the dot radius of the pointer's time:
    it starts before [xInTime + dotRadiusInTime] and ends after
    [xInTime - dotRadiusInTime].  The row need not be sorted for this. *)
Theorem hitTest_marker_in_radius (hovered : HoveredMarkerChartItems)
    (id : MarkerIndex) :
  hitTest props _textMeasurement x y = Return (Some hovered) ->
  markerIndex hovered = Idx id ->
  exists markerTiming i,
    readRow (markerTimingAndBuckets props) (hitTestRowIndex props y)
      = Some (Timing markerTiming)
    /\ MarkerTiming.index markerTiming !! i = Some id
    /\ (startAt markerTiming i <? xInTime props x + dotRadiusInTime props) = true
    /\ (endAt markerTiming i >? xInTime props x - dotRadiusInTime props) = true.
Proof.
  unfold hitTest.
  destruct (x <? marginLeft props - dotRadius props); [discriminate|].
  destruct (readRow _ _) as [[bucketName|mt]|] eqn:Hrow; try discriminate.
  destruct (MarkerTiming.length mt =? 0)%nat; [discriminate|].
  destruct (hitTestLabel _ _ _ _ _) as [l| |]; cbn [mbind outcome_bind];
    try discriminate.
  destruct (_ && _); [discriminate|].
  intros [= <-]. cbn [markerIndex]. unfold hitTestMarker. cbv zeta.
  match goal with
  | |- context [isMarkerTimingInDotRadius _ _ _ ?c] => set (candidate := c)
  end.
  destruct (isMarkerTimingInDotRadius mt _ _ candidate) eqn:Hradius; [|discriminate].
  unfold readIndex.
  destruct (MarkerTiming.index mt !! candidate) as [id'|] eqn:Hid; [|discriminate].
  cbn. intros [= <-]. exists mt, candidate.
  apply andb_true_iff in Hradius as [Hstart Hend]. auto.
Qed.

(** X5.  Outside the active tab view a hover state has a marker and no
    label row: only the first of the states of a hovered item occurs. *)
Theorem hitTest_full_view_marker_only (hovered : HoveredMarkerChartItems) :
  isActiveTab props = false ->
  hitTest props _textMeasurement x y = Return (Some hovered) ->
  rowIndexOfLabel hovered = None /\ markerIndex hovered <> Null.
Proof.
  intros Hfull. unfold hitTest.
  destruct (x <? marginLeft props - dotRadius props); [discriminate|].
  destruct (readRow _ _) as [[bucketName|mt]|]; try discriminate.
  destruct (MarkerTiming.length mt =? 0)%nat; [discriminate|].
  unfold hitTestLabel. rewrite Hfull. cbn [mbind outcome_bind].
  destruct (bool_decide (_ = Null)) eqn:Hmarker; [discriminate|].
  intros [= <-]. cbn. split; [reflexivity|].
  apply bool_decide_eq_false in Hmarker. assumption.
Qed.

(** What the label test tells when it finds a label. *)
Lemma hitTestLabel_Some (rowIndex : num) (markerTiming : MarkerTiming.t) (row : nat) :
  hitTestLabel props _textMeasurement x rowIndex markerTiming = Return (Some row) ->
  isActiveTab props = true
  /\ rowIndex = ofNat row
  /\ exists previous textMeasurement,
       readRow (markerTimingAndBuckets props) (rowIndex - ofZ 1) = Some previous
       /\ rowName previous <> Some (MarkerTiming.name markerTiming)
       /\ _textMeasurement = Some textMeasurement
       /\ (x <? getTextWidth textMeasurement (MarkerTiming.name markerTiming)
                + LABEL_PADDING * ofZ 2) = true.
Proof.
  unfold hitTestLabel.
  destruct (isActiveTab props); [|discriminate].
  destruct (readRow (markerTimingAndBuckets props) (rowIndex - ofZ 1))
    as [previous|]; [|discriminate].
  destruct (bool_decide (rowName previous <> Some (MarkerTiming.name markerTiming)))
    eqn:Hname; [|discriminate].
  destruct _textMeasurement as [textMeasurement|]; [|discriminate].
  destruct (x <? getTextWidth textMeasurement (MarkerTiming.name markerTiming)
                 + LABEL_PADDING * ofZ 2) eqn:Hleft; [|discriminate].
  intros [= Hindex]. apply asArrayIndex_Some in Hindex.
  apply bool_decide_eq_true in Hname.
  split; [reflexivity|]. split; [exact Hindex|]. eauto 10.
Qed.

(** What a hover state tells: the row under the pointer is a timing row,
    and the label test on it gave the label row of the state. *)
Lemma hitTest_Some (hovered : HoveredMarkerChartItems) :
  hitTest props _textMeasurement x y = Return (Some hovered) ->
  exists markerTiming,
    readRow (markerTimingAndBuckets props) (hitTestRowIndex props y)
      = Some (Timing markerTiming)
    /\ hitTestLabel props _textMeasurement x (hitTestRowIndex props y) markerTiming
       = Return (rowIndexOfLabel hovered).
Proof.
  unfold hitTest.
  destruct (x <? marginLeft props - dotRadius props); [discriminate|].
  destruct (readRow _ _) as [[bucketName|markerTiming]|] eqn:Hrow; try discriminate.
  destruct (MarkerTiming.length markerTiming =? 0)%nat; [discriminate|].
  destruct (hitTestLabel _ _ _ _ _) as [label| |] eqn:Hlabel;
    cbn [mbind outcome_bind]; try discriminate.
  destruct (_ && _); [discriminate|]. intros [= <-].
  exists markerTiming. split; [reflexivity | exact Hlabel].
Qed.

(** X6.  A hover state carries a label row only in the active tab view,
    only when the text measurement tool exists, only for the row under
    the pointer when its name is not the name of the row before it, and
    only when the pointer is left of the width of the name plus twice the
    label padding. *)
Theorem hitTest_label_only_on_first_row_of_a_name
    (hovered : HoveredMarkerChartItems) (row : nat) :
  hitTest props _textMeasurement x y = Return (Some hovered) ->
  rowIndexOfLabel hovered = Some row ->
  isActiveTab props = true
  /\ hitTestRowIndex props y = ofNat row
  /\ exists markerTiming previous textMeasurement,
       markerTimingAndBuckets props !! row = Some (Timing markerTiming)
       /\ readRow (markerTimingAndBuckets props) (ofNat row - ofZ 1) = Some previous
       /\ rowName previous <> Some (MarkerTiming.name markerTiming)
       /\ _textMeasurement = Some textMeasurement
       /\ (x <? getTextWidth textMeasurement (MarkerTiming.name markerTiming)
                + LABEL_PADDING * ofZ 2) = true.
Proof.
  intros (markerTiming & Hrow & Hlabel)%hitTest_Some Hsome.
  rewrite Hsome in Hlabel.
  apply hitTestLabel_Some in Hlabel
    as (Hactive & Hindex & previous & textMeasurement & Hprevious & Hname & Htool & Hleft).
  rewrite Hindex in Hrow, Hprevious. rewrite readRow_ofNat in Hrow.
  split; [exact Hactive|]. split; [exact Hindex|].
  exists markerTiming, previous, textMeasurement. auto.
Qed.

End HitTestOutcomes.

(** Below the last row of the small chart nothing is hit, in the active
    tab view as well. *)
Lemma hitTest_no_timing_row_below :
  hitTest (Example.chart [Timing Example.timing] "active-tab") None (ofZ 15) (ofZ 100)
  = Return None.
Proof.
  apply hitTest_no_timing_row. intros mt Hrow. vm_compute in Hrow. discriminate.
Defined.

(** Over the name of row 1 of the two rows, in the active tab view, the
    label is hovered and no marker is: the hover state is a label row
    alone. *)
Lemma hitTest_label_hover :
  hitTest (Example.chart Example.twoRows "active-tab") (Some Example.measurement)
    (ofZ 5) (ofZ 40)
  = Return (Some {| markerIndex := Null; rowIndexOfLabel := Some 1%nat |}).
Proof. vm_compute. reflexivity. Qed.

Lemma hitTest_never_both_null_label_hover :
  exists hovered,
    hitTest (Example.chart Example.twoRows "active-tab") (Some Example.measurement)
      (ofZ 5) (ofZ 40) = Return (Some hovered)
    /\ (markerIndex hovered <> Null \/ rowIndexOfLabel hovered <> None).
Proof.
  eexists. split; [apply hitTest_label_hover|].
  eapply hitTest_never_both_null. apply hitTest_label_hover.
Defined.

Lemma hitTest_throws_only_at_first_row_example :
  isActiveTab (Example.chart [Timing Example.timing] "active-tab") = true.
Proof.
  destruct (hitTest_throws_only_at_first_row
              (Example.chart [Timing Example.timing] "active-tab") None
              (ofZ 15) (ofZ 5)) as [_ Hthrow].
  destruct (Hthrow TypeError) as (_ & Hactive & _).
  - vm_compute. reflexivity.
  - exact Hactive.
Defined.

(** The hit at time 15 of the small chart: marker 8 is in radius. *)
Lemma hitTest_marker_in_radius_example :
  exists i,
    MarkerTiming.index Example.timing !! i = Some 8
    /\ (startAt Example.timing i
        <? xInTime (Example.chart [Timing Example.timing] "full") (ofZ 15)
           + dotRadiusInTime (Example.chart [Timing Example.timing] "full"))%num = true.
Proof.
  destruct (hitTest_marker_in_radius (Example.chart [Timing Example.timing] "full")
              None (ofZ 15) (ofZ 5)
              {| markerIndex := Idx 8; rowIndexOfLabel := None |} 8)
    as (mt & i & Hrow & Hid & Hstart & _).
  - vm_compute. reflexivity.
  - reflexivity.
  - vm_compute in Hrow. injection Hrow as <-. eauto.
Defined.

Lemma hitTest_full_view_marker_only_example :
  exists hovered,
    hitTest (Example.chart [Timing Example.timing] "full") None (ofZ 15) (ofZ 5)
    = Return (Some hovered)
    /\ rowIndexOfLabel hovered = None /\ markerIndex hovered <> Null.
Proof.
  exists {| markerIndex := Idx 8; rowIndexOfLabel := None |}.
  assert (hitTest (Example.chart [Timing Example.timing] "full") None (ofZ 15) (ofZ 5)
          = Return (Some {| markerIndex := Idx 8; rowIndexOfLabel := None |})) as Hhit
    by (vm_compute; reflexivity).
  split; [exact Hhit|].
  exact (hitTest_full_view_marker_only
           (Example.chart [Timing Example.timing] "full") None (ofZ 15) (ofZ 5) _
           eq_refl Hhit).
Defined.

Lemma hitTest_label_only_on_first_row_of_a_name_example :
  hitTestRowIndex (Example.chart Example.twoRows "active-tab") (ofZ 40) = ofNat 1.
Proof.
  destruct (hitTest_label_only_on_first_row_of_a_name
              (Example.chart Example.twoRows "active-tab") (Some Example.measurement)
              (ofZ 5) (ofZ 40) {| markerIndex := Null; rowIndexOfLabel := Some 1%nat |}
              1%nat) as (_ & Hrow & _).
  - apply hitTest_label_hover.
  - reflexivity.
  - exact Hrow.
Defined.

(** ** A geometry that is not degenerate is finite *)

Lemma sub_Fin_inv (a b : num) (d : Qc) :
  (a - b)%num = Fin d -> exists p q, a = Fin p /\ b = Fin q /\ d = (p - q)%Qc.
Proof.
  destruct a as [p| | |], b as [q| | |]; cbn; try discriminate.
  intros [= <-]. eauto.
Qed.

Lemma positiveb_sub_inv (a b : num) :
  positiveb (a - b)%num = true ->
  exists p q, a = Fin p /\ b = Fin q /\ (0 < p - q)%Qc.
Proof.
  intros (d & Hd & Hpos)%positiveb_Fin.
  destruct (sub_Fin_inv _ _ _ Hd) as (p & q & -> & -> & ->). eauto.
Qed.

Lemma Qc_pos_nonzero (q : Qc) : (0 < q)%Qc -> q <> 0%Qc.
Proof. intros Hpos ->. revert Hpos. apply Qcle_not_lt, Qcle_refl. Qed.

Lemma nonDegenerate_finite (props : Props) :
  nonDegenerate props = true -> inhabited (FiniteProps props).
Proof.
  unfold nonDegenerate. rewrite !andb_true_iff. intros [[[Hh Hw] Hv] Hr].
  apply positiveb_Fin in Hh as (rh & Hrh & Hrhpos).
  unfold rangeLength in Hr. apply positiveb_sub_inv in Hr as (re & rs & Hre & Hrs & Hrpos).
  unfold viewportLength in Hv.
  apply positiveb_sub_inv in Hv as (vr & vl & Hvr & Hvl & Hvpos).
  unfold markerContainerWidth in Hw.
  apply positiveb_sub_inv in Hw as (d & mr & Hd & Hmr & Hwpos).
  destruct (sub_Fin_inv _ _ _ Hd) as (cw & ml & Hcw & Hml & ->).
  constructor.
  exact (Build_FiniteProps props rs re vl vr cw ml mr rh
           Hrs Hre Hvl Hvr Hcw Hml Hmr Hrh Hrpos Hvpos Hwpos Hrhpos).
Qed.

(** From a time to its pixel and back, for any geometry that is not
    degenerate. *)
(** ** The pointer inside a marker *)

Section Inside.

Local Open Scope num_scope.

Lemma bisectionRight_after (array : list num) (i : nat) (a t : num) :
  sortedAscending array ->
  array !! i = Some a ->
  (t <? a) = false ->
  (forall s', array !! S i = Some s' -> (t <? s') = true) ->
  bisectionRight array t = S i.
Proof.
  intros Hsorted Hi Hnot Hnext.
  destruct (bisectionRight_insertionPoint array t Hsorted)
    as (Hlen & Hbelow & Habove).
  set (n := bisectionRight array t) in *.
  assert (i < n)%nat as Hlow.
  { destruct (Nat.lt_ge_cases i n) as [|Hge]; [assumption|].
    pose proof (Habove i _ Hge Hi) as H. congruence. }
  assert (n <= S i)%nat as Hhigh.
  { destruct (Nat.le_gt_cases n (S i)) as [|Hgt]; [assumption|].
    destruct (lookup_lt_is_Some_2 array (S i)) as [s' Hs']; [lia|].
    pose proof (Hbelow _ _ Hgt Hs') as H. rewrite (Hnext _ Hs') in H. discriminate. }
  lia.
Qed.

Lemma in_radius_inside (s q : Qc) (e r : num) :
  (s <= q)%Qc -> (Fin q <=? e) = true -> positiveb r = true ->
  (Fin s <? Fin q + r) && (e >? Fin q - r) = true.
Proof.
  intros Hs He (d & -> & Hd)%positiveb_Fin.
  destruct e as [e| | |]; simpl in *; try discriminate.
  - apply bool_decide_eq_true in He.
    apply andb_true_iff; split; apply bool_decide_eq_true; qc_lra.
  - rewrite andb_true_r. apply bool_decide_eq_true. qc_lra.
Qed.

Variable props : Props.
Variable _textMeasurement : option TextMeasurement.
Variable y : num.
Variable markerTiming : MarkerTiming.t.
Variable i : nat.
Variables s q : Qc.
Variable e : num.
Variable id : MarkerIndex.

Hypothesis geometry : nonDegenerate props = true.
Hypothesis lengths :
  MarkerTiming.length markerTiming = List.length (MarkerTiming.start markerTiming).
Hypothesis sorted : sortedAscending (MarkerTiming.start markerTiming).
Hypothesis start_i : MarkerTiming.start markerTiming !! i = Some (Fin s).
Hypothesis end_i : MarkerTiming.end_ markerTiming !! i = Some e.
Hypothesis index_i : MarkerTiming.index markerTiming !! i = Some id.
Hypothesis after_start : (s <= q)%Qc.
Hypothesis before_end : (Fin q <=? e) = true.
Hypothesis before_next :
  forall s', MarkerTiming.start markerTiming !! S i = Some s' -> (Fin q <? s') = true.

Lemma hitTestMarker_inside :
  hitTestMarker markerTiming (Fin q) (dotRadiusInTime props) = Idx id.
Proof.
  pose proof (dotRadiusInTime_positive props geometry) as Hr.
  unfold hitTestMarker.
  rewrite (bisectionRight_after _ i (Fin s) (Fin q) sorted start_i); [|
    cbn; apply bool_decide_eq_false, Qcle_not_lt; assumption | exact before_next].
  assert ((if (0 <? S i)%nat && (S i <? MarkerTiming.length markerTiming)%nat
           then closest markerTiming (Fin q) (S i)
           else if (S i =? 0)%nat then S i else (S i - 1)%nat) = i) as ->.
  { destruct (S i <? MarkerTiming.length markerTiming)%nat eqn:Hlt;
      cbn [Nat.ltb Nat.leb andb].
    - apply Nat.ltb_lt in Hlt.
      destruct (lookup_lt_is_Some_2 (MarkerTiming.start markerTiming) (S i))
        as [s' Hs']; [lia|].
      unfold closest. replace (S i - 1)%nat with i by lia.
      rewrite (readNum_lookup _ _ _ Hs'), (readNum_lookup _ _ _ end_i).
      rewrite (gap_at_start q e s' before_end (before_next _ Hs')). reflexivity.
    - cbn [Nat.eqb]. lia. }
  unfold isMarkerTimingInDotRadius.
  rewrite (readNum_lookup _ _ _ start_i), (readNum_lookup _ _ _ end_i).
  rewrite (in_radius_inside s q e _ after_start before_end Hr).
  unfold readIndex. rewrite index_i. reflexivity.
Qed.

(** X7.  In a sorted row of a geometry that is not degenerate, a pointer
    whose time lies within marker [i], from its start to its end and
    before the start of the next marker, hits marker [i]: outside the
    active tab view [hitTest] returns that marker for any pointer inside
    the clickable region. *)
Theorem hitTest_inside_marker (x : num) :
  readRow (markerTimingAndBuckets props) (hitTestRowIndex props y)
    = Some (Timing markerTiming) ->
  xInTime props x = Fin q ->
  (x <? marginLeft props - dotRadius props) = false ->
  isActiveTab props = false ->
  hitTest props _textMeasurement x y =
    Return (Some {| markerIndex := Idx id; rowIndexOfLabel := None |}).
Proof.
  intros Hrow Ht Hguard Hfull.
  assert (MarkerTiming.length markerTiming <> 0%nat) as Hnonempty.
  { apply lookup_lt_Some in start_i. lia. }
  rewrite (hitTest_on_timing_row _ _ _ _ _ Hrow Hnonempty).
  rewrite Hguard, Ht, hitTestMarker_inside.
  rewrite (hitTestLabel_full_view _ _ _ _ _ Hfull). reflexivity.
Qed.

End Inside.

(** In the small chart the marker from 20 to 30 is hit at time 25. *)
Lemma hitTest_inside_marker_example :
  hitTest (Example.chart [Timing Example.timing] "full") None (ofZ 25) (ofZ 5)
  = Return (Some {| markerIndex := Idx 8; rowIndexOfLabel := None |}).
Proof.
  apply (hitTest_inside_marker (Example.chart [Timing Example.timing] "full") None
           (ofZ 5) Example.timing 1 (Qc_of_Z 20) (Qc_of_Z 25) (ofZ 30) 8).
  - vm_compute. reflexivity.
  - reflexivity.
  - apply isSorted_sound. vm_compute. reflexivity.
  - reflexivity.
  - reflexivity.
  - reflexivity.
  - vm_compute. discriminate.
  - vm_compute. reflexivity.
  - intros s' Hs'. discriminate.
  - vm_compute. reflexivity.
  - same_num.
  - vm_compute. reflexivity.
  - vm_compute. reflexivity.
Defined.

(** ** Time and pixels *)

Lemma Qc_of_Z_0 : Qc_of_Z 0 = 0%Qc.
Proof. apply Qc_is_canon. reflexivity. Qed.


Section Geometry.

Local Open Scope Qc_scope.

Variable env : Env.
Variable props : Props.
Variable F : FiniteProps props.

Local Abbreviation rs := (fRangeStart props F).
Local Abbreviation ml := (fMarginLeft props F).
Local Abbreviation mr := (fMarginRight props F).
Local Abbreviation cw := (fContainerWidth props F).
Local Abbreviation vl := (fViewportLeft props F).
Local Abbreviation vr := (fViewportRight props F).
Local Abbreviation L := (fRangeEnd props F - fRangeStart props F).
Local Abbreviation V := (fViewportRight props F - fViewportLeft props F).
Local Abbreviation W :=
  (fContainerWidth props F - fMarginLeft props F - fMarginRight props F).

(** The pixels per unit of time. *)
Local Abbreviation slope := (W / (L * V)).

Ltac geometry :=
  unfold markerRawX, markerRawW, xInTime, xInUnitInterval, timeAtViewportLeft,
    timeAtViewportRightPlusMargin, rangeLength, viewportLength, markerContainerWidth;
  rewrite ?(rangeStart_is _ F), ?(rangeEnd_is _ F), ?(viewportLeft_is _ F),
    ?(viewportRight_is _ F), ?(containerWidth_is _ F), ?(marginLeft_is _ F),
    ?(marginRight_is _ F);
  repeat progress
    (cbn [add sub mul div neg];
     fold (Qcminus (fRangeEnd props F) rs); fold (Qcminus vr vl);
     fold (Qcminus cw ml); fold (Qcminus (cw - ml) mr);
     rewrite ?(bool_decide_eq_false_2 (L = 0))
       by (apply Qc_pos_nonzero, (rangeLength_pos _ F));
     rewrite ?(bool_decide_eq_false_2 (V = 0))
       by (apply Qc_pos_nonzero, (viewportLength_pos _ F));
     rewrite ?(bool_decide_eq_false_2 (W = 0))
       by (apply Qc_pos_nonzero, (markerContainerWidth_pos _ F))).

Ltac nonzero :=
  repeat split; apply Qc_pos_nonzero;
  first [apply (rangeLength_pos _ F) | apply (viewportLength_pos _ F)
        | apply (markerContainerWidth_pos _ F)].

Lemma slope_pos : 0 < slope.
Proof.
  unfold Qcdiv. apply Qcmult_pos_pos; [apply (markerContainerWidth_pos _ F)|].
  apply Qcinv_pos, Qcmult_pos_pos;
    [apply (rangeLength_pos _ F) | apply (viewportLength_pos _ F)].
Qed.

(** The pixel of a time is an affine function of the time: the left
    margin, plus the distance from the time at the left of the viewport
    times the slope. *)
Lemma markerRawX_affine (t : Qc) :
  markerRawX props (Fin t) = Fin (ml + (t - (rs + L * vl)) * slope).
Proof. geometry. f_equal. field. nonzero. Qed.

Lemma markerRawX_le (s t : Qc) :
  (markerRawX props (Fin s) <=? markerRawX props (Fin t))%num = bool_decide (s <= t).
Proof.
  rewrite !markerRawX_affine. cbn [leb]. apply bool_decide_ext.
  rewrite <- Qcplus_le_mono_l, <- (Qcmult_le_mono_pos_r _ _ _ slope_pos).
  unfold Qcminus. rewrite <- Qcplus_le_mono_r. reflexivity.
Qed.

Lemma markerRawW_instant (s : Qc) : markerRawW props (Fin s) (Fin s) = Fin 0.
Proof. geometry. f_equal. field. nonzero. Qed.



End Geometry.



(** X11.  A pointer whose position in the unit interval is [NaN], as on
    a chart that has no width left for markers, passes both range tests:
    [onMouseMove] dispatches [NaN] as the time, not [null]. *)
Theorem onMouseMove_NaN (props : Props) (offsetX : num) :
  xInUnitInterval props offsetX = NaN ->
  onMouseMove props offsetX = [ChangeMouseTimePosition (Some NaN)].
Proof.
  intros Hnan. unfold onMouseMove, xInTime. rewrite Hnan. cbn.
  destruct (rangeStart props); reflexivity.
Qed.

Lemma onMouseMove_NaN_example :
  onMouseMove
    {| rangeStart := ofZ 0; rangeEnd := ofZ 100;
       markerTimingAndBuckets := [];
       rowHeight := ofZ 32;
       marginLeft := ofZ 0; marginRight := ofZ 0;
       selectedMarkerIndex := Null; rightClickedMarkerIndex := Null;
       timelineTrackOrganization := {| type := "full" |};
       viewport :=
         {| viewportLeft := ofZ 0; viewportRight := ofZ 1;
            viewportTop := ofZ 0; viewportBottom := ofZ 64;
            containerWidth := ofZ 0; containerHeight := ofZ 64 |} |}
    (ofZ 0)
  = [ChangeMouseTimePosition (Some NaN)].
Proof. apply onMouseMove_NaN. vm_compute. reflexivity. Defined.

(** ** Device pixels *)

Lemma Qfloor_half (z : Z) : Qfloor (Qc_of_Z z + qc 1 2)%Qc = z.
Proof.
  unfold Qcplus, qc, Q2Qc, Qc_of_Z. cbn [this]. rewrite !Qred_correct.
  apply Z.le_antisymm.
  - apply Z.lt_succ_r. rewrite Zlt_Qlt. eapply Qle_lt_trans; [apply Qfloor_le|].
    unfold Z.succ. rewrite inject_Z_plus. change (inject_Z 1) with 1%Q. lra.
  - rewrite <- (Qfloor_Z z) at 1. apply Qfloor_resp_le. lra.
Qed.

Section DevicePixels.

Local Open Scope Qc_scope.

Variable env : Env.
Variable d : Qc.
Hypothesis Hd : devicePixelRatio env = Fin d.
Hypothesis Hpos : 0 < d.

Lemma alignToDevicePixel_Fin (q : Qc) :
  alignToDevicePixel env (Fin q)
  = Fin (Qc_of_Z (Qfloor (q * d + qc 1 2)%Qc) / d).
Proof.
  unfold alignToDevicePixel. rewrite Hd. cbn [mul round ofZ div].
  rewrite bool_decide_eq_false_2 by (apply Qc_pos_nonzero, Hpos). reflexivity.
Qed.

Lemma alignToDevicePixel_times (z : Z) : Qc_of_Z z / d * d = Qc_of_Z z.
Proof. field. apply Qc_pos_nonzero, Hpos. Qed.

Ltac infinite :=
  repeat progress
    (cbn [mul neg round div]; unfold signedInf;
     rewrite ?(bool_decide_eq_false_2 (d = 0)) by (apply Qc_pos_nonzero, Hpos);
     rewrite ?(bool_decide_eq_true_2 (0 < d)) by exact Hpos;
     rewrite ?(bool_decide_eq_true_2 (0 <= d)) by (apply Qclt_le_weak, Hpos));
  reflexivity.

Lemma alignToDevicePixel_idempotent_positive (v : num) :
  alignToDevicePixel env (alignToDevicePixel env v) = alignToDevicePixel env v.
Proof.
  destruct v as [q| | |].
  - rewrite !alignToDevicePixel_Fin, alignToDevicePixel_times, Qfloor_half.
    reflexivity.
  - unfold alignToDevicePixel. rewrite Hd. infinite.
  - unfold alignToDevicePixel. rewrite Hd. infinite.
  - unfold alignToDevicePixel. rewrite Hd. reflexivity.
Qed.

Lemma alignToDevicePixel_infinite :
  alignToDevicePixel env PInf = PInf
  /\ alignToDevicePixel env NInf = NInf
  /\ alignToDevicePixel env NaN = NaN.
Proof.
  unfold alignToDevicePixel. rewrite Hd. repeat split; first [infinite | reflexivity].
Qed.

Lemma alignToDevicePixel_nearest_positive (q : Qc) :
  exists z : Z,
    alignToDevicePixel env (Fin q) = (ofZ z / devicePixelRatio env)%num
    /\ (ofZ z - frac 1 2 <=? Fin q * devicePixelRatio env)%num = true
    /\ (Fin q * devicePixelRatio env <? ofZ z + frac 1 2)%num = true.
Proof.
  set (z := Qfloor (q * d + qc 1 2)%Qc).
  assert (Qc_of_Z z <= q * d + qc 1 2) as Hle.
  { unfold Qcle. cbn [this Qc_of_Z]. apply Qfloor_le. }
  assert (q * d + qc 1 2 < Qc_of_Z z + 1) as Hlt.
  { replace (Qc_of_Z z + 1) with (Qc_of_Z (z + 1)).
    - unfold Qclt. cbn [this Qc_of_Z]. apply Qlt_floor.
    - apply Qc_is_canon. unfold Qcplus, Q2Qc, Qc_of_Z. cbn [this].
      rewrite Qred_correct, inject_Z_plus. reflexivity. }
  assert (qc 1 2 + qc 1 2 = 1) as Hhalf by (apply Qc_is_canon; reflexivity).
  exists z. rewrite alignToDevicePixel_Fin, Hd. unfold ofZ, frac, sub.
  cbn [div mul add neg leb ltb].
  rewrite bool_decide_eq_false_2 by (apply Qc_pos_nonzero, Hpos).
  fold z. split; [reflexivity|].
  revert Hle Hlt Hhalf. generalize (Qc_of_Z z) (q * d) (qc 1 2). clear.
  intros a b c Hle Hlt Hhalf. split; apply bool_decide_eq_true_2.
  - apply (Qcplus_le_mono_r _ _ c). replace (a + - c + c) with a by ring.
    exact Hle.
  - apply (Qcplus_lt_mono_r _ _ c).
    replace (a + c + c) with (a + (c + c)) by ring.
    rewrite Hhalf. exact Hlt.
Qed.

Lemma alignToDevicePixel_monotone (p q : Qc) :
  p <= q ->
  (alignToDevicePixel env (Fin p) <=? alignToDevicePixel env (Fin q))%num = true.
Proof.
  intros Hle. rewrite !alignToDevicePixel_Fin. cbn [leb]. apply bool_decide_eq_true_2.
  unfold Qcdiv. apply Qcmult_le_compat_r; [|apply Qclt_le_weak, Qcinv_pos, Hpos].
  unfold Qcle. cbn [this Qc_of_Z]. rewrite <- Zle_Qle. apply Qfloor_resp_le.
  change (p * d + qc 1 2 <= q * d + qc 1 2).
  apply Qcplus_le_compat; [|apply Qcle_refl].
  apply Qcmult_le_compat_r; [exact Hle | apply Qclt_le_weak, Hpos].
Qed.

Lemma alignToDevicePixel_zero : alignToDevicePixel env (Fin 0) = ofZ 0.
Proof.
  rewrite alignToDevicePixel_Fin. unfold ofZ. f_equal.
  replace (0 * d) with (Qc_of_Z 0) by (rewrite Qc_of_Z_0; ring).
  rewrite Qfloor_half, Qc_of_Z_0. field. apply Qc_pos_nonzero, Hpos.
Qed.

End DevicePixels.


(** X12.  Later markers are drawn further right: the rounded horizontal
    position of a marker grows with its start time. *)
Theorem markerX_monotone (env : Env) (props : Props) (s t : Qc) :
  nonDegenerate props = true ->
  positiveb (devicePixelRatio env) = true ->
  (s <= t)%Qc ->
  (markerX env props (Fin s) <=? markerX env props (Fin t))%num = true.
Proof.
  intros [F]%nonDegenerate_finite (d & Hd & Hpos)%positiveb_Fin Hle.
  pose proof (markerRawX_le props F s t) as Hraw.
  unfold markerX. rewrite !(markerRawX_affine props F) in *.
  apply (alignToDevicePixel_monotone env d Hd Hpos).
  cbn [leb] in Hraw. apply (proj1 (bool_decide_eq_true _)). rewrite Hraw.
  apply bool_decide_eq_true_2, Hle.
Qed.

Lemma markerX_monotone_example :
  (markerX Example.env (Example.chart [] "full") (ofZ 3)
   <=? markerX Example.env (Example.chart [] "full") (ofZ 4))%num = true.
Proof.
  apply (markerX_monotone Example.env (Example.chart [] "full") (Qc_of_Z 3) (Qc_of_Z 4));
    [reflexivity | reflexivity | vm_compute; discriminate].
Defined.

(** X13.  An instant marker has the rounded width zero, so that the drop
    policy treats it as a dot. *)
Theorem instant_marker_width_zero (env : Env) (props : Props) (s : Qc) :
  nonDegenerate props = true ->
  positiveb (devicePixelRatio env) = true ->
  markerW env props (Fin s) (Fin s) = ofZ 0
  /\ (markerW env props (Fin s) (Fin s) >? ofZ 1)%num = false.
Proof.
  intros [F]%nonDegenerate_finite (d & Hd & Hpos)%positiveb_Fin.
  assert (markerW env props (Fin s) (Fin s) = ofZ 0) as Hzero.
  { unfold markerW. rewrite (markerRawW_instant props F).
    apply (alignToDevicePixel_zero env d Hd Hpos). }
  rewrite Hzero. split; reflexivity.
Qed.

Lemma instant_marker_width_zero_example :
  markerW Example.env (Example.chart [] "full") (ofZ 3) (ofZ 3) = ofZ 0.
Proof.
  apply (instant_marker_width_zero Example.env (Example.chart [] "full") (Qc_of_Z 3));
    reflexivity.
Defined.

(** X14.  Aligning to the device pixel grid is idempotent: a position
    that was aligned is left as it is.  The infinities and [NaN] are
    aligned to themselves. *)
Theorem alignToDevicePixel_idempotent (env : Env) (v : num) :
  positiveb (devicePixelRatio env) = true ->
  alignToDevicePixel env (alignToDevicePixel env v) = alignToDevicePixel env v
  /\ alignToDevicePixel env PInf = PInf
  /\ alignToDevicePixel env NInf = NInf
  /\ alignToDevicePixel env NaN = NaN.
Proof.
  intros (d & Hd & Hpos)%positiveb_Fin. split.
  - apply (alignToDevicePixel_idempotent_positive env d Hd Hpos).
  - apply (alignToDevicePixel_infinite env d Hd Hpos).
Qed.

Lemma alignToDevicePixel_idempotent_example :
  alignToDevicePixel Example.env (alignToDevicePixel Example.env (frac 7 3))
  = alignToDevicePixel Example.env (frac 7 3)
  /\ alignToDevicePixel Example.env PInf = PInf
  /\ alignToDevicePixel Example.env NInf = NInf
  /\ alignToDevicePixel Example.env NaN = NaN.
Proof. apply alignToDevicePixel_idempotent. reflexivity. Defined.

(** X15.  Aligning moves a position to the nearest device pixel: the
    result is an integer [z] divided by the device pixel ratio, where the
    position times the device pixel ratio, as the code computes it, lies
    from [z - 1/2], included, to [z + 1/2], excluded. *)
Theorem alignToDevicePixel_nearest (env : Env) (q : Qc) :
  positiveb (devicePixelRatio env) = true ->
  exists z : Z,
    alignToDevicePixel env (Fin q) = (ofZ z / devicePixelRatio env)%num
    /\ (ofZ z - frac 1 2 <=? Fin q * devicePixelRatio env)%num = true
    /\ (Fin q * devicePixelRatio env <? ofZ z + frac 1 2)%num = true.
Proof.
  intros (d & Hd & Hpos)%positiveb_Fin.
  apply (alignToDevicePixel_nearest_positive env d Hd Hpos).
Qed.

Lemma alignToDevicePixel_nearest_example :
  exists z : Z,
    alignToDevicePixel Example.env (frac 7 3)
    = (ofZ z / devicePixelRatio Example.env)%num
    /\ (ofZ z - frac 1 2 <=? frac 7 3 * devicePixelRatio Example.env)%num = true
    /\ (frac 7 3 * devicePixelRatio Example.env <? ofZ z + frac 1 2)%num = true.
Proof. apply (alignToDevicePixel_nearest Example.env (qc 7 3)). reflexivity. Defined.

(** ** The two passes of [drawMarkers] *)

Lemma filter_none {A} (f : A -> bool) (l : list A) :
  (forall a, a ∈ l -> f a = false) -> List.filter f l = [].
Proof.
  induction l as [|a l IH]; intros Hnone; [reflexivity|].
  cbn [List.filter]. rewrite (Hnone a) by left.
  apply IH. intros b Hb. apply Hnone. right. exact Hb.
Qed.

Section MarkerPasses.

Variable env : Env.
Variable props : Props.
Variable hoveredItem : jsIndex.

Local Abbreviation plainOp op := (isHighlightStyle op = false /\ isClipOp op = false).

Lemma drawOneMarker_plain_ops (x y w h : num) (isInstantMarker : bool)
    (text : option string) :
  Forall (fun op => plainOp op)
         (drawOneMarker env props x y w h isInstantMarker text false).
Proof.
  unfold drawOneMarker, drawOneInstantMarker, drawOneIntervalMarker, drawIntervalText.
  destruct isInstantMarker; [repeat constructor|].
  destruct (w <=? ofZ 2)%num; [repeat constructor|].
  apply Forall_app_2; [repeat constructor|].
  destruct (_ >? _)%num; [|constructor].
  destruct (bool_decide _); repeat constructor.
Qed.

Lemma drawOneMarker_no_clip (x y w h : num) (isInstantMarker : bool)
    (text : option string) (highlighted : bool) :
  Forall (fun op => isClipOp op = false)
         (drawOneMarker env props x y w h isInstantMarker text highlighted).
Proof.
  unfold drawOneMarker, drawOneInstantMarker, drawOneIntervalMarker, drawIntervalText.
  destruct isInstantMarker; [repeat constructor|].
  destruct (w <=? ofZ 2)%num; [repeat constructor|].
  apply Forall_app_2; [repeat constructor|].
  destruct (_ >? _)%num; [|constructor].
  destruct (bool_decide _); repeat constructor.
Qed.

Section Row.

Variable rowIndex : num.
Variable markerTiming : MarkerTiming.t.

Local Abbreviation step := (drawMarkerAt env props hoveredItem rowIndex markerTiming).
Local Abbreviation visible i := (inBoundsAt props markerTiming i).
Local Abbreviation highlighted i := (highlightedAt props markerTiming hoveredItem i).
Local Abbreviation drawing i := (drawPlainAt env props markerTiming rowIndex i).
Local Abbreviation information i :=
  (drawingInformationAt env props markerTiming rowIndex i).

(** The inner loop over any run of markers: what it draws is a
    sub-sequence of the plain markers in bounds, and what it keeps for
    the second pass is every highlighted marker in bounds. *)
Lemma foldl_drawMarkerAt (l : list nat) (st : DrawState) :
  exists kept,
    sublist kept (List.filter (fun i => visible i && negb (highlighted i)) l)
    /\ drawn (foldl step st l) = drawn st ++ flat_map (fun i => drawing i) kept
    /\ highlightedMarkers (foldl step st l)
       = highlightedMarkers st
         ++ List.map (fun i => information i)
                     (List.filter (fun i => visible i && highlighted i) l).
Proof.
  revert st. induction l as [|a l IH]; intros st.
  - exists []. cbn. rewrite !app_nil_r. auto using sublist_nil.
  - destruct (IH (step st a)) as (kept & Hsub & Hdrawn & Hkept).
    destruct (visible a) eqn:Hvisible;
      [destruct (highlighted a) eqn:Hhighlighted|];
      cbn [foldl List.filter]; rewrite ?Hvisible, ?Hhighlighted; cbn [andb negb].
    + rewrite (drawMarkerAt_highlighted env props hoveredItem rowIndex markerTiming
                 st a Hvisible Hhighlighted)
        in Hdrawn, Hkept |- *.
      cbn [drawn highlightedMarkers] in Hdrawn, Hkept.
      exists kept. split; [exact Hsub|]. split; [exact Hdrawn|].
      rewrite Hkept. cbn [List.map]. rewrite <- app_assoc. reflexivity.
    + rewrite (drawMarkerAt_plain env props hoveredItem rowIndex markerTiming
                 st a Hvisible Hhighlighted) in Hdrawn, Hkept |- *.
      destruct (_ || _).
      * cbn [drawn highlightedMarkers] in Hdrawn, Hkept.
        exists (a :: kept). split; [apply sublist_skip, Hsub|].
        split; [|exact Hkept].
        rewrite Hdrawn. cbn [flat_map]. rewrite <- app_assoc. reflexivity.
      * exists kept. split; [apply sublist_cons, Hsub|]. auto.
    + rewrite (drawMarkerAt_out_of_bounds env props hoveredItem rowIndex markerTiming
                 st a Hvisible) in Hdrawn, Hkept |- *.
      exists kept. auto.
Qed.

(** Markers that draw nothing in the first pass leave the last drawn
    position as it is. *)
Lemma foldl_drawMarkerAt_no_plain (l : list nat) (st : DrawState) :
  (forall j, j ∈ l -> visible j && negb (highlighted j) = false) ->
  previousMarkerDrawnAtX (foldl step st l) = previousMarkerDrawnAtX st
  /\ drawn (foldl step st l) = drawn st.
Proof.
  revert st. induction l as [|a l IH]; intros st Hnone; [auto|].
  cbn [foldl].
  assert (forall j, j ∈ l -> visible j && negb (highlighted j) = false) as Hrest
    by (intros j Hj; apply Hnone; right; exact Hj).
  destruct (IH (step st a) Hrest) as [Hprevious Hdrawn].
  rewrite Hprevious, Hdrawn.
  pose proof (Hnone a ltac:(left)) as Ha.
  destruct (visible a) eqn:Hvisible.
  - destruct (highlighted a) eqn:Hhighlighted; [|discriminate].
    rewrite (drawMarkerAt_highlighted env props hoveredItem rowIndex markerTiming
                 st a Hvisible Hhighlighted). auto.
  - rewrite (drawMarkerAt_out_of_bounds env props hoveredItem rowIndex markerTiming
                 st a Hvisible). auto.
Qed.

End Row.

(** X16.  The two passes over a timing row: the first pass draws a
    sub-sequence of the markers in bounds that are not highlighted, in
    their order, and every highlighted marker in bounds is kept for the
    second pass, in order, whatever its width and position. *)
Theorem drawMarkersRow_passes (st : DrawState) (rowIndex : num)
    (markerTiming : MarkerTiming.t) :
  readRow (markerTimingAndBuckets props) rowIndex = Some (Timing markerTiming) ->
  exists kept,
    sublist kept (plainInBounds props markerTiming hoveredItem)
    /\ drawn (drawMarkersRow env props hoveredItem st rowIndex)
       = drawn st ++ flat_map (drawPlainAt env props markerTiming rowIndex) kept
    /\ highlightedMarkers (drawMarkersRow env props hoveredItem st rowIndex)
       = highlightedMarkers st
         ++ List.map (drawingInformationAt env props markerTiming rowIndex)
                     (highlightedInBounds props markerTiming hoveredItem).
Proof.
  intros Hrow. unfold drawMarkersRow. rewrite Hrow.
  destruct (foldl_drawMarkerAt rowIndex markerTiming
              (seq 0 (MarkerTiming.length markerTiming))
              {| previousMarkerDrawnAtX := None; drawn := drawn st;
                 highlightedMarkers := highlightedMarkers st |})
    as (kept & Hsub & Hdrawn & Hkept).
  exists kept. split; [exact Hsub|]. split; [exact Hdrawn | exact Hkept].
Qed.

(** X17.  The first marker of a row that is in bounds and not
    highlighted is always drawn, whatever was drawn in the rows before:
    the last drawn position is forgotten at the start of a row. *)
Theorem drawMarkersRow_first_drawn (st : DrawState) (rowIndex : num)
    (markerTiming : MarkerTiming.t) (i : nat) :
  readRow (markerTimingAndBuckets props) rowIndex = Some (Timing markerTiming) ->
  (i < MarkerTiming.length markerTiming)%nat ->
  inBoundsAt props markerTiming i = true ->
  highlightedAt props markerTiming hoveredItem i = false ->
  (forall j, (j < i)%nat ->
     inBoundsAt props markerTiming j
     && negb (highlightedAt props markerTiming hoveredItem j) = false) ->
  exists rest,
    drawn (drawMarkersRow env props hoveredItem st rowIndex)
    = drawn st ++ drawPlainAt env props markerTiming rowIndex i ++ rest.
Proof.
  intros Hrow Hi Hvisible Hplain Hbefore. unfold drawMarkersRow. rewrite Hrow.
  replace (MarkerTiming.length markerTiming)
    with (i + S (MarkerTiming.length markerTiming - S i))%nat by lia.
  rewrite seq_app, foldl_app. cbn [seq foldl Nat.add].
  set (st0 := {| previousMarkerDrawnAtX := None; drawn := drawn st;
                 highlightedMarkers := highlightedMarkers st |}).
  destruct (foldl_drawMarkerAt_no_plain rowIndex markerTiming (seq 0 i) st0)
    as [Hprevious Hdrawn].
  { intros j [_ Hj]%elem_of_seq. apply Hbefore. lia. }
  set (st1 := foldl _ st0 (seq 0 i)) in *.
  destruct (foldl_drawMarkerAt rowIndex markerTiming
              (seq (S i) (MarkerTiming.length markerTiming - S i))
              (drawMarkerAt env props hoveredItem rowIndex markerTiming st1 i))
    as (kept & _ & Hrest & _).
  rewrite Hrest.
  rewrite (drawMarkerAt_plain env props hoveredItem rowIndex markerTiming
             st1 i Hvisible Hplain).
  rewrite Hprevious. cbn [st0 previousMarkerDrawnAtX differsFromPrevious].
  rewrite orb_true_r. cbn [drawn]. rewrite Hdrawn. cbn [st0 drawn].
  rewrite <- app_assoc. eauto.
Qed.

(** The outer loop over any run of rows. *)
Lemma foldl_drawMarkersRow (rowIndexes : list num) (st : DrawState) :
  exists plain,
    drawn (foldl (drawMarkersRow env props hoveredItem) st rowIndexes)
    = drawn st ++ plain
    /\ Forall (fun op => plainOp op) plain
    /\ highlightedMarkers (foldl (drawMarkersRow env props hoveredItem) st rowIndexes)
       = highlightedMarkers st
         ++ flat_map (highlightedOfRow env props hoveredItem) rowIndexes.
Proof.
  revert st. induction rowIndexes as [|rowIndex rowIndexes IH]; intros st.
  - exists []. cbn. rewrite !app_nil_r. auto.
  - cbn [foldl flat_map].
    destruct (IH (drawMarkersRow env props hoveredItem st rowIndex))
      as (plain & Hdrawn & Hplain & Hkept).
    unfold highlightedOfRow at 1.
    destruct (readRow (markerTimingAndBuckets props) rowIndex)
      as [[bucketName|markerTiming]|] eqn:Hrow.
    + assert (drawMarkersRow env props hoveredItem st rowIndex = st) as Hskip
        by (unfold drawMarkersRow; rewrite Hrow; reflexivity).
      rewrite Hskip in *. exists plain. auto.
    + destruct (foldl_drawMarkerAt rowIndex markerTiming
                  (seq 0 (MarkerTiming.length markerTiming))
                  {| previousMarkerDrawnAtX := None; drawn := drawn st;
                     highlightedMarkers := highlightedMarkers st |})
        as (kept & _ & Hrowdrawn & Hrowkept).
      cbn [drawn highlightedMarkers] in Hrowdrawn, Hrowkept.
      assert (drawMarkersRow env props hoveredItem st rowIndex
              = foldl (drawMarkerAt env props hoveredItem rowIndex markerTiming)
                  {| previousMarkerDrawnAtX := None; drawn := drawn st;
                     highlightedMarkers := highlightedMarkers st |}
                  (seq 0 (MarkerTiming.length markerTiming))) as Hstep
        by (unfold drawMarkersRow; rewrite Hrow; reflexivity).
      rewrite Hstep in *.
      rewrite Hrowdrawn in Hdrawn. rewrite Hrowkept in Hkept.
      fold (highlightedInBounds props markerTiming hoveredItem).
      exists (flat_map (drawPlainAt env props markerTiming rowIndex) kept ++ plain).
      split; [rewrite Hdrawn, <- app_assoc; reflexivity|].
      split; [|rewrite Hkept, <- app_assoc; reflexivity].
      apply Forall_app_2; [|exact Hplain].
      apply Forall_flat_map, Forall_forall. intros i _.
      apply drawOneMarker_plain_ops.
    + assert (drawMarkersRow env props hoveredItem st rowIndex = st) as Hskip
        by (unfold drawMarkersRow; rewrite Hrow; reflexivity).
      rewrite Hskip in *. exists plain. auto.
Qed.

(** X18.  Highlighted markers are drawn last: after the clip is set,
    [drawMarkers] issues operations that set no colour of a highlighted
    marker, then draws highlighted every highlighted marker in bounds of
    the rows it visits, row after row, and restores the context. *)
Theorem drawMarkers_highlighted_last (startRow endRow : num)
    (rowIndexes : list num) :
  rowLoop startRow endRow = Return rowIndexes ->
  exists plain,
    drawMarkers env props hoveredItem startRow endRow
    = Return (clipToMarkers props
              ++ plain
              ++ flat_map (drawHighlightedMarker env props)
                   (flat_map (highlightedOfRow env props hoveredItem) rowIndexes)
              ++ [Restore])
    /\ Forall (fun op => isHighlightStyle op = false) plain.
Proof.
  intros Hloop. unfold drawMarkers. rewrite Hloop. cbn [mbind outcome_bind].
  destruct (foldl_drawMarkersRow rowIndexes
              {| previousMarkerDrawnAtX := None; drawn := [];
                 highlightedMarkers := [] |}) as (plain & Hdrawn & Hplain & Hkept).
  exists plain. rewrite Hdrawn, Hkept. split; [reflexivity|].
  eapply Forall_impl; [exact Hplain|]. intros op [Hstyle _]. exact Hstyle.
Qed.

(** X19.  Everything that [drawMarkers] draws is drawn inside the clip
    region: the clip is set first, the context is restored last, and no
    operation in between saves, restores or clips. *)
Theorem drawMarkers_clip_discipline (startRow endRow : num) (ops : list CtxOp) :
  drawMarkers env props hoveredItem startRow endRow = Return ops ->
  exists body,
    ops = clipToMarkers props ++ body ++ [Restore]
    /\ Forall (fun op => isClipOp op = false) body.
Proof.
  unfold drawMarkers.
  destruct (rowLoop startRow endRow) as [rowIndexes| |]; try discriminate.
  cbn [mbind outcome_bind].
  destruct (foldl_drawMarkersRow rowIndexes
              {| previousMarkerDrawnAtX := None; drawn := [];
                 highlightedMarkers := [] |}) as (plain & Hdrawn & Hplain & Hkept).
  rewrite Hdrawn. intros [= <-].
  eexists. split; [unfold clipToMarkers; cbn [app]; rewrite app_assoc; reflexivity|].
  apply Forall_app_2.
  - eapply Forall_impl; [exact Hplain|]. intros op [_ Hclip]. exact Hclip.
  - apply Forall_flat_map, Forall_forall. intros highlightedMarker _.
    apply drawOneMarker_no_clip.
Qed.

(** X20.  When no marker of the rows visited is in bounds, [drawMarkers]
    sets the clip and restores the context, and draws nothing. *)
Theorem drawMarkers_nothing_in_bounds (startRow endRow : num)
    (rowIndexes : list num) :
  rowLoop startRow endRow = Return rowIndexes ->
  (forall rowIndex markerTiming i,
     rowIndex ∈ rowIndexes ->
     readRow (markerTimingAndBuckets props) rowIndex = Some (Timing markerTiming) ->
     (i < MarkerTiming.length markerTiming)%nat ->
     inBoundsAt props markerTiming i = false) ->
  drawMarkers env props hoveredItem startRow endRow
  = Return (clipToMarkers props ++ [Restore]).
Proof.
  intros Hloop Hnone. unfold drawMarkers. rewrite Hloop. cbn [mbind outcome_bind].
  assert (forall st,
            drawn (foldl (drawMarkersRow env props hoveredItem) st rowIndexes) = drawn st
            /\ highlightedMarkers (foldl (drawMarkersRow env props hoveredItem) st rowIndexes)
               = highlightedMarkers st) as Hsame.
  { clear Hloop. induction rowIndexes as [|rowIndex rowIndexes IH]; intros st; [auto|].
    cbn [foldl].
    destruct (IH ltac:(intros r mt i Hr; apply Hnone; right; exact Hr)
                 (drawMarkersRow env props hoveredItem st rowIndex)) as [-> ->].
    unfold drawMarkersRow.
    destruct (readRow (markerTimingAndBuckets props) rowIndex)
      as [[bucketName|markerTiming]|] eqn:Hrow; auto.
    destruct (foldl_drawMarkerAt rowIndex markerTiming
                (seq 0 (MarkerTiming.length markerTiming))
                {| previousMarkerDrawnAtX := None; drawn := drawn st;
                   highlightedMarkers := highlightedMarkers st |})
      as (kept & Hsub & -> & ->).
    assert (forall i, i ∈ seq 0 (MarkerTiming.length markerTiming) ->
                      inBoundsAt props markerTiming i = false) as Hout.
    { intros i [_ Hi]%elem_of_seq. apply (Hnone rowIndex); [left|exact Hrow|lia]. }
    rewrite filter_none in Hsub
      by (intros i Hi; rewrite (Hout i Hi); reflexivity).
    apply sublist_nil_r in Hsub as ->.
    rewrite filter_none by (intros i Hi; rewrite (Hout i Hi); reflexivity).
    cbn. rewrite !app_nil_r. auto. }
  destruct (Hsame {| previousMarkerDrawnAtX := None; drawn := [];
                     highlightedMarkers := [] |}) as [-> ->].
  reflexivity.
Qed.

End MarkerPasses.

Lemma drawMarkersRow_passes_dots :
  exists kept,
    sublist kept (plainInBounds (Example.chart [Timing Example.dots] "full")
                    Example.dots (Idx 2))
    /\ drawn (drawMarkersRow Example.env (Example.chart [Timing Example.dots] "full")
                (Idx 2) startOfRow (ofNat 0))
       = drawn startOfRow
         ++ flat_map (drawPlainAt Example.env (Example.chart [Timing Example.dots] "full")
                        Example.dots (ofNat 0)) kept
    /\ highlightedMarkers
         (drawMarkersRow Example.env (Example.chart [Timing Example.dots] "full")
            (Idx 2) startOfRow (ofNat 0))
       = highlightedMarkers startOfRow
         ++ List.map (drawingInformationAt Example.env
                        (Example.chart [Timing Example.dots] "full") Example.dots (ofNat 0))
                     (highlightedInBounds (Example.chart [Timing Example.dots] "full")
                        Example.dots (Idx 2)).
Proof.
  apply (drawMarkersRow_passes Example.env (Example.chart [Timing Example.dots] "full")
           (Idx 2) startOfRow (ofNat 0) Example.dots).
  vm_compute. reflexivity.
Defined.

Lemma drawMarkersRow_first_drawn_dots :
  exists rest,
    drawn (drawMarkersRow Example.env (Example.chart [Timing Example.dots] "full")
             (Idx 1)
             {| previousMarkerDrawnAtX := Some (ofZ 10); drawn := [];
                highlightedMarkers := [] |}
             (ofNat 0))
    = [] ++ drawPlainAt Example.env (Example.chart [Timing Example.dots] "full")
              Example.dots (ofNat 0) 1
         ++ rest.
Proof.
  apply (drawMarkersRow_first_drawn Example.env
           (Example.chart [Timing Example.dots] "full") (Idx 1)
           {| previousMarkerDrawnAtX := Some (ofZ 10); drawn := [];
              highlightedMarkers := [] |}
           (ofNat 0) Example.dots 1).
  - vm_compute. reflexivity.
  - cbn. lia.
  - vm_compute. reflexivity.
  - vm_compute. reflexivity.
  - intros [|j] Hj; [vm_compute; reflexivity | lia].
Defined.

Lemma drawMarkers_highlighted_last_dots :
  exists plain,
    drawMarkers Example.env (Example.chart [Timing Example.dots] "full") (Idx 2)
      (ofNat 0) (ofNat 0 + ofZ 1)%num
    = Return (clipToMarkers (Example.chart [Timing Example.dots] "full")
              ++ plain
              ++ flat_map (drawHighlightedMarker Example.env
                             (Example.chart [Timing Example.dots] "full"))
                   (flat_map (highlightedOfRow Example.env
                                (Example.chart [Timing Example.dots] "full") (Idx 2))
                             [ofNat 0])
              ++ [Restore])
    /\ Forall (fun op => isHighlightStyle op = false) plain.
Proof.
  apply (drawMarkers_highlighted_last Example.env
           (Example.chart [Timing Example.dots] "full") (Idx 2)
           (ofNat 0) (ofNat 0 + ofZ 1)%num [ofNat 0]).
  apply rowLoop_one_row.
Defined.

Lemma drawMarkers_clip_discipline_dots :
  exists body,
    [Save; BeginPath; Rect (ofZ 0) (ofZ 0) (ofZ 100) (ofZ 64); Clip]
    ++ Example.diamondAt (ofZ 10) (frac 9 4) (frac 71 4)
    ++ Example.diamondAt (ofZ 50) (frac 169 4) (frac 231 4)
    ++ [Restore]
    = clipToMarkers (Example.chart [Timing Example.dots] "full") ++ body ++ [Restore]
    /\ Forall (fun op => isClipOp op = false) body.
Proof.
  apply (drawMarkers_clip_discipline Example.env
           (Example.chart [Timing Example.dots] "full") Null (ofZ 0) (ofZ 1)).
  by_evaluation.
Defined.

Lemma drawMarkers_nothing_in_bounds_late :
  drawMarkers Example.env
    (Example.chart [Timing (MarkerTiming.mk [ofZ 200] [ofZ 210] [9] ["late"] "Paint" 1)]
       "full")
    Null (ofNat 0) (ofNat 0 + ofZ 1)%num
  = Return (clipToMarkers
              (Example.chart
                 [Timing (MarkerTiming.mk [ofZ 200] [ofZ 210] [9] ["late"] "Paint" 1)]
                 "full")
            ++ [Restore]).
Proof.
  apply (drawMarkers_nothing_in_bounds Example.env _ Null _ _ [ofNat 0]).
  - apply rowLoop_one_row.
  - intros rowIndex markerTiming i ->%list_elem_of_singleton Hrow Hi.
    vm_compute in Hrow. injection Hrow as <-. cbn in Hi.
    destruct i as [|i]; [vm_compute; reflexivity | lia].
Defined.

(** ** Separators and labels of rows that exist *)

Section Labels.

Variable env : Env.
Variable props : Props.

Lemma drawRowLabel_returns (rowIndex : num) :
  is_Some (readRow (markerTimingAndBuckets props) rowIndex) ->
  exists ops, drawRowLabel env props rowIndex = Return ops.
Proof.
  intros [row Hrow]. unfold drawRowLabel. rewrite Hrow.
  destruct row as [bucketName|markerTiming]; [eauto|].
  destruct (rowIndex >? ofZ 0)%num eqn:Hpos.
  - destruct (readRow (markerTimingAndBuckets props) (rowIndex - ofZ 1)%num)
      as [previous|] eqn:Hprevious.
    + cbn [mbind outcome_bind]. destruct (bool_decide _); eauto.
    + rewrite (readRow_previous_missing _ _ _ Hrow Hprevious) in Hpos.
      unfold gtb in Hpos. rewrite ltb_irrefl in Hpos. discriminate.
  - cbn [mbind outcome_bind]. eauto.
Qed.

Lemma drawRowLabel_missing (rowIndex : num) :
  readRow (markerTimingAndBuckets props) rowIndex = None ->
  drawRowLabel env props rowIndex = Throw TypeError.
Proof. intros Hrow. unfold drawRowLabel. rewrite Hrow. reflexivity. Qed.

Lemma drawRowLabel_cases (rowIndex : num) :
  (exists ops, drawRowLabel env props rowIndex = Return ops)
  \/ drawRowLabel env props rowIndex = Throw TypeError.
Proof.
  destruct (readRow (markerTimingAndBuckets props) rowIndex) as [row|] eqn:Hrow.
  - left. apply drawRowLabel_returns. eauto.
  - right. apply drawRowLabel_missing, Hrow.
Qed.

Lemma forEachRow_returns (rowIndexes : list num) :
  Forall (fun rowIndex => is_Some (readRow (markerTimingAndBuckets props) rowIndex))
         rowIndexes ->
  exists ops, forEachRow (drawRowLabel env props) rowIndexes = Return ops.
Proof.
  induction 1 as [|rowIndex rest Hrow _ IH]; cbn [forEachRow]; [eauto|].
  destruct (drawRowLabel_returns rowIndex Hrow) as [ops ->].
  destruct IH as [more ->]. cbn. eauto.
Qed.

Lemma forEachRow_missing (rowIndexes : list num) :
  Exists (fun rowIndex => readRow (markerTimingAndBuckets props) rowIndex = None)
         rowIndexes ->
  forEachRow (drawRowLabel env props) rowIndexes = Throw TypeError.
Proof.
  induction 1 as [rowIndex rest Hrow | rowIndex rest _ IH]; cbn [forEachRow].
  - rewrite (drawRowLabel_missing rowIndex Hrow). reflexivity.
  - destruct (drawRowLabel_cases rowIndex) as [[ops ->] | ->]; [|reflexivity].
    cbn [mbind outcome_bind]. rewrite IH. reflexivity.
Qed.

Lemma forEachRow_throws (rowIndexes : list num) (e : error) :
  forEachRow (drawRowLabel env props) rowIndexes = Throw e -> e = TypeError.
Proof.
  induction rowIndexes as [|rowIndex rest IH]; cbn [forEachRow]; [discriminate|].
  destruct (drawRowLabel_cases rowIndex) as [[ops ->] | ->];
    cbn [mbind outcome_bind]; [|congruence].
  destruct (forEachRow (drawRowLabel env props) rest) as [more|e'|];
    cbn [mbind outcome_bind]; try discriminate.
  intros [= <-]. apply IH. reflexivity.
Qed.

Lemma drawSeparatorsAndLabels_throws (startRow endRow : num) (e : error) :
  drawSeparatorsAndLabels env props startRow endRow = Throw e -> e = TypeError.
Proof.
  unfold drawSeparatorsAndLabels.
  destruct (rowLoop startRow endRow) as [rowIndexes| |] eqn:Hloop;
    cbn [mbind outcome_bind]; try discriminate.
  - destruct (forEachRow (drawRowLabel env props) rowIndexes) as [labels|e'|] eqn:Hlabels;
      cbn [mbind outcome_bind]; try discriminate.
    intros [= <-]. apply (forEachRow_throws rowIndexes). exact Hlabels.
  - destruct startRow, endRow; discriminate.
Qed.

Lemma drawSeparatorsAndLabels_returns (startRow endRow : num)
    (rowIndexes : list num) :
  rowLoop startRow endRow = Return rowIndexes ->
  Forall (fun rowIndex => is_Some (readRow (markerTimingAndBuckets props) rowIndex))
         rowIndexes ->
  exists ops, drawSeparatorsAndLabels env props startRow endRow = Return ops.
Proof.
  intros Hloop [labels Hlabels]%forEachRow_returns.
  unfold drawSeparatorsAndLabels. rewrite Hloop. cbn [mbind outcome_bind].
  rewrite Hlabels. cbn [mbind outcome_bind]. eauto.
Qed.

(** X21.  [drawSeparatorsAndLabels] returns when every row index it
    visits names a row of the chart, and throws a [TypeError] when one of
    them names none: unlike [drawMarkers], it does not skip a missing
    row. *)
Theorem drawSeparatorsAndLabels_rows (startRow endRow : num)
    (rowIndexes : list num) :
  rowLoop startRow endRow = Return rowIndexes ->
  (Forall (fun rowIndex => is_Some (readRow (markerTimingAndBuckets props) rowIndex))
          rowIndexes ->
   exists ops, drawSeparatorsAndLabels env props startRow endRow = Return ops)
  /\ (Exists (fun rowIndex => readRow (markerTimingAndBuckets props) rowIndex = None)
             rowIndexes ->
      drawSeparatorsAndLabels env props startRow endRow = Throw TypeError).
Proof.
  intros Hloop. unfold drawSeparatorsAndLabels. rewrite Hloop.
  cbn [mbind outcome_bind]. split.
  - intros [labels ->]%forEachRow_returns. cbn [mbind outcome_bind]. eauto.
  - intros ->%forEachRow_missing. reflexivity.
Qed.

End Labels.

Lemma drawSeparatorsAndLabels_rows_example :
  (exists ops,
     drawSeparatorsAndLabels Example.env (Example.chart Example.twoRows "full")
       (ofNat 1) (ofNat 1 + ofZ 1)%num = Return ops)
  /\ drawSeparatorsAndLabels Example.env (Example.chart Example.twoRows "full")
       (ofNat 2) (ofNat 2 + ofZ 1)%num = Throw TypeError.
Proof.
  split.
  - apply (proj1 (drawSeparatorsAndLabels_rows Example.env
                    (Example.chart Example.twoRows "full")
                    (ofNat 1) (ofNat 1 + ofZ 1)%num [ofNat 1] (rowLoop_one_row 1))).
    repeat constructor. exists (Timing (MarkerTiming.mk [ofZ 20] [ofZ 30] [7] ["b"] "Paint" 1)).
    vm_compute. reflexivity.
  - apply (proj2 (drawSeparatorsAndLabels_rows Example.env
                    (Example.chart Example.twoRows "full")
                    (ofNat 2) (ofNat 2 + ofZ 1)%num [ofNat 2] (rowLoop_one_row 2))).
    apply Exists_cons_hd. vm_compute. reflexivity.
Defined.

(** ** The redraw returns *)

Lemma Qc_of_Z_plus (a b : Z) : (Qc_of_Z a + Qc_of_Z b)%Qc = Qc_of_Z (a + b).
Proof.
  apply Qc_is_canon. unfold Qcplus, Qc_of_Z, Q2Qc. cbn [this].
  rewrite Qred_correct, inject_Z_plus. reflexivity.
Qed.

(** [endRow] of a full repaint is never beyond the rows of the chart. *)
Lemma min_ofNat (a : num) (n : nat) :
  min a (ofNat n) = NaN
  \/ min a (ofNat n) = NInf
  \/ exists e, min a (ofNat n) = Fin e /\ (e <= Qc_of_Z (Z.of_nat n))%Qc.
Proof.
  destruct a as [q| | |]; cbn [min ofNat ofZ ltb]; auto.
  - right. right.
    destruct (bool_decide (Qc_of_Z (Z.of_nat n) < q)%Qc) eqn:Hlt;
      eexists; (split; [reflexivity|]).
    + apply Qcle_refl.
    + apply bool_decide_eq_false in Hlt. apply Qcnot_lt_le, Hlt.
  - right. right. eexists. split; [reflexivity | apply Qcle_refl].
Qed.

(** The rows from a non-negative integer to such an [endRow] exist. *)
Lemma rowLoop_rows (rows : MarkerTimingAndBuckets) (z : Z) (endRow : num) :
  (0 <= z)%Z ->
  (endRow = NaN \/ endRow = NInf
   \/ exists e, endRow = Fin e /\ (e <= Qc_of_Z (Z.of_nat (List.length rows)))%Qc) ->
  exists rowIndexes,
    rowLoop (ofZ z) endRow = Return rowIndexes
    /\ Forall (fun rowIndex => is_Some (readRow rows rowIndex)) rowIndexes.
Proof.
  intros Hz [-> | [-> | (e & -> & He)]];
    [exists []; split; [reflexivity | constructor] ..|].
  cbn [rowLoop ofZ]. eexists. split; [reflexivity|].
  apply Forall_forall. intros rowIndex Hin.
  apply list_elem_of_In, in_map_iff in Hin as (k & <- & Hk). apply in_seq in Hk.
  rewrite Qc_of_Z_plus.
  replace (z + Z.of_nat k)%Z with (Z.of_nat (Z.to_nat z + k)) by lia.
  change (Fin (Qc_of_Z (Z.of_nat (Z.to_nat z + k)))) with (ofNat (Z.to_nat z + k)).
  rewrite readRow_ofNat. apply lookup_lt_is_Some_2.
  pose proof (Qceiling_lt (e - Qc_of_Z z)%Qc) as Hceiling.
  set (c := Qceiling (e - Qc_of_Z z)%Qc) in *.
  assert (inject_Z (Z.of_nat k) <= inject_Z (c - 1))%Q as Hk'
    by (rewrite <- Zle_Qle; lia).
  assert (inject_Z (z + Z.of_nat k) < inject_Z (Z.of_nat (List.length rows)))%Q as Hlt.
  { rewrite inject_Z_plus.
    unfold Qcle, Qcminus, Qcplus, Qcopp, Qc_of_Z, Q2Qc in *. cbn [this] in *.
    rewrite ?Qred_correct in *. lra. }
  rewrite <- Zlt_Qlt in Hlt. lia.
Qed.

Lemma runCalls_returns (env : Env) (props : Props) (calls : list DrawCall) :
  Forall (fun call => exists ops, runCall env props call = Return ops) calls ->
  exists ops, runCalls env props calls = Return ops.
Proof.
  induction 1 as [|call rest [ops Hcall] _ [more IH]]; cbn [runCalls]; [eauto|].
  rewrite Hcall, IH. cbn. eauto.
Qed.

Lemma runCall_throws (env : Env) (props : Props) (call : DrawCall) (e : error) :
  runCall env props call = Throw e -> e = TypeError.
Proof.
  destruct call as [| | | |hovered startRow endRow|]; cbn [runCall]; try discriminate.
  - intros Hthrow. exfalso.
    apply (drawMarkers_never_fails env props hovered startRow endRow).
    exists e. exact Hthrow.
  - apply drawSeparatorsAndLabels_throws.
Qed.

Lemma runCalls_throws (env : Env) (props : Props) (calls : list DrawCall) (e : error) :
  runCalls env props calls = Throw e -> e = TypeError.
Proof.
  induction calls as [|call rest IH]; cbn [runCalls]; [discriminate|].
  destruct (runCall env props call) as [ops|e'|] eqn:Hcall;
    cbn [mbind outcome_bind]; try discriminate.
  - destruct (runCalls env props rest) as [more|e'|]; cbn [mbind outcome_bind];
      try discriminate.
    intros [= <-]. apply IH. reflexivity.
  - intros [= <-]. apply (runCall_throws env props call). exact Hcall.
Qed.

Lemma drawMarkers_returns (env : Env) (props : Props) (hoveredItem : jsIndex)
    (startRow endRow : num) (rowIndexes : list num) :
  rowLoop startRow endRow = Return rowIndexes ->
  exists ops, drawMarkers env props hoveredItem startRow endRow = Return ops.
Proof. intros Hloop. unfold drawMarkers. rewrite Hloop. cbn. eauto. Qed.

(** The calls on one row that exists return. *)
Lemma runCall_one_row (env : Env) (props : Props) (hoveredItem : jsIndex) (row : nat) :
  (exists ops,
     runCall env props (CallDrawMarkers hoveredItem (ofNat row) (ofNat row + ofZ 1)%num)
     = Return ops)
  /\ ((row < List.length (markerTimingAndBuckets props))%nat ->
      exists ops,
        runCall env props
          (CallDrawSeparatorsAndLabels (ofNat row) (ofNat row + ofZ 1)%num)
        = Return ops).
Proof.
  split.
  - apply (drawMarkers_returns env props hoveredItem _ _ [ofNat row]), rowLoop_one_row.
  - intros Hrow. cbn [runCall].
    apply (drawSeparatorsAndLabels_returns env props _ _ [ofNat row]
             (rowLoop_one_row row)).
    repeat constructor. rewrite readRow_ofNat. apply lookup_lt_is_Some_2, Hrow.
Qed.

(** A row that the row index gives is a row of the chart. *)
Lemma computeMarkerIndexToTimingRow_row (rows : MarkerTimingAndBuckets)
    (key : jsIndex) (row : nat) :
  computeMarkerIndexToTimingRow rows !! key = Some row ->
  (row < List.length rows)%nat.
Proof.
  unfold computeMarkerIndexToTimingRow. intros Hrow.
  apply lookup_indexRowsFrom_inv in Hrow as [Hempty | (j & markerTiming & -> & Hj & _)].
  - rewrite lookup_empty in Hempty. discriminate.
  - apply lookup_lt_Some in Hj. lia.
Qed.

Lemma rowOfHovered_row (props : Props) (hoveredMarker : jsIndex)
    (hoveredLabel : option nat) (row : nat) :
  rowOfHovered props (computeMarkerIndexToTimingRow (markerTimingAndBuckets props))
    hoveredMarker hoveredLabel = Some row ->
  (row < List.length (markerTimingAndBuckets props))%nat \/ hoveredLabel = Some row.
Proof.
  unfold rowOfHovered.
  destruct (isActiveTab props && _ && _); [auto|].
  destruct (bool_decide (hoveredMarker = Null)); [discriminate|].
  intros Hrow. left. eapply computeMarkerIndexToTimingRow_row, Hrow.
Qed.

(** X22.  A full repaint returns: with the scale at 1, a positive finite
    row height and a finite [viewportTop] that is not negative, the rows
    from [startRow] to [endRow] are rows of the chart, whatever
    [viewportBottom] is, and [drawCanvas] neither throws nor loops. *)
Theorem drawCanvas_full_repaint_returns (env : Env) (props : Props)
    (scale : ChartCanvasScale) (hoverInfo : ChartCanvasHoverInfo) (rh vt : Qc) :
  (cssToUserScale scale =? ofZ 1)%num = true ->
  isHoveredOnlyDifferent hoverInfo = false ->
  rowHeight props = Fin rh -> (0 < rh)%Qc ->
  viewportTop (viewport props) = Fin vt -> (0 <= vt)%Qc ->
  exists ops, drawCanvas env props scale hoverInfo = Return ops.
Proof.
  intros Hscale Hfull Hrh Hrhpos Hvt Hvtpos.
  unfold drawCanvas, drawCanvasCalls. rewrite Hscale, Hfull.
  cbn [negb mbind outcome_bind]. cbv zeta.
  assert (floor (viewportTop (viewport props) / rowHeight props)
          = ofZ (Qfloor (vt / rh)%Qc)) as ->.
  { rewrite Hrh, Hvt. cbn [div].
    rewrite bool_decide_eq_false_2 by (apply Qc_pos_nonzero, Hrhpos). reflexivity. }
  assert (0 <= Qfloor (vt / rh)%Qc)%Z as Hz.
  { rewrite <- (Qfloor_Z 0). apply Qfloor_resp_le.
    change (0 <= vt / rh)%Qc. unfold Qcdiv.
    apply Qcmult_nonneg_nonneg; [exact Hvtpos|].
    apply Qclt_le_weak, Qcinv_pos, Hrhpos. }
  destruct (rowLoop_rows (markerTimingAndBuckets props) _ _ Hz
              (min_ofNat (ceil (viewportBottom (viewport props) / rowHeight props))
                         (List.length (markerTimingAndBuckets props))))
    as (rowIndexes & Hloop & Hrows).
  apply runCalls_returns.
  apply Forall_cons_2; [eexists; reflexivity|].
  apply Forall_app_2; [repeat constructor; eexists; reflexivity|].
  apply Forall_app_2.
  - destruct (if bool_decide _ then None else _);
      [|destruct (rowOfHovered _ _ _ _)]; repeat constructor; eexists; reflexivity.
  - apply Forall_cons_2; [apply (drawMarkers_returns _ _ _ _ _ _ Hloop)|].
    apply Forall_cons_2; [|constructor]. cbn [runCall].
    apply (drawSeparatorsAndLabels_returns env props _ _ rowIndexes Hloop), Hrows.
Qed.

Lemma drawCanvas_full_repaint_returns_example :
  exists ops,
    drawCanvas Example.env (Example.chart Example.twoRows "full") Example.scale
      {| hoveredItem := None; prevHoveredItem := None; isHoveredOnlyDifferent := false |}
    = Return ops.
Proof.
  apply (drawCanvas_full_repaint_returns Example.env
           (Example.chart Example.twoRows "full") Example.scale
           {| hoveredItem := None; prevHoveredItem := None;
              isHoveredOnlyDifferent := false |}
           (Qc_of_Z 32) (Qc_of_Z 0));
    first [reflexivity | vm_compute; reflexivity | vm_compute; discriminate].
Defined.

(** X23.  A repaint for a hover change returns: the rows it repaints come
    from the row index, so they are rows of the chart; only the label row
    of the previous hover state is taken as it is, and has to be one. *)
Theorem drawCanvas_hover_repaint_returns (env : Env) (props : Props)
    (scale : ChartCanvasScale) (hoverInfo : ChartCanvasHoverInfo) :
  (cssToUserScale scale =? ofZ 1)%num = true ->
  isHoveredOnlyDifferent hoverInfo = true ->
  (forall row,
     prevHoveredItem hoverInfo ≫= rowIndexOfLabel = Some row ->
     (row < List.length (markerTimingAndBuckets props))%nat) ->
  exists ops, drawCanvas env props scale hoverInfo = Return ops.
Proof.
  intros Hscale Hhover Hprevious.
  unfold drawCanvas, drawCanvasCalls. rewrite Hscale, Hhover.
  cbn [negb mbind outcome_bind]. cbv zeta.
  apply runCalls_returns.
  destruct (rowOfHovered props _
              (from_option markerIndex Null (prevHoveredItem hoverInfo))
              (prevHoveredItem hoverInfo ≫= rowIndexOfLabel)) as [oldRow|] eqn:Hold;
    destruct (rowOfHovered props _
                (from_option markerIndex Null (hoveredItem hoverInfo))
                (hoveredItem hoverInfo ≫= rowIndexOfLabel)) as [newRow|] eqn:Hnew.
  all: repeat
         match goal with
         | |- Forall _ [] => constructor
         | |- Forall _ (_ :: _) => apply Forall_cons_2
         | |- Forall _ (_ ++ _) => apply Forall_app_2
         | |- Forall _ (if bool_decide ?P then _ else _) =>
             let H := fresh "Htest" in destruct (bool_decide P) eqn:H
         | |- exists ops, runCall _ _ SetLineWidthOne = _ => eexists; reflexivity
         | |- exists ops, runCall _ _ (CallClearRow _) = _ => eexists; reflexivity
         | |- exists ops, runCall _ _ (CallHighlightRow _) = _ => eexists; reflexivity
         | |- exists ops, runCall _ _ (CallDrawMarkers _ _ _) = _ =>
             apply runCall_one_row
         | |- exists ops, runCall _ _ (CallDrawSeparatorsAndLabels _ _) = _ =>
             apply (runCall_one_row env props Null)
         end.
  all: try (apply rowOfHovered_row in Hold as [Hrow | Hrow]; [exact Hrow | auto]).
  all: apply rowOfHovered_row in Hnew as [Hrow | Hrow]; [exact Hrow|];
    match goal with
    | H : bool_decide (_ = None) = true |- _ =>
        apply bool_decide_eq_true in H; rewrite H in Hrow; discriminate
    end.
Qed.

Lemma drawCanvas_hover_repaint_returns_example :
  exists ops,
    drawCanvas Example.env (Example.chart Example.twoRows "full") Example.scale
      Example.fromFiveToSeven
    = Return ops.
Proof.
  apply (drawCanvas_hover_repaint_returns Example.env
           (Example.chart Example.twoRows "full") Example.scale Example.fromFiveToSeven).
  - reflexivity.
  - reflexivity.
  - intros row Hrow. discriminate.
Defined.

(** X24.  The exceptions of [drawCanvas]: with a scale other than 1 it
    throws its [Error] before anything is drawn, and with the scale at 1
    the only exception is a [TypeError]. *)
Theorem drawCanvas_errors (env : Env) (props : Props)
    (scale : ChartCanvasScale) (hoverInfo : ChartCanvasHoverInfo) :
  ((cssToUserScale scale =? ofZ 1)%num = false ->
   exists message, drawCanvas env props scale hoverInfo = Throw (Error message))
  /\ (forall e,
        (cssToUserScale scale =? ofZ 1)%num = true ->
        drawCanvas env props scale hoverInfo = Throw e -> e = TypeError).
Proof.
  unfold drawCanvas, drawCanvasCalls. split.
  - intros ->. cbn. eauto.
  - intros e ->. cbn [negb mbind outcome_bind]. apply runCalls_throws.
Qed.

Lemma drawCanvas_errors_example :
  exists message,
    drawCanvas Example.env (Example.chart Example.twoRows "full")
      {| cssToUserScale := ofZ 2 |} Example.fromFiveToSeven
    = Throw (Error message).
Proof.
  apply (proj1 (drawCanvas_errors Example.env (Example.chart Example.twoRows "full")
                  {| cssToUserScale := ofZ 2 |} Example.fromFiveToSeven)).
  reflexivity.
Defined.

(** ** The bands of the rows *)



(** ** Labels: hovered and drawn *)

Lemma ofNat_positive (n : nat) : (ofNat (S n) >? ofZ 0)%num = true.
Proof.
  unfold gtb, ofNat, ofZ. cbn [ltb]. apply bool_decide_eq_true_2.
  unfold Qclt. cbn [this Qc_of_Z]. rewrite <- Zlt_Qlt. lia.
Qed.

(** X26.  A label that [hitTest] reports as hovered is a label that
    [drawSeparatorsAndLabels] draws: its row is not row 0, it is the
    first row of its name, and [drawRowLabel] draws the background and
    the fitted name of the row. *)
Theorem hovered_label_is_drawn (env : Env) (props : Props)
    (_textMeasurement : option TextMeasurement) (x y : num)
    (hovered : HoveredMarkerChartItems) (row : nat) :
  hitTest props _textMeasurement x y = Return (Some hovered) ->
  rowIndexOfLabel hovered = Some row ->
  exists markerTiming,
    markerTimingAndBuckets props !! row = Some (Timing markerTiming)
    /\ (0 < row)%nat
    /\ drawRowLabel env props (ofNat row)
       = let fittedText :=
           getFittedText (textMeasurement env) (Some (MarkerTiming.name markerTiming))
             (TIMELINE_MARGIN_LEFT env) in
         Return [SetFillStyle "#ffffffbf";
                 FillRect (ofZ 0) (markerY props (ofNat row))
                   (getTextWidth (textMeasurement env) fittedText
                    + LABEL_PADDING * ofZ 2)%num
                   (rowHeight props);
                 SetFillStyle "#000000";
                 FillText fittedText LABEL_PADDING
                   (markerY props (ofNat row) + TEXT_OFFSET_TOP)%num].
Proof.
  intros (markerTiming & Hrow & Hlabel)%hitTest_Some Hsome.
  rewrite Hsome in Hlabel.
  apply hitTestLabel_Some in Hlabel
    as (Hactive & Hindex & previous & measurement & Hprevious & Hname & _).
  rewrite Hindex in Hrow, Hprevious. rewrite readRow_ofNat in Hrow.
  exists markerTiming. split; [exact Hrow|].
  destruct row as [|row].
  { unfold readRow in Hprevious.
    replace (asArrayIndex (ofNat 0 - ofZ 1)) with (@None nat) in Hprevious
      by (vm_compute; reflexivity).
    discriminate. }
  split; [lia|].
  unfold drawRowLabel. rewrite readRow_ofNat, Hrow, ofNat_positive, Hprevious.
  cbn [mbind outcome_bind].
  rewrite bool_decide_eq_false_2 by congruence.
  rewrite Hactive. reflexivity.
Qed.

Lemma hovered_label_is_drawn_example :
  exists markerTiming,
    markerTimingAndBuckets (Example.chart Example.twoRows "active-tab") !! 1%nat
    = Some (Timing markerTiming)
    /\ (0 < 1)%nat
    /\ drawRowLabel Example.env (Example.chart Example.twoRows "active-tab") (ofNat 1)
       = let fittedText :=
           getFittedText (textMeasurement Example.env)
             (Some (MarkerTiming.name markerTiming)) (TIMELINE_MARGIN_LEFT Example.env) in
         Return [SetFillStyle "#ffffffbf";
                 FillRect (ofZ 0)
                   (markerY (Example.chart Example.twoRows "active-tab") (ofNat 1))
                   (getTextWidth (textMeasurement Example.env) fittedText
                    + LABEL_PADDING * ofZ 2)%num
                   (rowHeight (Example.chart Example.twoRows "active-tab"));
                 SetFillStyle "#000000";
                 FillText fittedText LABEL_PADDING
                   (markerY (Example.chart Example.twoRows "active-tab") (ofNat 1)
                    + TEXT_OFFSET_TOP)%num].
Proof.
  apply (hovered_label_is_drawn Example.env
           (Example.chart Example.twoRows "active-tab") (Some Example.measurement)
           (ofZ 5) (ofZ 40) {| markerIndex := Null; rowIndexOfLabel := Some 1%nat |} 1).
  - apply hitTest_label_hover.
  - reflexivity.
Defined.

(** ** The text of an interval marker *)


